(** * NaukriAI candidate matching: a shallow embedding in Rocq

    This development embeds the deterministic matching core of the
    NaukriAI recruiting toolkit:
    - [ai_matching.py]: the lenient, weighted [AdvancedCandidateMatcher]
      (module [AIMatching]) and the second-pass [CandidateRanker]
      (module [Ranker]);
    - [advanced_matching.py]: the strict [AdvancedCandidateMatcher]
      (module [StrictMatching]).

    Modelling conventions.
    - Python floats are modelled as exact rationals [Q]; the literals of
      the source are written as fractions ([0.9] is [9#10]).
    - Python strings are Rocq [string]s over ASCII; [str.lower], the
      regular-expression classes [\w] and [\s] and [str.split] are modelled
      on their ASCII behaviour.
    - A dataset record (a JSON object) is a record whose fields are
      [option]s: [None] is an absent key, and [dict.get(k, d)] is
      [get_or d].
    - [list.sort(key=..., reverse=True)] is Python's stable sort in
      descending key order; it is modelled by a stable insertion sort. *)

From Stdlib Require Import String Ascii List Bool ZArith QArith Qround Lia Lqa.
From Stdlib Require Import Sorting.Permutation Sorting.Sorted.
Import ListNotations.

Open Scope string_scope.

(* ------------------------------------------------------------------ *)
(** ** Python string primitives *)

Module Py.

(** [str.lower] on ASCII characters. *)
Definition lower_char (c : ascii) : ascii :=
  let n := nat_of_ascii c in
  if (65 <=? n)%nat && (n <=? 90)%nat then ascii_of_nat (n + 32) else c.

Fixpoint lower (s : string) : string :=
  match s with
  | EmptyString => EmptyString
  | String c s' => String (lower_char c) (lower s')
  end.

(** [c.isspace()] / the class [\s] on ASCII: tab, line feed, vertical
    tab, form feed, carriage return, the separators 28..31 and space. *)
Definition is_space (c : ascii) : bool :=
  let n := nat_of_ascii c in
  ((9 <=? n)%nat && (n <=? 13)%nat) || ((28 <=? n)%nat && (n <=? 32)%nat).

(** The class [\w] on ASCII: letters, digits and underscore. *)
Definition is_word (c : ascii) : bool :=
  let n := nat_of_ascii c in
  ((48 <=? n)%nat && (n <=? 57)%nat) || ((65 <=? n)%nat && (n <=? 90)%nat)
  || ((97 <=? n)%nat && (n <=? 122)%nat) || (n =? 95)%nat.

(** [re.sub(pattern, '', s)] where [pattern] is a single-character class:
    drop every character for which [keep] is false. *)
Fixpoint filter_chars (keep : ascii -> bool) (s : string) : string :=
  match s with
  | EmptyString => EmptyString
  | String c s' =>
      if keep c then String c (filter_chars keep s') else filter_chars keep s'
  end.

(** [s.split()] with no argument: split on runs of whitespace, dropping
    empty fields. [cur] is the field read so far. *)
Fixpoint split_ws_aux (s cur : string) : list string :=
  match s with
  | EmptyString => if String.eqb cur "" then [] else [cur]
  | String c s' =>
      if is_space c then
        if String.eqb cur "" then split_ws_aux s' ""
        else cur :: split_ws_aux s' ""
      else split_ws_aux s' (cur ++ String c "")
  end.

Definition split (s : string) : list string := split_ws_aux s "".

(** [sep.join(l)]. *)
Fixpoint join (sep : string) (l : list string) : string :=
  match l with
  | [] => ""
  | [x] => x
  | x :: l' => x ++ sep ++ join sep l'
  end.

(** [a.startswith(b)] read the other way round: [b] is a prefix of [a]. *)
Fixpoint prefixb (p s : string) : bool :=
  match p, s with
  | EmptyString, _ => true
  | String _ _, EmptyString => false
  | String c p', String d s' => Ascii.eqb c d && prefixb p' s'
  end.

(** The string containment test [a in b]. *)
Fixpoint contains (a b : string) : bool :=
  prefixb a b ||
  match b with
  | EmptyString => false
  | String _ b' => contains a b'
  end.

(** [d.get(k, default)] on a dictionary kept as an association list. *)
Fixpoint dict_get {A : Type} (d : list (string * A)) (k : string) : option A :=
  match d with
  | [] => None
  | (k', v) :: d' => if String.eqb k k' then Some v else dict_get d' k
  end.

Definition get_or {A : Type} (default : A) (o : option A) : A :=
  match o with Some v => v | None => default end.

(** Truthiness of an optional string argument: [None] and [''] are false. *)
Definition truthy_str (o : option string) : bool :=
  match o with Some s => negb (String.eqb s "") | None => false end.

(** Truthiness of an optional list argument: [None] and [[]] are false. *)
Definition truthy_list {A : Type} (o : option (list A)) : bool :=
  match o with Some (_ :: _) => true | _ => false end.

(** [max(a, b)] on numbers. *)
Definition qmax (a b : Q) : Q := if Qle_bool b a then a else b.

(** Slicing [l[:n]]: a non-negative [n] keeps the first [n] elements, a
    negative one drops the last [-n]. *)
Definition slice_upto {A : Type} (l : list A) (n : Z) : list A :=
  if (0 <=? n)%Z then firstn (Z.to_nat n) l
  else firstn (Z.to_nat (Z.max 0 (Z.of_nat (length l) + n))) l.

End Py.

(* ------------------------------------------------------------------ *)
(** ** Stable descending sort ([list.sort(key=k, reverse=True)]) *)

Module StableSort.
Section Sort.
Variable A : Type.
Variable key : A -> Q.

(** Insert [x] after every element whose key is at least [key x]: earlier
    elements with an equal key stay in front. *)
Fixpoint insert_desc (x : A) (l : list A) : list A :=
  match l with
  | [] => [x]
  | y :: l' => if Qlt_le_dec (key y) (key x) then x :: y :: l'
               else y :: insert_desc x l'
  end.

Definition sort_desc (l : list A) : list A :=
  fold_left (fun acc x => insert_desc x acc) l [].

End Sort.
Arguments insert_desc {A} key x l.
Arguments sort_desc {A} key l.
End StableSort.

(* ------------------------------------------------------------------ *)
(** ** [ai_matching.AdvancedCandidateMatcher]: the lenient weighted engine *)

Module AIMatching.
Import Py.

(** A dataset record; every key may be absent. *)
Record Candidate := mkCandidate {
  c_name : option string;
  c_seniority : option string;
  c_skills : option (list string);
  c_experience_years : option string;
  c_employment_type : option string;
  c_location : option (list string)
}.

(** The [CandidateMatch] dataclass. *)
Record CandidateMatch := mkCandidateMatch {
  name : string;
  seniority : string;
  skills : list string;
  experience_years : string;
  employment_type : string;
  location : list string;
  match_score : Q;
  skill_gaps : list string;
  skill_matches : list string;
  experience_match : Q;
  seniority_match : Q;
  employment_match : Q;
  location_match : Q
}.

(** The matcher object: the loaded dataset and the skill weights. The
    language-model client it also holds is never used by the methods
    embedded here. *)
Record Matcher := mkMatcher {
  dataset : list Candidate;
  skill_weights : list (string * Q)
}.

(** [_initialize_skill_weights]. *)
Definition initial_skill_weights : list (string * Q) :=
  [("python", 1#1); ("javascript", 9#10); ("react", 9#10);
   ("node.js", 9#10); ("machine learning", 6#5); ("data science", 11#10);
   ("cloud computing", 1#1); ("aws", 1#1); ("azure", 1#1);
   ("kubernetes", 11#10); ("docker", 1#1); ("devops", 1#1);
   ("rag", 6#5); ("langchain", 6#5); ("llama index", 6#5);
   ("langflow", 11#10); ("agentic ai", 13#10); ("generative-ai", 13#10)].

(** [_preprocess_text]: [' '.join(re.sub(r'[^\w\s-]', '', text.lower()).split())]. *)
Definition preprocess_text (text : string) : string :=
  join " " (split (filter_chars
    (fun c => is_word c || is_space c || Ascii.eqb c "-"%char) (lower text))).

(** The matching test [req_skill in cand_skill or cand_skill in req_skill]. *)
Definition related (r c : string) : bool := contains r c || contains c r.

(** The inner [for cand_skill in candidate_skills] loop: the first
    candidate skill related to [r], if any ([break] on the first hit). *)
Fixpoint first_match (r : string) (cands : list string) : option string :=
  match cands with
  | [] => None
  | c :: cs => if related r c then Some c else first_match r cs
  end.

(** The outer loop building [matches] and [gaps]. *)
Fixpoint matches_gaps (reqs cands : list string) : list string * list string :=
  match reqs with
  | [] => ([], [])
  | r :: rs =>
      let '(ms, gs) := matches_gaps rs cands in
      match first_match r cands with
      | Some c => (c :: ms, gs)
      | None => (ms, r :: gs)
      end
  end.

(** The weighted score loop: [(match_score, total_weight)]. *)
Definition weight_loop (weights : list (string * Q)) (reqs ms : list string)
  : Q * Q :=
  fold_left (fun '(acc, tot) skill =>
      let w := get_or 1 (dict_get weights skill) in
      (if existsb (fun m => contains skill m || contains m skill) ms
       then acc + w else acc, tot + w))
    reqs (0, 0).

(** [_calculate_skill_similarity]: [(normalized_score, gaps, matches)]. *)
Definition calculate_skill_similarity (weights : list (string * Q))
    (required_skills candidate_skills : list string)
  : Q * list string * list string :=
  match required_skills with
  | [] => (1, [], [])
  | _ =>
    let reqs := map preprocess_text required_skills in
    let cands := map preprocess_text candidate_skills in
    let '(ms, gs) := matches_gaps reqs cands in
    let '(score, total) := weight_loop weights reqs ms in
    let normalized := if Qlt_le_dec 0 total then score / total else 0 in
    (normalized, gs, ms)
  end.

(** The shared ordinal-ratio rule of the experience and seniority
    matchers, with [0] standing for an unknown label. *)
Definition level_match (req_level cand_level : Z) : Q :=
  if (req_level =? 0)%Z || (cand_level =? 0)%Z then 1#2
  else if (req_level <=? cand_level)%Z then 1
  else qmax (1#10) ((1#10) + (inject_Z cand_level / inject_Z req_level) * (9#10)).

Definition exp_map : list (string * Z) :=
  [("1-3", 1%Z); ("3-5", 2%Z); ("5-10", 3%Z); ("10+", 4%Z); ("15+", 5%Z)].

(** [_calculate_experience_match]. *)
Definition calculate_experience_match (required_exp candidate_exp : string) : Q :=
  level_match (get_or 0%Z (dict_get exp_map (lower required_exp)))
              (get_or 0%Z (dict_get exp_map (lower candidate_exp))).

Definition seniority_levels : list (string * Z) :=
  [("junior", 1%Z); ("midlevel", 2%Z); ("senior", 3%Z)].

(** [_calculate_seniority_match]. *)
Definition calculate_seniority_match (required_seniority candidate_seniority : string) : Q :=
  level_match (get_or 0%Z (dict_get seniority_levels (lower required_seniority)))
              (get_or 0%Z (dict_get seniority_levels (lower candidate_seniority))).

(** [_calculate_employment_match]. *)
Definition calculate_employment_match (required_type candidate_type : string) : Q :=
  if String.eqb (lower required_type) (lower candidate_type) then 1
  else if contains "remote" (lower required_type)
          || contains "remote" (lower candidate_type) then 4#5
  else 0.

(** [_calculate_location_match]. *)
Definition calculate_location_match (required_locations candidate_locations : list string) : Q :=
  match required_locations with
  | [] => 1
  | _ =>
    let req := map lower required_locations in
    let cand := map lower candidate_locations in
    if existsb (fun loc => existsb (String.eqb loc) cand) req then 1
    else if existsb (String.eqb "remote") req || existsb (String.eqb "remote") cand
    then 4#5
    else 0
  end.

(** The arguments of [match_candidates]. *)
Record Requirement := mkRequirement {
  required_skills : list string;
  req_seniority : option string;
  req_experience_years : option string;
  req_employment_type : option string;
  req_locations : option (list string)
}.

(** The weight vector of [match_candidates]. *)
Definition w_skills : Q := 1#2.
Definition w_experience : Q := 1#5.
Definition w_seniority : Q := 3#20.
Definition w_employment : Q := 1#10.
Definition w_location : Q := 1#20.

Definition weights_sum : Q :=
  w_skills + w_experience + w_seniority + w_employment + w_location.

(** The sub-scores of one candidate; an omitted requirement scores 1.0. *)
Definition exp_score (rq : Requirement) (c : Candidate) : Q :=
  if truthy_str (req_experience_years rq)
  then calculate_experience_match (get_or "" (req_experience_years rq))
                                  (get_or "" (c_experience_years c))
  else 1.

Definition seniority_score (rq : Requirement) (c : Candidate) : Q :=
  if truthy_str (req_seniority rq)
  then calculate_seniority_match (get_or "" (req_seniority rq))
                                 (get_or "" (c_seniority c))
  else 1.

Definition employment_score (rq : Requirement) (c : Candidate) : Q :=
  if truthy_str (req_employment_type rq)
  then calculate_employment_match (get_or "" (req_employment_type rq))
                                  (get_or "" (c_employment_type c))
  else 1.

Definition location_score (rq : Requirement) (c : Candidate) : Q :=
  if truthy_list (req_locations rq)
  then calculate_location_match (get_or [] (req_locations rq))
                                (get_or [] (c_location c))
  else 1.

(** [total_score]: the weighted average of the five sub-scores. *)
Definition total_score (skill exp sen emp loc : Q) : Q :=
  (skill * w_skills + exp * w_experience + sen * w_seniority
   + emp * w_employment + loc * w_location) / weights_sum.

(** The body of the [for candidate in self.dataset] loop. *)
Definition score_candidate (weights : list (string * Q)) (rq : Requirement)
    (c : Candidate) : CandidateMatch :=
  let '(skill, gaps, ms) :=
      calculate_skill_similarity weights (required_skills rq) (get_or [] (c_skills c)) in
  let e := exp_score rq c in
  let s := seniority_score rq c in
  let m := employment_score rq c in
  let l := location_score rq c in
  {| name := get_or "Unknown" (c_name c);
     seniority := get_or "" (c_seniority c);
     skills := get_or [] (c_skills c);
     experience_years := get_or "" (c_experience_years c);
     employment_type := get_or "" (c_employment_type c);
     location := get_or [] (c_location c);
     match_score := total_score skill e s m l;
     skill_gaps := gaps;
     skill_matches := ms;
     experience_match := e;
     seniority_match := s;
     employment_match := m;
     location_match := l |}.

(** [match_candidates], as a state-passing method on the matcher: it
    returns the ranked, truncated list and the matcher after the call. *)
Definition match_candidates (self : Matcher) (rq : Requirement) (top_n : Z)
  : list CandidateMatch * Matcher :=
  let matches := map (score_candidate (skill_weights self) rq) (dataset self) in
  let sorted := StableSort.sort_desc match_score matches in
  (Py.slice_upto sorted top_n, self).

End AIMatching.

(* ------------------------------------------------------------------ *)
(** ** [advanced_matching.AdvancedCandidateMatcher]: the strict engine *)

Module StrictMatching.
Import Py.

(** The dataset records are the same JSON objects as for the lenient engine. *)
Definition Candidate := AIMatching.Candidate.

(** The two language-model helpers, [_generate_skill_gap_analysis] and
    [_generate_interview_questions], catch every error of the service and
    only fill annotation fields; their texts are left abstract. *)
Section Strict.
Variable llm_gap_analysis : list string -> list string -> list (string * string).
Variable llm_interview_questions : Candidate -> list string -> list string.

(** The [ScoredCandidate] dataclass. *)
Record ScoredCandidate := mkScored {
  candidate : Candidate;
  score : Q;
  skill_matches : list string;
  missing_skills : list string;
  skill_gap_analysis : list (string * string);
  interview_questions : list string
}.

(** [x in s] for the set [s] built with [set(...)], kept as a list. *)
Definition mem (x : string) (s : list string) : bool := existsb (String.eqb x) s.

(** [_generate_skill_gap_analysis]. *)
Definition generate_skill_gap_analysis (candidate_skills required : list string)
  : list (string * string) :=
  match filter (fun s => negb (mem s candidate_skills)) required with
  | [] => [("status", "All required skills met")]
  | _ => llm_gap_analysis candidate_skills required
  end.

(** The [continue] filters at the head of the loop: [true] keeps the candidate. *)
Definition passes_filters (seniority location employment_type experience_years : option string)
    (c : Candidate) : bool :=
  (negb (truthy_str seniority)
     || match AIMatching.c_seniority c, seniority with
        | Some a, Some b => String.eqb a b
        | _, _ => false
        end)
  && (negb (truthy_str location)
      || existsb (String.eqb (lower (get_or "" location)))
                 (map lower (get_or [] (AIMatching.c_location c))))
  && (negb (truthy_str employment_type)
      || String.eqb (lower (get_or "" employment_type))
                    (lower (get_or "" (AIMatching.c_employment_type c))))
  && (negb (truthy_str experience_years)
      || match AIMatching.c_experience_years c, experience_years with
         | Some a, Some b => String.eqb a b
         | _, _ => false
         end).

(** [len(a) / len(b)] as a number. *)
Definition ratio {A B : Type} (a : list A) (b : list B) : Q :=
  inject_Z (Z.of_nat (length a)) / inject_Z (Z.of_nat (length b)).

(** One iteration of the loop: [None] is [continue]. *)
Definition score_candidate (required_skills preferred_skills : list string)
    (seniority location employment_type experience_years : option string)
    (c : Candidate) : option ScoredCandidate :=
  if negb (passes_filters seniority location employment_type experience_years c)
  then None
  else
  let candidate_skills := map lower (get_or [] (AIMatching.c_skills c)) in
  let required_lower := map lower required_skills in
  let preferred_lower := map lower preferred_skills in
  let matched_required := filter (fun s => mem s candidate_skills) required_lower in
  let matched_preferred := filter (fun s => mem s candidate_skills) preferred_lower in
  let missing_required := filter (fun s => negb (mem s candidate_skills)) required_lower in
  match missing_required with
  | _ :: _ => None
  | [] =>
    let s1 := match required_lower with
              | [] => 0 | _ => 50 * ratio matched_required required_lower end in
    let s2 := match preferred_lower with
              | [] => 0 | _ => 30 * ratio matched_preferred preferred_lower end in
    let s3 := if truthy_str seniority
                 && match AIMatching.c_seniority c, seniority with
                    | Some a, Some b => String.eqb a b | _, _ => false end
              then 10 else 0 in
    let s4 := if truthy_str experience_years
                 && match AIMatching.c_experience_years c, experience_years with
                    | Some a, Some b => String.eqb a b | _, _ => false end
              then 10 else 0 in
    let sc := s1 + s2 + s3 + s4 in
    Some {| candidate := c;
            score := if Qle_bool 100 sc then 100 else sc;
            skill_matches := matched_required ++ matched_preferred;
            missing_skills := missing_required;
            skill_gap_analysis :=
              generate_skill_gap_analysis candidate_skills (required_lower ++ preferred_lower);
            interview_questions :=
              llm_interview_questions c (required_lower ++ preferred_lower) |}
  end.

(** [match_candidates]; [preferred_skills = None] is the empty list. *)
Definition match_candidates (dataset : list Candidate)
    (required_skills : list string) (preferred_skills : option (list string))
    (seniority location employment_type experience_years : option string)
    (top_n : Z) : list ScoredCandidate :=
  let scored := flat_map (fun c =>
      match score_candidate required_skills (get_or [] preferred_skills)
              seniority location employment_type experience_years c with
      | Some s => [s] | None => [] end) dataset in
  slice_upto (StableSort.sort_desc score scored) top_n.

End Strict.
End StrictMatching.

(* ------------------------------------------------------------------ *)
(** ** [ai_matching.CandidateRanker]: the second-pass ranker *)

Module Ranker.
Import Py.

#[local] Set Warnings "-register-all".

(** JSON values: the candidates handed to the ranker are plain dicts. *)
Inductive jval :=
| JNull
| JBool (b : bool)
| JNum (q : Q)
| JStr (s : string)
| JArr (l : list jval)
| JObj (kvs : list (string * jval)).

Definition dict := list (string * jval).

(** [d[k] = v]: an existing key keeps its place, a new one is appended. *)
Fixpoint dict_set (d : dict) (k : string) (v : jval) : dict :=
  match d with
  | [] => [(k, v)]
  | (k', v') :: d' => if String.eqb k k' then (k', v) :: d' else (k', v') :: dict_set d' k v
  end.

(** Python truthiness of a JSON value. *)
Definition truthy (v : jval) : bool :=
  match v with
  | JNull => false
  | JBool b => b
  | JNum q => negb (Qeq_bool q 0)
  | JStr s => negb (String.eqb s "")
  | JArr l => match l with [] => false | _ => true end
  | JObj kvs => match kvs with [] => false | _ => true end
  end.

(** A value used as a number in arithmetic: [None] is the [TypeError]. *)
Definition num_of (v : jval) : option Q :=
  match v with
  | JNum q => Some q
  | JBool b => Some (if b then 1 else 0)
  | _ => None
  end.

(** [s.split(sep)[0]]: the text before the first [sep]. *)
Fixpoint before_char (sep : ascii) (s : string) : string :=
  match s with
  | EmptyString => EmptyString
  | String c s' => if Ascii.eqb c sep then EmptyString else String c (before_char sep s')
  end.

(** [s.replace(c, '')]. *)
Definition remove_char (c : ascii) (s : string) : string :=
  filter_chars (fun d => negb (Ascii.eqb d c)) s.

(** [round(x, 2)] on the exact value: to the nearest hundredth, ties to even. *)
Definition round2 (x : Q) : Q :=
  let y := x * 100 in
  let f := Qfloor y in
  let frac := y - inject_Z f in
  let r := if Qlt_le_dec frac (1#2) then f
           else if Qlt_le_dec (1#2) frac then (f + 1)%Z
           else if Z.even f then f else (f + 1)%Z in
  inject_Z r / 100.

(** The response of the language-model service for one candidate: the
    call (or the JSON decoding of its text) raised with a message, or
    [json.loads] returned a value. [json.loads] gives a Python [int] for a
    JSON number without fraction or exponent and a [float] otherwise; in
    [Returned] a number at the top level is an [int], [ReturnedFloat] is a
    top-level [float]. *)
Inductive outcome :=
| Raised (msg : string)
| Returned (v : jval)
| ReturnedFloat (q : Q).

(** [type(v).__name__] of a decoded JSON value (numbers as [int]). *)
Definition py_type_name (v : jval) : string :=
  match v with
  | JNull => "NoneType" | JBool _ => "bool" | JNum _ => "int" | JStr _ => "str"
  | JArr _ => "list" | JObj _ => "dict"
  end.

(** [repr] of a string, each byte read as the code point U+0000..U+00FF:
    single quotes unless the text holds a single quote and no double
    quote; the quote in use and the backslash escaped; tab, newline and
    carriage return as [\t], [\n], [\r]; the other unprintable
    characters (controls, U+007F..U+00A0, U+00AD) as [\xhh]. *)
Definition hex_digit (n : nat) : ascii :=
  ascii_of_nat (if Nat.ltb n 10 then 48 + n else 87 + n).

Definition repr_char (quote c : ascii) : string :=
  let n := nat_of_ascii c in
  if Ascii.eqb c quote || Ascii.eqb c "092"%char then String "092"%char (String c EmptyString)
  else if Nat.eqb n 9 then String "092"%char "t"
  else if Nat.eqb n 10 then String "092"%char "n"
  else if Nat.eqb n 13 then String "092"%char "r"
  else if Nat.ltb n 32 || (Nat.leb 127 n && Nat.leb n 160) || Nat.eqb n 173
  then String "092"%char (String "x"%char
         (String (hex_digit (n / 16)) (String (hex_digit (n mod 16)) EmptyString)))
  else String c EmptyString.

Definition py_repr (s : string) : string :=
  let chars := list_ascii_of_string s in
  let quote := if existsb (Ascii.eqb "'"%char) chars
                  && negb (existsb (Ascii.eqb "034"%char) chars)
               then "034"%char else "'"%char in
  String quote (List.fold_right append (String quote EmptyString)
                  (map (repr_char quote) chars)).

Section Rank.
(** [float(s)] on a string: [None] is the [ValueError]. *)
Variable py_float : string -> option Q.

(** [_calculate_experience_score]; [None] is an uncaught exception. *)
Definition calculate_experience_score (experience : jval) : option Q :=
  if negb (truthy experience) then Some (1#2)
  else
  let clamp y := let m := qmax 0 (y / 20) in if Qlt_le_dec m 1 then m else 1 in
  match experience with
  | JStr s =>
      if contains "-" s then option_map clamp (py_float (before_char "-"%char s))
      else if contains "+" s then option_map clamp (py_float (remove_char "+"%char s))
      else Some (clamp 0)
  | JArr l =>
      if existsb (fun v => match v with JStr t => String.eqb t "-" | _ => false end) l
      then None
      else if existsb (fun v => match v with JStr t => String.eqb t "+" | _ => false end) l
      then None else Some (clamp 0)
  | JObj kvs =>
      if existsb (fun kv => String.eqb (fst kv) "-") kvs then None
      else if existsb (fun kv => String.eqb (fst kv) "+") kvs then None
      else Some (clamp 0)
  | _ => None
  end.

(** [_calculate_seniority_score]. *)
Definition seniority_table : list (string * Q) :=
  [("junior", 3#10); ("midlevel", 3#5); ("senior", 9#10);
   ("lead", 1); ("principal", 1)].

Definition calculate_seniority_score (seniority : string) : Q :=
  get_or (1#2) (dict_get seniority_table (lower seniority)).

(** [_calculate_cultural_fit] given the service's outcome: the score and
    the lines printed to standard output. Every exception is caught and
    printed as [str(e)]. *)
Definition calculate_cultural_fit (o : outcome) : Q * list string :=
  let fail msg := (1#2, ["Error calculating cultural fit: " ++ msg]) in
  let no_get name := fail ("'" ++ name ++ "' object has no attribute 'get'") in
  match o with
  | Raised msg => fail msg
  | Returned (JObj kvs) =>
      match dict_get kvs "cultural_fit_score" with
      | None => (1#2, [])
      | Some (JNum q) => (q, [])
      | Some (JBool b) => (if b then 1 else 0, [])
      | Some (JStr s) =>
          match py_float s with
          | Some q => (q, [])
          | None => fail ("could not convert string to float: " ++ py_repr s)
          end
      | Some v =>
          fail ("float() argument must be a string or a real number, not '"
                ++ py_type_name v ++ "'")
      end
  | Returned v => no_get (py_type_name v)
  | ReturnedFloat _ => no_get "float"
  end.

(** The ranker's weights ([self.criteria_weights]). *)
Definition default_criteria : list (string * Q) :=
  [("skill_match", 2#5); ("experience", 1#4); ("seniority", 3#20);
   ("education", 1#10); ("cultural_fit", 1#10)].

(** [self.criteria_weights.update(custom)]. *)
Definition update_weights (w custom : list (string * Q)) : list (string * Q) :=
  fold_left (fun acc kv =>
      (fix set (d : list (string * Q)) : list (string * Q) :=
         match d with
         | [] => [kv]
         | (k', v') :: d' => if String.eqb (fst kv) k' then (k', snd kv) :: d'
                             else (k', v') :: set d'
         end) acc) custom w.

(** The body of the scoring loop for one candidate, in the order of the
    source: the skill score is read, the experience score computed, the
    seniority value lowercased (an [AttributeError] unless it is a
    string), then the cultural-fit call is made if a culture description
    is given, and last the weighted sum is formed (a [TypeError] for a
    non-numeric skill score, a [KeyError] for a missing weight). [ext] is
    the service's answer to this candidate's call. The result is the
    candidate with its [ranking_scores] set ([None] for an uncaught
    exception) and the printed lines. *)
Definition score_one (weights : list (string * Q)) (company_culture : option string)
    (ext : outcome) (c : dict) : option dict * list string :=
  let skill_score := match dict_get c "match_score" with Some v => v | None => JNum (1#2) end in
  match calculate_experience_score (get_or (JStr "") (dict_get c "experience_years")) with
  | None => (None, [])
  | Some exp_score =>
      match get_or (JStr "") (dict_get c "seniority") with
      | JStr seniority =>
          let seniority_score := calculate_seniority_score (lower seniority) in
          let education_score := 7#10 in
          let '(cultural_fit_score, out) :=
              if truthy_str company_culture then calculate_cultural_fit ext else (1#2, []) in
          let result :=
            match num_of skill_score, dict_get weights "skill_match",
                  dict_get weights "experience", dict_get weights "seniority",
                  dict_get weights "education", dict_get weights "cultural_fit" with
            | Some skill_score, Some w1, Some w2, Some w3, Some w4, Some w5 =>
                let weighted := skill_score * w1 + exp_score * w2 + seniority_score * w3
                                + education_score * w4 + cultural_fit_score * w5 in
                Some (dict_set c "ranking_scores"
                  (JObj [("overall", JNum (round2 weighted));
                         ("skill_match", JNum (round2 skill_score));
                         ("experience", JNum (round2 exp_score));
                         ("seniority", JNum (round2 seniority_score));
                         ("education", JNum (round2 education_score));
                         ("cultural_fit", JNum (round2 cultural_fit_score))]))
            | _, _, _, _, _, _ => None
            end in
          (result, out)
      | _ => (None, [])
      end
  end.

(** The scoring loop: candidate [i] gets the service's answer [ext i].
    An uncaught exception stops the loop; the lines printed so far stay. *)
Fixpoint score_all (weights : list (string * Q)) (company_culture : option string)
    (ext : nat -> outcome) (i : nat) (cs : list dict) : option (list dict) * list string :=
  match cs with
  | [] => (Some [], [])
  | c :: cs' =>
      let '(r, out) := score_one weights company_culture (ext i) c in
      match r with
      | None => (None, out)
      | Some d =>
          let '(rest, out') := score_all weights company_culture ext (S i) cs' in
          (option_map (cons d) rest, app out out')
      end
  end.

(** [x['ranking_scores']['overall']]. *)
Definition overall_of (d : dict) : Q :=
  match dict_get d "ranking_scores" with
  | Some (JObj kvs) => match dict_get kvs "overall" with Some (JNum q) => q | _ => 0 end
  | _ => 0
  end.

(** [rank_candidates]: the result ([None] for an exception), the ranker's
    weights after the call, and the printed lines. *)
Definition rank_candidates (criteria_weights : list (string * Q)) (candidates : list dict)
    (job_description : string) (company_culture : option string)
    (custom_criteria : option (list (string * Q))) (ext : nat -> outcome)
  : option (list dict) * list (string * Q) * list string :=
  let w := if truthy_list custom_criteria
           then update_weights criteria_weights (get_or [] custom_criteria)
           else criteria_weights in
  let '(r, out) := score_all w company_culture ext 0 candidates in
  (option_map (StableSort.sort_desc overall_of) r, w, out).

End Rank.
End Ranker.

(* ------------------------------------------------------------------ *)
(** ** More Python text primitives *)

Module PyText.
Import Py.

(** [s.replace(a, b)] for one-character [a] and [b]. *)
Fixpoint replace_char (a b : ascii) (s : string) : string :=
  match s with
  | EmptyString => EmptyString
  | String c s' => String (if Ascii.eqb c a then b else c) (replace_char a b s')
  end.

(** [s.split(sep)] for a one-character [sep]: empty fields are kept. *)
Fixpoint split_char_aux (sep : ascii) (s cur : string) : list string :=
  match s with
  | EmptyString => [cur]
  | String c s' =>
      if Ascii.eqb c sep then cur :: split_char_aux sep s' ""
      else split_char_aux sep s' (cur ++ String c "")
  end.

Definition split_char (sep : ascii) (s : string) : list string := split_char_aux sep s "".

(** [s.lstrip()] and [s.rstrip()] with no argument. *)
Fixpoint lstrip (s : string) : string :=
  match s with
  | EmptyString => EmptyString
  | String c s' => if is_space c then lstrip s' else s
  end.

Fixpoint rstrip (s : string) : string :=
  match s with
  | EmptyString => EmptyString
  | String c s' =>
      let r := rstrip s' in
      if is_space c && String.eqb r "" then EmptyString else String c r
  end.

(** [s.strip()]. *)
Definition strip (s : string) : string := rstrip (lstrip s).

(** [s.split(sep, 1)[1]] when [sep in s]: the text after the first [sep]. *)
Fixpoint after_char (sep : ascii) (s : string) : string :=
  match s with
  | EmptyString => EmptyString
  | String c s' => if Ascii.eqb c sep then s' else after_char sep s'
  end.

(** [c.isdigit()] on ASCII. *)
Definition is_digit (c : ascii) : bool :=
  let n := nat_of_ascii c in (48 <=? n)%nat && (n <=? 57)%nat.

End PyText.

(* ------------------------------------------------------------------ *)
(** ** [ai_matching]: [CandidateMatch.to_dict], [dataclasses.asdict] and
    the skill-gap report *)

Module MatchReport.
Import Py PyText AIMatching Ranker.

(** A list of strings as a JSON array. *)
Definition strs (l : list string) : jval := JArr (map JStr l).

(** [CandidateMatch.to_dict]: the fields in order, scores rounded to two
    decimals. *)
Definition to_dict (m : CandidateMatch) : dict :=
  [("name", JStr (name m)); ("seniority", JStr (seniority m));
   ("skills", strs (skills m)); ("experience_years", JStr (experience_years m));
   ("employment_type", JStr (employment_type m)); ("location", strs (location m));
   ("match_score", JNum (round2 (match_score m)));
   ("skill_gaps", strs (skill_gaps m)); ("skill_matches", strs (skill_matches m));
   ("experience_match", JNum (round2 (experience_match m)));
   ("seniority_match", JNum (round2 (seniority_match m)));
   ("employment_match", JNum (round2 (employment_match m)));
   ("location_match", JNum (round2 (location_match m)))].

(** [dataclasses.asdict] on a [CandidateMatch]: the fields in order,
    unrounded (used by [streamlit_app.find_and_rank_candidates]). *)
Definition asdict (m : CandidateMatch) : dict :=
  [("name", JStr (name m)); ("seniority", JStr (seniority m));
   ("skills", strs (skills m)); ("experience_years", JStr (experience_years m));
   ("employment_type", JStr (employment_type m)); ("location", strs (location m));
   ("match_score", JNum (match_score m));
   ("skill_gaps", strs (skill_gaps m)); ("skill_matches", strs (skill_matches m));
   ("experience_match", JNum (experience_match m));
   ("seniority_match", JNum (seniority_match m));
   ("employment_match", JNum (employment_match m));
   ("location_match", JNum (location_match m))].

(** A learning resource ([{'title': ..., 'url': ...}]). *)
Record Resource := mkResource { title : string; url : string }.

(** The table of [_generate_learning_resources]. *)
Definition resources : list (string * list Resource) :=
  [("python",
     [mkResource "Python Official Documentation" "https://docs.python.org/3/";
      mkResource "Real Python Tutorials" "https://realpython.com/";
      mkResource "Python for Data Science Handbook"
                 "https://jakevdp.github.io/PythonDataScienceHandbook/"]);
   ("javascript",
     [mkResource "MDN JavaScript Guide"
                 "https://developer.mozilla.org/en-US/docs/Web/JavaScript/Guide";
      mkResource "Eloquent JavaScript" "https://eloquentjavascript.net/";
      mkResource "You Don't Know JS" "https://github.com/getify/You-Dont-Know-JS"]);
   ("machine learning",
     [mkResource "Fast.ai Practical Deep Learning" "https://course.fast.ai/";
      mkResource "Google ML Crash Course"
                 "https://developers.google.com/machine-learning/crash-course";
      mkResource "Andrew Ng's Machine Learning Course"
                 "https://www.coursera.org/learn/machine-learning"]);
   ("data science",
     [mkResource "Data Science Handbook"
                 "https://jakevdp.github.io/PythonDataScienceHandbook/";
      mkResource "Kaggle Learn" "https://www.kaggle.com/learn";
      mkResource "DataCamp" "https://www.datacamp.com/"]);
   ("cloud computing",
     [mkResource "AWS Training and Certification" "https://aws.amazon.com/training/";
      mkResource "Google Cloud Training" "https://cloud.google.com/training";
      mkResource "Microsoft Learn" "https://docs.microsoft.com/en-us/learn/"])].

(** [default_resources] of [_generate_learning_resources]. *)
Definition default_resources (skill : string) : list Resource :=
  let q := replace_char " " "+" skill in
  [mkResource ("Search for " ++ skill ++ " on Coursera")
              ("https://www.coursera.org/search?query=" ++ q);
   mkResource ("Search for " ++ skill ++ " on edX")
              ("https://www.edx.org/search?q=" ++ q);
   mkResource ("Search for " ++ skill ++ " on YouTube")
              ("https://www.youtube.com/results?search_query=" ++ q ++ "+tutorial")].

(** [_generate_learning_resources]. *)
Definition generate_learning_resources (skill : string) : list Resource :=
  firstn 3 (get_or (default_resources skill) (dict_get resources (lower skill))).

(** The loop of [analyze_skill_gaps]: [(missing_skills, matching_skills)];
    a required skill is matching when it contains, or is contained in,
    some candidate skill ([break] on the first). *)
Fixpoint gap_loop (reqs cands : list string) : list string * list string :=
  match reqs with
  | [] => ([], [])
  | r :: rs =>
      let '(missing, matching) := gap_loop rs cands in
      if existsb (fun c => contains r c || contains c r) cands
      then (missing, r :: matching) else (r :: missing, matching)
  end.

(** The dictionary returned by [analyze_skill_gaps]. *)
Record SkillGapReport := mkSkillGapReport {
  missing_skills : list string;
  matching_skills : list string;
  coverage : Q;
  recommendations : list (string * list Resource)
}.

(** [analyze_skill_gaps]. *)
Definition analyze_skill_gaps (candidate_skills required_skills : list string)
  : SkillGapReport :=
  let candidate_skills_lower := map lower candidate_skills in
  let required_skills_lower := map lower required_skills in
  let '(missing, matching) := gap_loop required_skills_lower candidate_skills_lower in
  let cov := match required_skills with
             | [] => 0
             | _ => inject_Z (Z.of_nat (length matching))
                    / inject_Z (Z.of_nat (length required_skills)) end in
  {| missing_skills := missing;
     matching_skills := matching;
     coverage := round2 (cov * 100);
     recommendations := map (fun s => (s, generate_learning_resources s)) missing |}.

End MatchReport.

(* ------------------------------------------------------------------ *)
(** ** [CandidateRanker.__init__] and the Streamlit ranking flow *)

Module RankFlow.
Import Py AIMatching Ranker MatchReport.

(** [criteria_weights or {...}]: an empty or absent table gives the defaults. *)
Definition init_criteria (criteria_weights : option (list (string * Q))) : list (string * Q) :=
  if truthy_list criteria_weights then get_or [] criteria_weights else default_criteria.

(** [streamlit_app.find_and_rank_candidates] after the matcher call: the
    matches are turned into dicts with [asdict] and ranked by a fresh
    [CandidateRanker()] with [company_culture=""]. *)
Definition rank_matches (py_float : string -> option Q) (matches : list CandidateMatch)
    (job_desc : string) (ext : nat -> outcome)
  : option (list dict) * list (string * Q) * list string :=
  rank_candidates py_float (init_criteria None) (map asdict matches) job_desc (Some "") None ext.

End RankFlow.

(* ------------------------------------------------------------------ *)
(** ** [advanced_matching]: the language-model helpers' own logic *)

Module StrictHelpers.
Import Py PyText.

(** A chat-completion call: it raised (or produced no text), or it
    returned the message text. *)
Inductive service :=
| SvcFailed (msg : string)
| SvcText (content : string).

(** One line of the interview-question response: [None] when it is
    skipped. *)
Definition question_of_line (line : string) : option string :=
  let l := strip line in
  match l with
  | EmptyString => None
  | String c rest =>
      if is_digit c || Ascii.eqb c "-"
      then Some (if contains "." l then strip (after_char "." l) else strip rest)
      else None
  end.

(** [_generate_interview_questions]; the candidate only enters the prompt. *)
Definition generate_interview_questions (resp : service) (candidate : AIMatching.Candidate)
    (required_skills : list string) : list string :=
  match resp with
  | SvcFailed _ =>
      map (fun skill => "Tell me about your experience with " ++ skill ++ "?")
          (firstn 5 required_skills)
  | SvcText content =>
      firstn 5 (flat_map (fun line => match question_of_line line with
                                      | Some q => [q] | None => [] end)
                         (split_char "010"%char content))
  end.

Section GapAnalysis.
(** [str(e)] of the [KeyError] raised for a key. *)
Variable key_error_str : string -> string.

(** The parsing loop of [_generate_skill_gap_analysis]: the analysis
    built so far and [current_skill]; [inl k] is the [KeyError] on [k]. *)
Fixpoint parse_analysis (lines : list string) (analysis : list (string * string))
    (current_skill : option string) : string + list (string * string) :=
  match lines with
  | [] => inr analysis
  | line0 :: rest =>
      let line := strip line0 in
      if contains ":" line then
        let k := Ranker.before_char ":" line in
        let t := after_char ":" line in
        parse_analysis rest
          ((fix set (d : list (string * string)) : list (string * string) :=
              match d with
              | [] => [(strip k, strip t)]
              | (k', v') :: d' => if String.eqb (strip k) k' then (k', strip t) :: d'
                                  else (k', v') :: set d'
              end) analysis)
          (Some k)
      else
        match current_skill with
        | Some k =>
            if negb (String.eqb k "") && negb (String.eqb line "") then
              match dict_get analysis k with
              | None => inl k
              | Some v =>
                  parse_analysis rest
                    ((fix set (d : list (string * string)) : list (string * string) :=
                        match d with
                        | [] => [(k, v ++ " " ++ line)]
                        | (k', v') :: d' => if String.eqb k k' then (k', v ++ " " ++ line) :: d'
                                            else (k', v') :: set d'
                        end) analysis)
                    current_skill
              end
            else parse_analysis rest analysis current_skill
        | None => parse_analysis rest analysis current_skill
        end
  end.

(** [_generate_skill_gap_analysis] with the service's answer. *)
Definition generate_skill_gap_analysis (candidate_skills required_skills : list string)
    (resp : service) : list (string * string) :=
  match filter (fun s => negb (StrictMatching.mem s candidate_skills)) required_skills with
  | [] => [("status", "All required skills met")]
  | _ =>
    match resp with
    | SvcFailed msg => [("error", "Failed to generate skill gap analysis: " ++ msg)]
    | SvcText content =>
        match parse_analysis (split_char "010"%char content) [] None with
        | inl k => [("error", "Failed to generate skill gap analysis: " ++ key_error_str k)]
        | inr analysis => analysis
        end
    end
  end.
End GapAnalysis.

End StrictHelpers.

(* ------------------------------------------------------------------ *)
(** ** [ai_matching.BackgroundChecker] *)

Module Background.
Import Py Ranker StrictHelpers.

(** The outcome of a Python call: a value, or an exception with its
    class name and [str(e)]. *)
Inductive result (A : Type) :=
| Ok (v : A)
| Exc (kind msg : string).
Arguments Ok {A} v.
Arguments Exc {A} kind msg.

(** The [NameError] of every use of [datetime], which the module never imports. *)
Definition datetime_error : string := "name 'datetime' is not defined".

(** [await] on the synchronous client's [chat.completions.create]: the
    call raises with its own message, or it returns a [ChatCompletion],
    which is not awaitable, so the [await] raises a [TypeError]. The
    answer's text is never read. *)
Definition await_error : string :=
  "object ChatCompletion can't be used in 'await' expression".

Definition await_sync_call (resp : service) : string :=
  match resp with
  | SvcFailed msg => msg
  | SvcText _ => await_error
  end.

(** [generate_interview_questions]: the returned value and the printed
    lines; the [except] branch is always taken. *)
Definition generate_interview_questions (resp : service) : jval * list string :=
  let fail msg := (JArr [], ["Error generating interview questions: " ++ msg]) in
  fail (await_sync_call resp).

(** [verify_employment_history]: the returned value and the printed
    lines; the [except] branch is always taken. *)
Definition verify_employment_history (resp : service) : jval * list string :=
  let fail msg :=
    (JObj [("overall_status", JStr "error");
           ("red_flags", JArr [JStr "Error during verification"]);
           ("confidence_score", JNum 0);
           ("notes", JStr ("Error: " ++ msg))],
     ["Error verifying employment history: " ++ msg]) in
  fail (await_sync_call resp).

(** [generate_pre_screening_report] given the answers of its three
    service calls (interview questions, employment check, assessment):
    the result and the printed lines. The assessment call's [await]
    raises, and the [except] branch reads [datetime]. *)
Definition generate_pre_screening_report (candidate_profile : dict) (job_description : string)
    (q_resp emp_resp report_resp : service) : result jval * list string :=
  let handler msg :=
    (Exc "NameError" datetime_error, ["Error generating pre-screening report: " ++ msg]) in
  let '(questions, out1) := generate_interview_questions q_resp in
  let '(employment_verification, out2) :=
      match dict_get candidate_profile "employment_history" with
      | Some _ => verify_employment_history emp_resp
      | None => (JObj [], [])
      end in
  let '(r, out3) := handler (await_sync_call report_resp) in
  (r, app out1 (app out2 out3)).

End Background.

(* ------------------------------------------------------------------ *)
(** ** [advanced_matching.generate_candidate_report] *)

Module StrictReport.
Import Py StrictMatching Background.

(** The one-character string ["\n"]. *)
Definition nl : string := String "010"%char EmptyString.

(** The decimal digits of [n], at most [fuel] of them, before [acc]. *)
Fixpoint digits (fuel n : nat) (acc : string) : string :=
  match fuel with
  | O => acc
  | S f =>
      let acc' := String (ascii_of_nat (48 + n mod 10)) acc in
      if Nat.ltb n 10 then acc' else digits f (n / 10) acc'
  end.

(** [str(i)] for a natural number. *)
Definition str_nat (n : nat) : string := digits (S n) n "".

Section Report.
(** [format(score, '.1f')]. *)
Variable format_score : Q -> string.

(** [', '.join(l) if l else 'None']. *)
Definition join_or_none (l : list string) : string :=
  match l with
  | [] => "None"
  | _ => join ", " l
  end.

(** The triple-quoted template filled by [.format(...)]; its second line
    holds eight spaces. *)
Definition report_header (job_title candidate_name : string) (c : ScoredCandidate) : string :=
  "# Candidate Evaluation Report" ++ nl ++ "        " ++ nl
  ++ "## Position: " ++ job_title ++ nl ++ nl
  ++ "## Candidate: " ++ candidate_name ++ nl ++ nl
  ++ "## Match Score: " ++ format_score (score c) ++ "/100" ++ nl ++ nl
  ++ "## Skills Assessment" ++ nl
  ++ "**Matched Skills:** " ++ join_or_none (skill_matches c) ++ nl ++ nl
  ++ "**Missing Skills:** " ++ join_or_none (missing_skills c) ++ nl ++ nl
  ++ "## Skill Gap Analysis" ++ nl.

(** The lines [f"{i}. {question}\n"] of [enumerate(questions, i)]. *)
Fixpoint numbered (i : nat) (qs : list string) : string :=
  match qs with
  | [] => ""
  | q :: qs' => str_nat i ++ ". " ++ q ++ nl ++ numbered (S i) qs'
  end.

(** The four recommendation tiers. *)
Definition recommendation (s : Q) : string :=
  if Qle_bool 80 s then "**Strongly Recommended** - This candidate has an excellent match with the required skills and experience."
  else if Qle_bool 60 s then "**Recommended** - This candidate meets most requirements and shows potential for growth."
  else if Qle_bool 40 s then "**Consider with Caution** - This candidate has some relevant skills but significant gaps exist."
  else "**Not Recommended** - This candidate does not meet the minimum requirements for this position.".

(** [generate_candidate_report]; [candidate.candidate['name']] raises
    [KeyError] on a record without a name. *)
Definition generate_candidate_report (c : ScoredCandidate) (job_title job_description : string)
    : result string :=
  match AIMatching.c_name (candidate c) with
  | None => Exc "KeyError" "'name'"
  | Some candidate_name =>
      let report := report_header job_title candidate_name c in
      let report :=
        match skill_gap_analysis c with
        | [] => report
        | gaps =>
            report ++ nl ++ "### Detailed Skill Gap Analysis" ++ nl
            ++ String.concat "" (map (fun '(skill, analysis) =>
                                       "- **" ++ skill ++ ":** " ++ analysis ++ nl) gaps)
        end in
      let report :=
        match interview_questions c with
        | [] => report
        | qs => report ++ nl ++ "## Recommended Interview Questions" ++ nl ++ numbered 1 qs
        end in
      Ok (report ++ nl ++ "## Overall Recommendation" ++ nl ++ recommendation (score c))
  end.
End Report.

End StrictReport.

(* ------------------------------------------------------------------ *)
(** ** [groq_search.AICandidateSearch]: the keyword search *)

Module GroqSearch.
Import Py AIMatching Background.

(** The [terms] dictionary of [_extract_search_terms], its keys in order. *)
Record SearchTerms := mkTerms {
  t_skills : list string;
  t_seniority : list string;
  t_location : list string;
  t_employment_type : list string;
  t_experience_years : list string;
  t_exclude_skills : list string
}.

Definition known_skills : list string :=
  ["langchain"; "rag"; "agentic ai"; "generative-ai"; "llama index";
   "langflow"; "python"; "javascript"; "react"; "node.js";
   "machine learning"; "data science"; "cloud computing";
   "devops"; "kubernetes"; "docker"; "aws"; "azure"].

Definition negative_phrases : list string := ["no "; "not "; "without "].
Definition levels : list string := ["junior"; "midlevel"; "senior"].
Definition emp_types : list string := ["full-time"; "part-time"; "contract"; "remote"].
Definition exp_labels : list string := ["1-3"; "3-5"; "5+"; "10+"; "15+"].
Definition locations : list string :=
  ["europe"; "asia"; "north america"; "south america"; "africa"; "australia"].

(** [s.split(p, 1)[1]]: the text after the first occurrence of [p];
    [None] when [p] does not occur. *)
Fixpoint after_sub (p s : string) : option string :=
  if prefixb p s then Some (substring (String.length p) (String.length s - String.length p) s)
  else match s with
       | EmptyString => None
       | String _ s' => after_sub p s'
       end.

(** [skill in negative_term or skill.split()[0] in negative_term]; every
    known skill has a first word. *)
Definition negated_by (negative_term skill : string) : bool :=
  contains skill negative_term
  || match split skill with
     | w :: _ => contains w negative_term
     | [] => false
     end.

(** The loop over [negative_phrases]: [after_phrase.split()[0]] raises
    [IndexError] when nothing but spaces follows the phrase. *)
Fixpoint negative_loop (query_lower : string) (phrases : list string)
    (exclude : list string) : result (list string) :=
  match phrases with
  | [] => Ok exclude
  | phrase :: rest =>
      if contains phrase query_lower then
        match after_sub phrase query_lower with
        | None => negative_loop query_lower rest exclude
        | Some after_phrase =>
            match split after_phrase with
            | [] => Exc "IndexError" "list index out of range"
            | negative_term :: _ =>
                negative_loop query_lower rest
                  (exclude ++ filter (negated_by negative_term) known_skills)
            end
        end
      else negative_loop query_lower rest exclude
  end.

(** [_extract_search_terms]; the experience labels are looked up in the
    query as typed, the rest in its lowercased form. *)
Definition extract_search_terms (query : string) : result SearchTerms :=
  let query_lower := lower query in
  match negative_loop query_lower negative_phrases [] with
  | Exc k m => Exc k m
  | Ok exclude =>
      Ok {| t_skills :=
              filter (fun skill =>
                        contains skill query_lower
                        && negb (existsb (fun neg_skill =>
                                   contains neg_skill skill || contains skill neg_skill) exclude))
                     known_skills;
            t_seniority := filter (fun l => contains l query_lower) levels;
            t_location := filter (fun l => contains l query_lower) locations;
            t_employment_type := filter (fun e => contains e query_lower) emp_types;
            t_experience_years := filter (fun e => contains e query) exp_labels;
            t_exclude_skills := exclude |}
  end.

(** [candidate.get(field, '')] for a dataset record: a list or a string. *)
Inductive field_value :=
| FList (l : list string)
| FStr (s : string).

Definition opt_str (o : option string) : field_value := FStr (get_or "" o).
Definition opt_list (o : option (list string)) : field_value :=
  match o with Some l => FList l | None => FStr "" end.

(** [not any(v in candidate_value for v in values)] decides [match = False]:
    list membership after lowercasing, or substring of the lowercased string. *)
Definition field_matches (cv : field_value) (values : list string) : bool :=
  match cv with
  | FList l => existsb (fun v => existsb (String.eqb v) (map lower l)) values
  | FStr s => existsb (fun v => contains v (lower s)) values
  end.

(** The positive fields of [search_terms.items()] in order, with the
    candidate's value for each. *)
Definition positive_fields (t : SearchTerms) (c : Candidate) : list (list string * field_value) :=
  [(t_skills t, opt_list (c_skills c));
   (t_seniority t, opt_str (c_seniority c));
   (t_location t, opt_list (c_location c));
   (t_employment_type t, opt_str (c_employment_type c));
   (t_experience_years t, opt_str (c_experience_years c))].

(** The body of the loop over the dataset: [True] appends the candidate. *)
Definition candidate_matches (t : SearchTerms) (c : Candidate) : bool :=
  forallb (fun '(values, cv) =>
             match values with [] => true | _ => field_matches cv values end)
          (positive_fields t c)
  && match t_exclude_skills t with
     | [] => true
     | excl =>
         let candidate_skills := map lower (get_or [] (c_skills c)) in
         negb (existsb (fun skill =>
                  existsb (fun s => contains skill s || contains s skill) candidate_skills) excl)
     end.

(** [_match_candidates] over [self.dataset]. *)
Definition match_candidates (dataset : list Candidate) (t : SearchTerms) : list Candidate :=
  if negb (existsb (fun values => match values with [] => false | _ => true end)
                   [t_skills t; t_seniority t; t_location t; t_employment_type t;
                    t_experience_years t])
  then []
  else filter (candidate_matches t) dataset.

End GroqSearch.

(* ------------------------------------------------------------------ *)
(** ** The JSON read-back of [cv_comparator] and [cv_analyser] *)

Module JsonReply.
Import Py Ranker StrictHelpers Background.

(** [s.find(c)] from position [i]: the index of the first [c], or [-1]. *)
Fixpoint find_aux (c : ascii) (s : string) (i : Z) : Z :=
  match s with
  | EmptyString => (-1)%Z
  | String d s' => if Ascii.eqb c d then i else find_aux c s' (i + 1)
  end.

Definition find (c : ascii) (s : string) : Z := find_aux c s 0.

(** [s.rfind(c)]: the index of the last [c], or [-1]; [best] is the last
    index seen so far. *)
Fixpoint rfind_aux (c : ascii) (s : string) (i best : Z) : Z :=
  match s with
  | EmptyString => best
  | String d s' => rfind_aux c s' (i + 1) (if Ascii.eqb c d then i else best)
  end.

Definition rfind (c : ascii) (s : string) : Z := rfind_aux c s 0 (-1).

(** [s[start:end]] for [0 <= start <= end]. *)
Definition slice (s : string) (start end_ : Z) : string :=
  substring (Z.to_nat start) (Z.to_nat (end_ - start)) s.

Section Reply.
(** [json.loads]: the decoded value, or the [JSONDecodeError] message. *)
Variable json_loads : string -> string + jval.

(** The parsing tail of [CVComparator._call_groq_api], given the message
    content. *)
Definition comparator_parse (content : string) : result jval :=
  match json_loads content with
  | inr v => Ok v
  | inl _ =>
      let start := find "{" content in
      let end_ := (rfind "}" content + 1)%Z in
      if Z.eqb start (-1) || Z.leb end_ start then
        Exc "ValueError" ("Groq response is not valid JSON: " ++ content)
      else
        match json_loads (slice content start end_) with
        | inr v => Ok v
        | inl msg => Exc "JSONDecodeError" msg
        end
  end.

(** [CVComparator._call_groq_api]: a failed completion call propagates. *)
Definition comparator_call (resp : service) : result jval :=
  match resp with
  | SvcFailed msg => Exc "Exception" msg
  | SvcText content => comparator_parse content
  end.

(** The inner [try] of [CVAnalyzer._call_groq_api]: the bare [raise] and a
    failed second decode both end in the bare [except:]. *)
Definition analyser_parse (content : string) : result jval :=
  match json_loads content with
  | inr v => Ok v
  | inl _ =>
      let start := find "{" content in
      let end_ := (rfind "}" content + 1)%Z in
      let fail := Exc "ValueError" ("Failed to parse LLM response as JSON: " ++ content) in
      if Z.leb 0 start && Z.ltb start end_ then
        match json_loads (slice content start end_) with
        | inr v => Ok v
        | inl _ => fail
        end
      else fail
  end.

(** [CVAnalyzer._call_groq_api]: every exception is re-raised as
    [Exception(f"Error calling Groq API: {str(e)}")]. *)
Definition analyser_call (resp : service) : result jval :=
  let wrap msg := Exc "Exception" ("Error calling Groq API: " ++ msg) in
  match resp with
  | SvcFailed msg => wrap msg
  | SvcText content =>
      match analyser_parse content with
      | Ok v => Ok v
      | Exc _ msg => wrap msg
      end
  end.
End Reply.

End JsonReply.

(* ------------------------------------------------------------------ *)
(** ** Vocabulary of the properties *)

Module Props.
Import Py AIMatching.

(** The weight [self.skill_weights.get(skill, 1.0)] of a preprocessed skill. *)
Definition weight (W : list (string * Q)) (r : string) : Q := get_or 1 (dict_get W r).

(** A preprocessed required skill [r] is matched by the preprocessed
    candidate skills [cands]: it contains, or is contained in, one of them. *)
Definition found (cands : list string) (r : string) : bool := existsb (related r) cands.

(** Every weight of the table is positive (the default [1.0] is too). *)
Definition weights_positive (W : list (string * Q)) : bool :=
  forallb (fun kv => negb (Qle_bool (snd kv) 0)) W.

(** A finite sum. *)
Fixpoint qsum {A : Type} (f : A -> Q) (l : list A) : Q :=
  match l with [] => 0 | x :: l' => f x + qsum f l' end.

(** The skill sub-score returned by [_calculate_skill_similarity]. *)
Definition skill_score (W : list (string * Q)) (reqs cands : list string) : Q :=
  fst (fst (calculate_skill_similarity W reqs cands)).

(** The same candidate with another skill list. *)
Definition with_skills (c : Candidate) (l : list string) : Candidate :=
  mkCandidate (c_name c) (c_seniority c) (Some l) (c_experience_years c)
              (c_employment_type c) (c_location c).

(** The same requirement with one optional dimension omitted. *)
Definition omit_experience (rq : Requirement) : Requirement :=
  mkRequirement (required_skills rq) (req_seniority rq) None
                (req_employment_type rq) (req_locations rq).
Definition omit_seniority (rq : Requirement) : Requirement :=
  mkRequirement (required_skills rq) None (req_experience_years rq)
                (req_employment_type rq) (req_locations rq).
Definition omit_employment (rq : Requirement) : Requirement :=
  mkRequirement (required_skills rq) (req_seniority rq) (req_experience_years rq)
                None (req_locations rq).
Definition omit_locations (rq : Requirement) : Requirement :=
  mkRequirement (required_skills rq) (req_seniority rq) (req_experience_years rq)
                (req_employment_type rq) None.

(** The rank of an experience bucket and of a seniority label (0: unknown). *)
Definition exp_rank (s : string) : Z := get_or 0%Z (dict_get exp_map (lower s)).
Definition seniority_rank (s : string) : Z :=
  get_or 0%Z (dict_get seniority_levels (lower s)).

(** The [cultural_fit] entry of a ranked candidate's [ranking_scores]. *)
Definition cultural_fit_of (d : Ranker.dict) : option Q :=
  match dict_get d "ranking_scores" with
  | Some (Ranker.JObj kvs) =>
      match dict_get kvs "cultural_fit" with Some (Ranker.JNum q) => Some q | _ => None end
  | _ => None
  end.

(** A JSON value is a number. *)
Definition is_num (v : Ranker.jval) : bool :=
  match v with Ranker.JNum _ => true | _ => false end.

(** The cultural-fit score and printed lines used by [score_one]. *)
Definition fit (pf : string -> option Q) (cul : option string) (o : Ranker.outcome)
  : Q * list string :=
  if truthy_str cul then Ranker.calculate_cultural_fit pf o else (1#2, []%list).

(** The steps of [score_one] before the cultural-fit call complete: the
    experience score is computed and the seniority value is a string. *)
Definition reaches_cultural_fit (pf : string -> option Q) (c : Ranker.dict) : bool :=
  match Ranker.calculate_experience_score pf
          (get_or (Ranker.JStr "") (dict_get c "experience_years")),
        get_or (Ranker.JStr "") (dict_get c "seniority") with
  | Some _, Ranker.JStr _ => true
  | _, _ => false
  end.

(** [a] comes no later than [b] in a list sorted by [key], descending. *)
Definition desc {A : Type} (key : A -> Q) (x y : A) : Prop := key y <= key x.

(** [x] has exactly the score [q]. *)
Definition tie {A : Type} (key : A -> Q) (q : Q) (x : A) : bool := Qeq_bool (key x) q.

(** The characters [_preprocess_text] keeps: [\w], [\s] and [-]. *)
Definition pp_keep (c : ascii) : bool := is_word c || is_space c || Ascii.eqb c "-"%char.

(** Every character of [s] satisfies [p]. *)
Fixpoint all_chars (p : ascii -> bool) (s : string) : bool :=
  match s with EmptyString => true | String c s' => p c && all_chars p s' end.

(** A character that lowering leaves unchanged and the filter keeps. *)
Definition pp_char (c : ascii) : bool := Ascii.eqb (lower_char c) c && pp_keep c.

(** The same, and not whitespace: a character inside a word. *)
Definition word_char (c : ascii) : bool := pp_char c && negb (is_space c).

End Props.

(* ------------------------------------------------------------------ *)
(** ** Sample inputs *)

Module Samples.
Import AIMatching Props.

(** A requirement with only required skills. *)
Definition skills_only (reqs : list string) : Requirement :=
  mkRequirement reqs None None None None.

(** A candidate with only a name and skills. *)
Definition skilled (n : string) (l : list string) : Candidate :=
  mkCandidate (Some n) None (Some l) None None None.

(** The scenario of the specification: [python] and [docker] against
    [python] and [rag]. *)
Definition req_python_rag : Requirement := skills_only ["python"; "rag"].
Definition cand_python_docker : Candidate := skilled "A" ["python"; "docker"].

(** Nine required skills; one candidate matches five of them, the other
    four of higher weight. *)
Definition req_nine : Requirement :=
  skills_only ["javascript"; "react"; "python"; "docker"; "aws";
               "agentic ai"; "generative-ai"; "rag"; "langchain"].
Definition cand_five : Candidate :=
  skilled "A" ["javascript"; "react"; "python"; "docker"; "aws"].
Definition cand_four : Candidate :=
  with_skills cand_five ["agentic ai"; "generative-ai"; "rag"; "langchain"].

(** The strict-mode scenario: a senior with [python] and [docker]. *)
Definition cand_senior_python_docker : Candidate :=
  mkCandidate (Some "B") (Some "senior") (Some ["python"; "docker"]) None None None.

(** A senior with [Python], [RAG] and [docker]. *)
Definition cand_senior_python_rag : Candidate :=
  mkCandidate (Some "C") (Some "senior") (Some ["Python"; "RAG"; "docker"]) None None None.

(** One ranker input whose record carries only a name. *)
Definition named (n : string) : Ranker.dict := [("name", Ranker.JStr n)].

(** The service times out for the first candidate and answers [0.8]
    for every other one. *)
Definition ext_fail_first (i : nat) : Ranker.outcome :=
  match i with
  | O => Ranker.Raised "timeout"
  | S _ => Ranker.Returned (Ranker.JObj [("cultural_fit_score", Ranker.JNum (4#5))])
  end.

Definition ext_ok (_ : nat) : Ranker.outcome :=
  Ranker.Returned (Ranker.JObj [("cultural_fit_score", Ranker.JNum (4#5))]).

(** [float(s)] that always raises. *)
Definition no_float (_ : string) : option Q := None.

End Samples.

(* ================================================================== *)
(** * Properties *)

(** ** Sums and the weighted score loop *)

Module SkillFacts.
Local Open Scope list_scope.
Import Py AIMatching Props.

Lemma qsum_le {A : Type} (f g : A -> Q) (l : list A) :
  (forall x, In x l -> f x <= g x) -> qsum f l <= qsum g l.
Proof.
  induction l as [|x l IH]; simpl; intros H.
  - apply Qle_refl.
  - apply Qplus_le_compat; [apply H; auto | apply IH; auto].
Qed.

Lemma qsum_lt {A : Type} (f g : A -> Q) (l : list A) (y : A) :
  (forall x, In x l -> f x <= g x) -> In y l -> f y < g y -> qsum f l < qsum g l.
Proof.
  induction l as [|x l IH]; simpl; intros H Hy Hlt; [contradiction|].
  destruct Hy as [<-|Hy].
  - assert (qsum f l <= qsum g l) by (apply qsum_le; auto). lra.
  - assert (f x <= g x) by (apply H; auto).
    assert (qsum f l < qsum g l) by (apply IH; auto). lra.
Qed.

Lemma qsum_ext {A : Type} (f g : A -> Q) (l : list A) :
  (forall x, In x l -> f x == g x) -> qsum f l == qsum g l.
Proof.
  induction l as [|x l IH]; simpl; intros H.
  - reflexivity.
  - rewrite (H x (or_introl eq_refl)), IH; [reflexivity | auto].
Qed.

Lemma qsum_nonneg {A : Type} (f : A -> Q) (l : list A) :
  (forall x, 0 <= f x) -> 0 <= qsum f l.
Proof.
  intros Hf. induction l as [|x l IH]; simpl; [lra|]. specialize (Hf x). lra.
Qed.

Lemma qsum_pos {A : Type} (f : A -> Q) (l : list A) :
  (forall x, 0 < f x) -> l <> [] -> 0 < qsum f l.
Proof.
  intros Hf Hl. destruct l as [|x l]; [congruence|]. simpl.
  assert (0 <= qsum f l) by (apply qsum_nonneg; intros; apply Qlt_le_weak, Hf).
  specialize (Hf x). lra.
Qed.

Lemma weight_pos (W : list (string * Q)) :
  weights_positive W = true -> forall k, 0 < weight W k.
Proof.
  unfold weights_positive, weight. intros HW k.
  induction W as [|[k' v] W IH]; simpl in *; [reflexivity|].
  apply andb_true_iff in HW as [Hv HW].
  destruct (String.eqb k k'); simpl; [|auto].
  apply negb_true_iff in Hv.
  apply Qnot_le_lt. intros Hle. apply Qle_bool_iff in Hle. congruence.
Qed.

Lemma first_match_some r cands c :
  first_match r cands = Some c -> In c cands /\ related r c = true.
Proof.
  induction cands as [|x cands IH]; simpl; [discriminate|].
  destruct (related r x) eqn:E; intros H.
  - injection H as <-. auto.
  - destruct (IH H). auto.
Qed.

Lemma first_match_none r cands :
  first_match r cands = None <-> found cands r = false.
Proof.
  unfold found. induction cands as [|x cands IH]; simpl; [tauto|].
  destruct (related r x); simpl; [split; discriminate | exact IH].
Qed.

Lemma matches_in reqs cands m :
  In m (fst (matches_gaps reqs cands)) -> In m cands.
Proof.
  induction reqs as [|r reqs IH]; simpl; [tauto|].
  destruct (matches_gaps reqs cands) as [ms gs] eqn:E. simpl in IH.
  destruct (first_match r cands) as [c|] eqn:F; simpl; [|auto].
  intros [<-|H]; [apply (first_match_some _ _ _ F) | auto].
Qed.

Lemma matches_of_first reqs cands r c :
  In r reqs -> first_match r cands = Some c -> In c (fst (matches_gaps reqs cands)).
Proof.
  induction reqs as [|r' reqs IH]; simpl; [tauto|].
  destruct (matches_gaps reqs cands) as [ms gs] eqn:E. simpl in IH.
  intros [<-|Hr] F.
  - rewrite F. simpl. auto.
  - destruct (first_match r' cands); simpl; auto.
Qed.

Lemma gaps_spec reqs cands g :
  In g (snd (matches_gaps reqs cands)) <-> In g reqs /\ found cands g = false.
Proof.
  induction reqs as [|r reqs IH]; simpl; [tauto|].
  destruct (matches_gaps reqs cands) as [ms gs] eqn:E. simpl in IH.
  destruct (first_match r cands) as [c|] eqn:F; simpl.
  - rewrite IH. split; [tauto|]. intros [[<-|H] H']; [|auto].
    apply first_match_none in H'. congruence.
  - rewrite IH. split.
    + intros [<-|H]; [split; [auto | apply first_match_none; auto] | tauto].
    + intros [[<-|H] H']; auto.
Qed.

(** In the scoring loop, a required skill is credited exactly when it is
    matched by some candidate skill. *)
Lemma credited_iff_found reqs cands r :
  In r reqs ->
  existsb (fun m => contains r m || contains m r) (fst (matches_gaps reqs cands))
  = found cands r.
Proof.
  intros Hr. destruct (found cands r) eqn:Hf.
  - destruct (first_match r cands) as [c|] eqn:F.
    + apply existsb_exists. exists c. split.
      * apply (matches_of_first _ _ _ _ Hr F).
      * apply (first_match_some _ _ _ F).
    + apply first_match_none in F. congruence.
  - apply not_true_iff_false. intros H. apply existsb_exists in H as [m [Hm Hrel]].
    apply matches_in in Hm.
    assert (found cands r = true) by (apply existsb_exists; eauto). congruence.
Qed.

Lemma fold_weight_loop W ms l a t :
  let p := fold_left (fun '(acc, tot) skill =>
      let w := get_or 1 (dict_get W skill) in
      (if existsb (fun m => contains skill m || contains m skill) ms
       then acc + w else acc, tot + w)) l (a, t) in
  fst p == a + qsum (fun r => if existsb (fun m => contains r m || contains m r) ms
                              then weight W r else 0) l
  /\ snd p == t + qsum (weight W) l.
Proof.
  revert a t. induction l as [|r l IH]; intros a t; simpl.
  - split; lra.
  - destruct (IH (if existsb (fun m => contains r m || contains m r) ms
                  then a + get_or 1 (dict_get W r) else a)
                 (t + get_or 1 (dict_get W r))) as [H1 H2].
    unfold weight in *.
    split; [rewrite H1 | rewrite H2];
      destruct (existsb _ ms); lra.
Qed.

(** The skill sub-score of a non-empty requirement: matched weight over
    total weight, on the preprocessed skills. *)
Lemma skill_score_formula W reqs cands :
  weights_positive W = true -> reqs <> [] ->
  skill_score W reqs cands ==
    qsum (fun r => if found (map preprocess_text cands) r then weight W r else 0)
         (map preprocess_text reqs)
    / qsum (weight W) (map preprocess_text reqs).
Proof.
  intros HW Hne. unfold skill_score, calculate_skill_similarity.
  destruct reqs as [|r0 reqs0] eqn:Er; [congruence|]. rewrite <- Er.
  set (pr := map preprocess_text reqs). set (pc := map preprocess_text cands).
  destruct (matches_gaps pr pc) as [ms gs] eqn:EM.
  unfold weight_loop.
  destruct (fold_weight_loop W ms pr 0 0) as [H1 H2].
  destruct (fold_left _ pr (0, 0)) as [sc tot] eqn:EF. simpl in H1, H2 |- *.
  assert (Hpos : 0 < qsum (weight W) pr).
  { apply qsum_pos; [apply weight_pos; auto|]. subst pr. rewrite Er. simpl. congruence. }
  assert (Hms : forall r, In r pr -> existsb (fun m => contains r m || contains m r) ms
                                    = found pc r).
  { intros r Hr. replace ms with (fst (matches_gaps pr pc)) by (rewrite EM; auto).
    apply credited_iff_found; auto. }
  destruct (Qlt_le_dec 0 tot) as [Ht|Ht]; [|lra].
  rewrite H1, H2.
  rewrite (qsum_ext _ (fun r => if found pc r then weight W r else 0) pr).
  - apply Qdiv_comp; lra.
  - intros r Hr. rewrite (Hms r Hr). reflexivity.
Qed.

End SkillFacts.

(** ** The lenient engine: per-candidate facts *)

Module MatchFacts.
Local Open Scope list_scope.
Import Py AIMatching Props SkillFacts.

Lemma prefixb_refl s : prefixb s s = true.
Proof. induction s; simpl; [reflexivity|]. rewrite Ascii.eqb_refl. exact IHs. Qed.

Lemma related_refl s : related s s = true.
Proof.
  unfold related. destruct s; simpl; [reflexivity|].
  rewrite Ascii.eqb_refl, prefixb_refl. reflexivity.
Qed.

Lemma found_incl (l l' : list string) r :
  (forall x, In x l -> In x l') -> found l r = true -> found l' r = true.
Proof.
  unfold found. intros Hin H. apply existsb_exists in H as [x [Hx Hr]].
  apply existsb_exists. eauto.
Qed.

Lemma weights_sum_one : weights_sum == 1.
Proof. reflexivity. Qed.

Lemma total_score_eq a e s m l :
  total_score a e s m l == a * (1#2) + e * (1#5) + s * (3#20) + m * (1#10) + l * (1#20).
Proof.
  unfold total_score. rewrite weights_sum_one.
  unfold w_skills, w_experience, w_seniority, w_employment, w_location.
  unfold Qdiv. simpl (/ 1). rewrite Qmult_1_r. reflexivity.
Qed.

Lemma total_score_lt a b e s m l :
  a < b -> total_score a e s m l < total_score b e s m l.
Proof. intros H. rewrite !total_score_eq. lra. Qed.

Lemma total_score_le a b e s m l :
  a <= b -> total_score a e s m l <= total_score b e s m l.
Proof. intros H. rewrite !total_score_eq. lra. Qed.

(** The fields of a [CandidateMatch] built by the scoring loop. *)
Lemma score_candidate_fields W rq c :
  match_score (score_candidate W rq c)
    = total_score (skill_score W (required_skills rq) (get_or [] (c_skills c)))
        (exp_score rq c) (seniority_score rq c) (employment_score rq c) (location_score rq c)
  /\ skill_gaps (score_candidate W rq c)
    = snd (fst (calculate_skill_similarity W (required_skills rq) (get_or [] (c_skills c))))
  /\ skill_matches (score_candidate W rq c)
    = snd (calculate_skill_similarity W (required_skills rq) (get_or [] (c_skills c))).
Proof.
  unfold score_candidate, skill_score.
  destruct (calculate_skill_similarity _ _ _) as [[sk g] ms]. auto.
Qed.

(** The gaps and matches of a non-empty requirement. *)
Lemma calc_lists W reqs cands :
  reqs <> [] ->
  snd (fst (calculate_skill_similarity W reqs cands))
    = snd (matches_gaps (map preprocess_text reqs) (map preprocess_text cands))
  /\ snd (calculate_skill_similarity W reqs cands)
    = fst (matches_gaps (map preprocess_text reqs) (map preprocess_text cands)).
Proof.
  intros Hne. unfold calculate_skill_similarity.
  destruct reqs as [|r0 reqs0] eqn:Er; [congruence|]. rewrite <- Er.
  destruct (matches_gaps _ _) as [ms gs].
  destruct (weight_loop _ _ _) as [sc tot]. auto.
Qed.

Lemma calc_nil W cands : calculate_skill_similarity W [] cands = (1, [], []).
Proof. reflexivity. Qed.

(** Skill sub-scores over the same requirement compare like their matched sums. *)
Lemma skill_score_mono W reqs cands cands' :
  weights_positive W = true ->
  (forall r, In r (map preprocess_text reqs) ->
     found (map preprocess_text cands) r = true ->
     found (map preprocess_text cands') r = true) ->
  skill_score W reqs cands <= skill_score W reqs cands'.
Proof.
  intros HW Hf. destruct reqs as [|r0 reqs0] eqn:Er.
  - unfold skill_score. rewrite !calc_nil. apply Qle_refl.
  - rewrite <- Er in *. assert (Hne : reqs <> []) by (rewrite Er; discriminate).
    rewrite !skill_score_formula by auto. unfold Qdiv.
    apply Qmult_le_compat_r.
    + apply qsum_le. intros r Hr.
      destruct (found (map preprocess_text cands) r) eqn:E1.
      * rewrite (Hf r Hr E1). apply Qle_refl.
      * destruct (found (map preprocess_text cands') r);
          [apply Qlt_le_weak, weight_pos; auto | apply Qle_refl].
    + apply Qinv_le_0_compat, Qlt_le_weak, qsum_pos; [apply weight_pos; auto|].
      rewrite Er. discriminate.
Qed.

(** The reported gaps are the preprocessed required skills left unmatched. *)
Lemma skill_gaps_spec W rq c g :
  In g (skill_gaps (score_candidate W rq c)) <->
  In g (map preprocess_text (required_skills rq))
  /\ found (map preprocess_text (get_or [] (c_skills c))) g = false.
Proof.
  destruct (score_candidate_fields W rq c) as [_ [-> _]].
  destruct (required_skills rq) as [|r0 reqs0] eqn:Er.
  - rewrite calc_nil. simpl. tauto.
  - rewrite <- Er. assert (Hne : required_skills rq <> []) by (rewrite Er; discriminate).
    rewrite (proj1 (calc_lists W _ _ Hne)). apply gaps_spec.
Qed.

(** Only the skills of a candidate enter its skill sub-score. *)
Lemma match_score_with_skills W rq c l :
  match_score (score_candidate W rq (with_skills c l))
  = total_score (skill_score W (required_skills rq) l)
      (exp_score rq c) (seniority_score rq c) (employment_score rq c) (location_score rq c).
Proof. apply (proj1 (score_candidate_fields W rq (with_skills c l))). Qed.

Lemma exp_rank_range s : (0 <= exp_rank s <= 5)%Z.
Proof.
  unfold exp_rank, exp_map. simpl.
  repeat match goal with |- context [String.eqb ?a ?b] => destruct (String.eqb a b) end;
  simpl; lia.
Qed.

Lemma seniority_rank_range s : (0 <= seniority_rank s <= 3)%Z.
Proof.
  unfold seniority_rank, seniority_levels. simpl.
  repeat match goal with |- context [String.eqb ?a ?b] => destruct (String.eqb a b) end;
  simpl; lia.
Qed.

(** The ordinal-ratio rule below the required level. *)
Lemma level_match_below r c :
  (0 < c)%Z -> (c < r)%Z ->
  level_match r c = qmax (1#10) ((1#10) + (inject_Z c / inject_Z r) * (9#10))
  /\ 1#10 <= level_match r c /\ level_match r c < 1.
Proof.
  intros Hc Hr. unfold level_match.
  replace (r =? 0)%Z with false by lia. replace (c =? 0)%Z with false by lia.
  replace (r <=? c)%Z with false by lia. simpl.
  split; [reflexivity|].
  assert (Hr0 : 0 < inject_Z r) by (change 0 with (inject_Z 0); rewrite <- Zlt_Qlt; lia).
  assert (Hq0 : 0 <= inject_Z c / inject_Z r).
  { apply Qle_shift_div_l; [exact Hr0|]. rewrite Qmult_0_l.
    change 0 with (inject_Z 0). rewrite <- Zle_Qle; lia. }
  assert (Hq1 : inject_Z c / inject_Z r < 1).
  { apply Qlt_shift_div_r; [exact Hr0|]. rewrite Qmult_1_l. rewrite <- Zlt_Qlt. exact Hr. }
  unfold qmax.
  destruct (Qle_bool ((1#10) + inject_Z c / inject_Z r * (9#10)) (1#10)); lra.
Qed.

Lemma level_match_le1 r c : (0 <= c)%Z -> level_match r c <= 1.
Proof.
  intros Hc.
  destruct ((r =? 0)%Z || (c =? 0)%Z) eqn:E0;
    [unfold level_match; rewrite E0; discriminate|].
  destruct (r <=? c)%Z eqn:E1;
    [unfold level_match; rewrite E0, E1; apply Qle_refl|].
  apply orb_false_iff in E0 as [_ E0']. apply Z.eqb_neq in E0'. apply Z.leb_gt in E1.
  destruct (level_match_below r c) as [_ [_ H]]; [lia | lia | lra].
Qed.

(** Known levels never produce the neutral 0.5. *)
Lemma level_match_known_not_half r c :
  (1 <= r <= 5)%Z -> (1 <= c <= 5)%Z -> ~ level_match r c == 1#2.
Proof.
  intros Hr Hc.
  assert (r = 1 \/ r = 2 \/ r = 3 \/ r = 4 \/ r = 5)%Z as Er by lia.
  assert (c = 1 \/ c = 2 \/ c = 3 \/ c = 4 \/ c = 5)%Z as Ec by lia.
  destruct Er as [-> | [-> | [-> | [-> | ->]]]]; destruct Ec as [-> | [-> | [-> | [-> | ->]]]];
    vm_compute; discriminate.
Qed.

Lemma level_match_half r c :
  (0 <= r <= 5)%Z -> (0 <= c <= 5)%Z -> level_match r c == 1#2 -> r = 0%Z \/ c = 0%Z.
Proof.
  intros Hr Hc H.
  destruct (Z.eq_dec r 0) as [|Hr0]; [auto|]. destruct (Z.eq_dec c 0) as [|Hc0]; [auto|].
  exfalso. apply (level_match_known_not_half r c); [lia | lia | exact H].
Qed.

Lemma employment_match_values a b :
  calculate_employment_match a b = 1 \/ calculate_employment_match a b = 4#5
  \/ calculate_employment_match a b = 0.
Proof.
  unfold calculate_employment_match.
  destruct (String.eqb _ _); [auto|]. destruct (_ || _); auto.
Qed.

Lemma location_match_values a b :
  calculate_location_match a b = 1 \/ calculate_location_match a b = 4#5
  \/ calculate_location_match a b = 0.
Proof.
  unfold calculate_location_match. destruct a; [auto|].
  destruct (existsb _ _); [auto|]. destruct (_ || _); auto.
Qed.

Lemma exp_score_le1 rq c : exp_score rq c <= 1.
Proof.
  unfold exp_score. destruct (truthy_str _); [|apply Qle_refl].
  apply level_match_le1. apply exp_rank_range.
Qed.

Lemma seniority_score_le1 rq c : seniority_score rq c <= 1.
Proof.
  unfold seniority_score. destruct (truthy_str _); [|apply Qle_refl].
  apply level_match_le1. apply seniority_rank_range.
Qed.

Lemma employment_score_le1 rq c : employment_score rq c <= 1.
Proof.
  unfold employment_score. destruct (truthy_str _); [|apply Qle_refl].
  destruct (employment_match_values (get_or "" (req_employment_type rq))
              (get_or "" (c_employment_type c))) as [-> | [-> | ->]]; discriminate.
Qed.

Lemma location_score_le1 rq c : location_score rq c <= 1.
Proof.
  unfold location_score. destruct (truthy_list _); [|apply Qle_refl].
  destruct (location_match_values (get_or [] (req_locations rq))
              (get_or [] (c_location c))) as [-> | [-> | ->]]; discriminate.
Qed.

End MatchFacts.

(** ** Claims on the lenient engine *)

Module LenientClaims.
Local Open Scope list_scope.
Import Py AIMatching Props SkillFacts MatchFacts Samples.

(** C1 (as amended). Adding to a candidate's skill list, at any position,
    a skill whose preprocessed form is one of the candidate's reported gaps
    (a required skill previously missing) strictly increases the skill
    sub-score and the overall match score, all other inputs fixed. More
    generally, all else fixed, the overall score never decreases when the
    set of matched required skills grows (every gap of the new skill list
    was a gap of the old one). *)
Theorem adding_missing_skill_increases_score (W : list (string * Q))
    (HW : weights_positive W = true) (rq : Requirement) (c : Candidate)
    (l1 l2 : list string) (s : string)
    (Hsk : get_or [] (c_skills c) = l1 ++ l2)
    (Hgap : In (preprocess_text s) (skill_gaps (score_candidate W rq c))) :
  skill_score W (required_skills rq) (l1 ++ l2)
    < skill_score W (required_skills rq) (l1 ++ s :: l2)
  /\ match_score (score_candidate W rq c)
     < match_score (score_candidate W rq (with_skills c (l1 ++ s :: l2)))
  /\ (forall (c1 : Candidate) (l : list string),
        (forall r, In r (skill_gaps (score_candidate W rq (with_skills c1 l))) ->
                   In r (skill_gaps (score_candidate W rq c1))) ->
        match_score (score_candidate W rq c1)
        <= match_score (score_candidate W rq (with_skills c1 l))).
Proof.
  assert (Hstrict : skill_score W (required_skills rq) (l1 ++ l2)
                    < skill_score W (required_skills rq) (l1 ++ s :: l2)).
  { apply skill_gaps_spec in Hgap as [Hin Hnf]. rewrite Hsk in Hnf.
    assert (Hne : required_skills rq <> []).
    { intros E. rewrite E in Hin. contradiction. }
    rewrite !skill_score_formula by auto. unfold Qdiv.
    apply Qmult_lt_compat_r.
    - apply Qinv_lt_0_compat, qsum_pos; [apply weight_pos; auto|].
      destruct (required_skills rq); [congruence | discriminate].
    - apply (qsum_lt _ _ _ (preprocess_text s)); [| exact Hin |].
      + intros r _. destruct (found (map preprocess_text (l1 ++ l2)) r) eqn:E.
        * rewrite (found_incl (map preprocess_text (l1 ++ l2))
                     (map preprocess_text (l1 ++ s :: l2)) r); [apply Qle_refl | | exact E].
          intros x Hx. rewrite map_app in *. simpl. apply in_app_or in Hx.
          apply in_or_app. simpl. tauto.
        * destruct (found (map preprocess_text (l1 ++ s :: l2)) r);
            [apply Qlt_le_weak, weight_pos; auto | apply Qle_refl].
      + rewrite Hnf.
        replace (found (map preprocess_text (l1 ++ s :: l2)) (preprocess_text s)) with true.
        * apply weight_pos; auto.
        * symmetry. apply existsb_exists. exists (preprocess_text s). split.
          -- rewrite map_app. apply in_or_app. simpl. auto.
          -- apply related_refl. }
  split; [exact Hstrict|]. split.
  - rewrite match_score_with_skills.
    rewrite (proj1 (score_candidate_fields W rq c)), Hsk.
    apply total_score_lt, Hstrict.
  - intros c1 l Hincl.
    rewrite match_score_with_skills, (proj1 (score_candidate_fields W rq c1)).
    apply total_score_le, skill_score_mono; auto.
    intros r Hr Hf1. destruct (found (map preprocess_text l) r) eqn:E2; [reflexivity|].
    assert (Hg2 : In r (skill_gaps (score_candidate W rq (with_skills c1 l)))).
    { apply skill_gaps_spec. simpl. auto. }
    apply Hincl, skill_gaps_spec in Hg2 as [_ Hg1]. congruence.
Qed.

Lemma adding_missing_skill_increases_score_witness :
  weights_positive initial_skill_weights = true
  /\ get_or [] (c_skills cand_python_docker) = ["python"; "docker"] ++ []
  /\ In (preprocess_text "rag")
        (skill_gaps (score_candidate initial_skill_weights req_python_rag cand_python_docker))
  /\ skill_score initial_skill_weights (required_skills req_python_rag) (["python"; "docker"] ++ [])
     < skill_score initial_skill_weights (required_skills req_python_rag)
         (["python"; "docker"] ++ ["rag"])
  /\ match_score (score_candidate initial_skill_weights req_python_rag cand_python_docker)
     < match_score (score_candidate initial_skill_weights req_python_rag
                      (with_skills cand_python_docker (["python"; "docker"] ++ ["rag"]))).
Proof.
  assert (HW : weights_positive initial_skill_weights = true) by reflexivity.
  assert (Hsk : get_or [] (c_skills cand_python_docker) = ["python"; "docker"] ++ [])
    by reflexivity.
  assert (Hg : In (preprocess_text "rag")
     (skill_gaps (score_candidate initial_skill_weights req_python_rag cand_python_docker)))
    by (vm_compute; auto).
  destruct (adding_missing_skill_increases_score initial_skill_weights HW req_python_rag
              cand_python_docker ["python"; "docker"] [] "rag" Hsk Hg) as [H1 [H2 _]].
  repeat split; assumption.
Defined.

(** C1, the count form: a candidate matching five required skills scores
    strictly below one matching four other, heavier, required skills, all
    else fixed. *)
Lemma matched_count_not_monotone :
  length (skill_matches (score_candidate initial_skill_weights req_nine cand_five)) = 5%nat
  /\ length (skill_matches (score_candidate initial_skill_weights req_nine cand_four)) = 4%nat
  /\ cand_four = with_skills cand_five (get_or [] (c_skills cand_four))
  /\ match_score (score_candidate initial_skill_weights req_nine cand_five)
     < match_score (score_candidate initial_skill_weights req_nine cand_four).
Proof.
  split; [vm_compute; reflexivity|]. split; [vm_compute; reflexivity|].
  split; [reflexivity|]. vm_compute. reflexivity.
Qed.

(** C3. For a non-empty list of required skills, the skill sub-score of
    [_calculate_skill_similarity] is the sum of the weights of the matched
    required skills over the sum of the weights of all required skills,
    where, after preprocessing, a required skill is matched when it
    contains, or is contained in, some candidate skill, and a skill absent
    from the weight table weighs 1.0. An empty list of required skills
    gives score 1.0 and empty gap and match lists. For [python] and
    [docker] against [python] and [rag] the score is
    weight(python) / (weight(python) + weight(rag)). *)
Theorem skill_similarity_weighted (W : list (string * Q))
    (HW : weights_positive W = true) (reqs cands : list string) (Hne : reqs <> []) :
  skill_score W reqs cands ==
    qsum (fun r => if found (map preprocess_text cands) r then weight W r else 0)
         (map preprocess_text reqs)
    / qsum (weight W) (map preprocess_text reqs)
  /\ (forall r, dict_get W r = None -> weight W r = 1)
  /\ calculate_skill_similarity W [] cands = (1, [], [])
  /\ skill_score W ["python"; "rag"] ["python"; "docker"]
     == weight W "python" / (weight W "python" + weight W "rag").
Proof.
  split; [apply skill_score_formula; auto|].
  split; [intros r E; unfold weight; rewrite E; reflexivity|].
  split; [reflexivity|].
  rewrite skill_score_formula by (auto; discriminate).
  change (map preprocess_text ["python"; "rag"]) with ["python"; "rag"].
  change (map preprocess_text ["python"; "docker"]) with ["python"; "docker"].
  cbn [qsum].
  change (found ["python"; "docker"] "python") with true.
  change (found ["python"; "docker"] "rag") with false.
  apply Qdiv_comp; lra.
Qed.

Lemma skill_similarity_weighted_witness :
  weights_positive initial_skill_weights = true /\ ["python"; "rag"] <> []
  /\ skill_score initial_skill_weights ["python"; "rag"] ["python"; "docker"] == 5 # 11.
Proof.
  assert (HW : weights_positive initial_skill_weights = true) by reflexivity.
  assert (Hne : ["python"; "rag"] <> []) by discriminate.
  split; [exact HW|]. split; [exact Hne|].
  destruct (skill_similarity_weighted initial_skill_weights HW _ ["python"; "docker"] Hne)
    as [H _].
  rewrite H. vm_compute. reflexivity.
Defined.

(** C6. With the fixed table 1-3:1, 3-5:2, 5-10:3, 10+:4, 15+:5 (on
    lowercased labels, 0 for an unknown or empty label),
    [_calculate_experience_match] returns the neutral 0.5 when either rank
    is unknown, 1.0 when the candidate's rank is at least the required
    one, and otherwise max(0.1, 0.1 + (cand_rank/req_rank)*0.9), a value in
    [0.1, 1); for required 10+ against candidate 1-3 it lies in [0.1, 1). *)
Theorem experience_match_rule (req cand : string) :
  let r := exp_rank req in
  let c := exp_rank cand in
  ((r = 0 \/ c = 0)%Z -> calculate_experience_match req cand = 1#2)
  /\ (r <> 0%Z -> c <> 0%Z -> (r <= c)%Z -> calculate_experience_match req cand = 1)
  /\ (r <> 0%Z -> c <> 0%Z -> (c < r)%Z ->
      calculate_experience_match req cand
        = qmax (1#10) ((1#10) + (inject_Z c / inject_Z r) * (9#10))
      /\ 1#10 <= calculate_experience_match req cand
      /\ calculate_experience_match req cand < 1)
  /\ (1#10 <= calculate_experience_match "10+" "1-3"
      /\ calculate_experience_match "10+" "1-3" < 1).
Proof.
  intros r c. unfold calculate_experience_match.
  fold (exp_rank req). fold (exp_rank cand). fold r c.
  pose proof (exp_rank_range cand) as Hc.
  split; [|split; [|split]].
  - intros [H|H]; unfold level_match; rewrite H; simpl;
      [reflexivity | rewrite orb_true_r; reflexivity].
  - intros Hr0 Hc0 Hle. unfold level_match.
    replace (r =? 0)%Z with false by lia. replace (c =? 0)%Z with false by lia.
    replace (r <=? c)%Z with true by lia. reflexivity.
  - intros Hr0 Hc0 Hlt. apply level_match_below; fold c in Hc; lia.
  - split; vm_compute; [intros H; discriminate H | reflexivity].
Qed.

Lemma experience_match_rule_witness :
  exp_rank "10+" <> 0%Z /\ exp_rank "1-3" <> 0%Z /\ (exp_rank "1-3" < exp_rank "10+")%Z
  /\ calculate_experience_match "10+" "1-3" == 13#40.
Proof.
  assert (H1 : exp_rank "10+" <> 0%Z) by (vm_compute; discriminate).
  assert (H2 : exp_rank "1-3" <> 0%Z) by (vm_compute; discriminate).
  assert (H3 : (exp_rank "1-3" < exp_rank "10+")%Z) by (vm_compute; reflexivity).
  split; [exact H1|]. split; [exact H2|]. split; [exact H3|].
  destruct (experience_match_rule "10+" "1-3") as [_ [_ [H _]]].
  destruct (H H1 H2 H3) as [E _]. rewrite E. vm_compute. reflexivity.
Defined.

(** C10. In the lenient engine an omitted optional dimension ([None] or
    empty) scores exactly 1.0; the neutral 0.5 only arises for a supplied
    experience or seniority requirement with an unknown label on either
    side, and never for employment type or location; so omitting a
    dimension never lowers a candidate's overall score. *)
Theorem omitted_dimension_scores_one (W : list (string * Q)) (rq : Requirement)
    (c : Candidate) :
  (truthy_str (req_experience_years rq) = false -> exp_score rq c = 1)
  /\ (truthy_str (req_seniority rq) = false -> seniority_score rq c = 1)
  /\ (truthy_str (req_employment_type rq) = false -> employment_score rq c = 1)
  /\ (truthy_list (req_locations rq) = false -> location_score rq c = 1)
  /\ (exp_score rq c == 1#2 ->
      truthy_str (req_experience_years rq) = true
      /\ (exp_rank (get_or "" (req_experience_years rq)) = 0
          \/ exp_rank (get_or "" (c_experience_years c)) = 0)%Z)
  /\ (seniority_score rq c == 1#2 ->
      truthy_str (req_seniority rq) = true
      /\ (seniority_rank (get_or "" (req_seniority rq)) = 0
          \/ seniority_rank (get_or "" (c_seniority c)) = 0)%Z)
  /\ ~ employment_score rq c == 1#2
  /\ ~ location_score rq c == 1#2
  /\ match_score (score_candidate W rq c)
     <= match_score (score_candidate W (omit_experience rq) c)
  /\ match_score (score_candidate W rq c)
     <= match_score (score_candidate W (omit_seniority rq) c)
  /\ match_score (score_candidate W rq c)
     <= match_score (score_candidate W (omit_employment rq) c)
  /\ match_score (score_candidate W rq c)
     <= match_score (score_candidate W (omit_locations rq) c).
Proof.
  pose proof (exp_score_le1 rq c) as Le1. pose proof (seniority_score_le1 rq c) as Le2.
  pose proof (employment_score_le1 rq c) as Le3. pose proof (location_score_le1 rq c) as Le4.
  split; [unfold exp_score; intros ->; reflexivity|].
  split; [unfold seniority_score; intros ->; reflexivity|].
  split; [unfold employment_score; intros ->; reflexivity|].
  split; [unfold location_score; intros ->; reflexivity|].
  split.
  { unfold exp_score. destruct (truthy_str _); [|intros H; discriminate H].
    intros H. split; [reflexivity|]. apply level_match_half; auto; apply exp_rank_range. }
  split.
  { unfold seniority_score. destruct (truthy_str _); [|intros H; discriminate H].
    intros H. split; [reflexivity|].
    apply level_match_half; auto;
      match goal with |- context [seniority_rank ?s] =>
        pose proof (seniority_rank_range s); lia end. }
  split.
  { unfold employment_score. destruct (truthy_str _); [|discriminate].
    destruct (employment_match_values (get_or "" (req_employment_type rq))
                (get_or "" (c_employment_type c))) as [-> | [-> | ->]]; discriminate. }
  split.
  { unfold location_score. destruct (truthy_list _); [|discriminate].
    destruct (location_match_values (get_or [] (req_locations rq))
                (get_or [] (c_location c))) as [-> | [-> | ->]]; discriminate. }
  rewrite !(proj1 (score_candidate_fields W _ c)). rewrite !total_score_eq.
  cbn [required_skills omit_experience omit_seniority omit_employment omit_locations].
  change (exp_score (omit_experience rq) c) with (1:Q).
  change (seniority_score (omit_seniority rq) c) with (1:Q).
  change (employment_score (omit_employment rq) c) with (1:Q).
  change (location_score (omit_locations rq) c) with (1:Q).
  change (exp_score (omit_seniority rq) c) with (exp_score rq c).
  change (exp_score (omit_employment rq) c) with (exp_score rq c).
  change (exp_score (omit_locations rq) c) with (exp_score rq c).
  change (seniority_score (omit_experience rq) c) with (seniority_score rq c).
  change (seniority_score (omit_employment rq) c) with (seniority_score rq c).
  change (seniority_score (omit_locations rq) c) with (seniority_score rq c).
  change (employment_score (omit_experience rq) c) with (employment_score rq c).
  change (employment_score (omit_seniority rq) c) with (employment_score rq c).
  change (employment_score (omit_locations rq) c) with (employment_score rq c).
  change (location_score (omit_experience rq) c) with (location_score rq c).
  change (location_score (omit_seniority rq) c) with (location_score rq c).
  change (location_score (omit_employment rq) c) with (location_score rq c).
  repeat split; lra.
Qed.

Lemma omitted_dimension_scores_one_witness :
  truthy_str (req_experience_years (omit_experience req_python_rag)) = false
  /\ exp_score (omit_experience req_python_rag) cand_python_docker = 1
  /\ match_score (score_candidate initial_skill_weights req_python_rag cand_python_docker)
     <= match_score (score_candidate initial_skill_weights
                       (omit_experience req_python_rag) cand_python_docker).
Proof.
  assert (H0 : truthy_str (req_experience_years (omit_experience req_python_rag)) = false)
    by reflexivity.
  destruct (omitted_dimension_scores_one initial_skill_weights
              (omit_experience req_python_rag) cand_python_docker) as [H1 _].
  destruct (omitted_dimension_scores_one initial_skill_weights
              req_python_rag cand_python_docker) as [_ [_ [_ [_ [_ [_ [_ [_ [H2 _]]]]]]]]].
  split; [exact H0|]. split; [exact (H1 H0)|]. exact H2.
Defined.

End LenientClaims.

(** ** The stable descending sort and slicing *)

Module SortFacts.
Local Open Scope list_scope.
Import StableSort.

Section Facts.
Context {A : Type} (key : A -> Q).

Local Abbreviation desc := (Props.desc key).
Local Abbreviation tie := (Props.tie key).

Lemma insert_perm x l : Permutation (insert_desc key x l) (x :: l).
Proof.
  induction l as [|y l IH]; simpl; [auto|].
  destruct (Qlt_le_dec (key y) (key x)); [auto|].
  eapply perm_trans; [apply perm_skip, IH | apply perm_swap].
Qed.

Lemma insert_sorted x l : StronglySorted desc l -> StronglySorted desc (insert_desc key x l).
Proof.
  induction l as [|y l IH]; simpl; intros H.
  - repeat constructor.
  - apply StronglySorted_inv in H as [Hl Hy].
    destruct (Qlt_le_dec (key y) (key x)) as [Hlt|Hle].
    + constructor; [constructor; auto|].
      constructor; [unfold Props.desc; lra|].
      apply Forall_forall. intros z Hz. rewrite Forall_forall in Hy.
      specialize (Hy z Hz). unfold Props.desc in *. lra.
    + constructor; [auto|]. apply Forall_forall. intros z Hz.
      apply (Permutation_in _ (insert_perm x l)) in Hz. destruct Hz as [<-|Hz]; [exact Hle|].
      rewrite Forall_forall in Hy. auto.
Qed.

Lemma insert_filter q x l :
  StronglySorted desc l ->
  filter (tie q) (insert_desc key x l) = filter (tie q) l ++ filter (tie q) [x].
Proof.
  induction l as [|y l IH]; simpl; intros H.
  - reflexivity.
  - apply StronglySorted_inv in H as [Hl Hy].
    destruct (Qlt_le_dec (key y) (key x)) as [Hlt|Hle].
    + simpl. destruct (tie q x) eqn:Ex.
      * assert (Hnone : filter (tie q) (y :: l) = []).
        { apply Qeq_bool_iff in Ex.
          assert (Hall : forall z, In z (y :: l) -> tie q z = false).
          { intros z [<-|Hz].
            - unfold Props.tie. apply not_true_iff_false. rewrite Qeq_bool_iff. lra.
            - rewrite Forall_forall in Hy. specialize (Hy z Hz). unfold Props.desc in Hy.
              unfold Props.tie. apply not_true_iff_false. rewrite Qeq_bool_iff. lra. }
          clear -Hall. induction (y :: l) as [|z zs IHz]; simpl; [reflexivity|].
          rewrite Hall by (left; reflexivity). apply IHz. intros w Hw. apply Hall. right; auto. }
        simpl in Hnone. rewrite Hnone. reflexivity.
      * rewrite app_nil_r. reflexivity.
    + simpl. rewrite IH by auto. destruct (tie q y); reflexivity.
Qed.

Lemma fold_insert_spec l acc :
  StronglySorted desc acc ->
  let r := fold_left (fun acc x => insert_desc key x acc) l acc in
  StronglySorted desc r /\ Permutation r (acc ++ l)
  /\ forall q, filter (tie q) r = filter (tie q) acc ++ filter (tie q) l.
Proof.
  revert acc. induction l as [|x l IH]; intros acc Hs; simpl.
  - split; [exact Hs|]. split; [rewrite app_nil_r; auto|].
    intros q. rewrite app_nil_r. reflexivity.
  - destruct (IH (insert_desc key x acc) (insert_sorted x acc Hs)) as [H1 [H2 H3]].
    split; [exact H1|]. split.
    + eapply perm_trans; [exact H2|].
      eapply perm_trans; [apply Permutation_app_tail, insert_perm|].
      apply Permutation_middle.
    + intros q. rewrite H3, insert_filter by exact Hs.
      simpl. destruct (tie q x); simpl; rewrite <- app_assoc; reflexivity.
Qed.

(** [sort_desc] is a descending, stable permutation of its input. *)
Lemma sort_desc_spec l :
  StronglySorted desc (sort_desc key l) /\ Permutation (sort_desc key l) l
  /\ forall q, filter (tie q) (sort_desc key l) = filter (tie q) l.
Proof.
  destruct (fold_insert_spec l [] (SSorted_nil _)) as [H1 [H2 H3]].
  split; [exact H1|]. split; [exact H2|]. intros q. rewrite H3. reflexivity.
Qed.

End Facts.

Lemma slice_nonneg {A : Type} (l : list A) (k : nat) :
  Py.slice_upto l (Z.of_nat k) = firstn k l.
Proof.
  unfold Py.slice_upto. destruct (Z.leb_spec 0 (Z.of_nat k)); [|lia].
  rewrite Nat2Z.id. reflexivity.
Qed.

Lemma slice_prefix {A : Type} (l : list A) (n : Z) :
  exists t, Py.slice_upto l n ++ t = l.
Proof.
  unfold Py.slice_upto. destruct (0 <=? n)%Z; eexists; apply firstn_skipn.
Qed.

Lemma firstn_S_prefix {A : Type} (l : list A) (k : nat) :
  exists t, firstn (S k) l = firstn k l ++ t.
Proof.
  revert l. induction k as [|k IH]; intros [|x l].
  - exists []. reflexivity.
  - exists [x]. reflexivity.
  - exists []. reflexivity.
  - destruct (IH l) as [t Ht]. exists t.
    change (x :: firstn (S k) l = x :: (firstn k l ++ t)). rewrite Ht. reflexivity.
Qed.

Lemma slice_zero {A : Type} (l : list A) : Py.slice_upto l 0 = [].
Proof. reflexivity. Qed.

Lemma slice_big {A : Type} (l : list A) (n : Z) :
  (Z.of_nat (length l) <= n)%Z -> Py.slice_upto l n = l.
Proof.
  intros H. unfold Py.slice_upto. destruct (Z.leb_spec 0 n); [|lia].
  apply firstn_all2. lia.
Qed.

Lemma slice_neg {A : Type} (l : list A) (n : Z) :
  (n < 0)%Z -> Py.slice_upto l n = firstn (length l - Z.to_nat (- n)) l.
Proof.
  intros H. unfold Py.slice_upto. destruct (Z.leb_spec 0 n); [lia|].
  f_equal. lia.
Qed.

Lemma StronglySorted_app_l {A : Type} (R : A -> A -> Prop) (a b : list A) :
  StronglySorted R (a ++ b) -> StronglySorted R a.
Proof.
  induction a as [|x a IH]; simpl; intros H; [constructor|].
  apply StronglySorted_inv in H as [H1 H2]. constructor; [auto|].
  rewrite Forall_forall in *. intros y Hy. apply H2, in_or_app. auto.
Qed.

Lemma filter_app_prefix {A : Type} (p : A -> bool) (a t : list A) :
  filter p (a ++ t) = filter p a ++ filter p t.
Proof. apply filter_app. Qed.

End SortFacts.

(** ** Claims on ranking and truncation *)

Module RankingClaims.
Local Open Scope list_scope.
Import Py AIMatching Props Samples SortFacts.

(** C4. [match_candidates] returns its candidates sorted by overall score,
    descending; the full ranking is a permutation of the scored dataset in
    which candidates with exactly equal scores keep their dataset order,
    the returned list is a prefix of that ranking, and the result for
    [top_n = k] is a prefix of the result for [top_n = k + 1], for every
    [k >= 0]. *)
Theorem match_candidates_sorted_stable (self : Matcher) (rq : Requirement) (top_n : Z) :
  let pool := map (score_candidate (skill_weights self) rq) (dataset self) in
  let ranking := StableSort.sort_desc match_score pool in
  let out := fst (match_candidates self rq top_n) in
  StronglySorted (desc match_score) out
  /\ (exists rest, out ++ rest = ranking)
  /\ Permutation ranking pool
  /\ (forall q, filter (tie match_score q) ranking = filter (tie match_score q) pool)
  /\ (forall k : nat, exists t,
        fst (match_candidates self rq (Z.of_nat (S k)))
        = fst (match_candidates self rq (Z.of_nat k)) ++ t).
Proof.
  intros pool ranking out.
  destruct (sort_desc_spec match_score pool) as [Hs [Hp Hf]].
  destruct (slice_prefix ranking top_n) as [rest Hrest].
  assert (Hout : out = slice_upto ranking top_n) by reflexivity.
  split.
  - assert (Hs' : StronglySorted (desc match_score) ranking) by exact Hs.
    rewrite <- Hrest in Hs'. apply StronglySorted_app_l in Hs'.
    rewrite Hout. exact Hs'.
  - split; [exists rest; exact Hrest|]. split; [exact Hp|]. split; [exact Hf|].
    intros k. unfold match_candidates. cbn [fst]. rewrite !slice_nonneg.
    apply firstn_S_prefix.
Qed.

(** C5, the literal claim: a negative [top_n] does not give an empty
    list; [top_n = -1] drops only the last of two candidates. *)
Lemma negative_top_n_not_empty :
  length (fst (match_candidates
                 (mkMatcher [cand_python_docker; cand_five] initial_skill_weights)
                 req_python_rag (-1))) = 1%nat.
Proof. vm_compute. reflexivity. Qed.

(** C5 (as amended). In both engines the result is [ranking[:top_n]],
    where [ranking] is the stable descending sort of the scored candidates
    (in strict mode, the candidates that pass the filters, in dataset
    order): [top_n = 0]
    gives an empty list, a negative [top_n] drops the last [-top_n]
    entries (an empty list once [-top_n] reaches the pool size), a
    [top_n] at least the pool size gives the whole ranking, and
    truncation never reorders: every result is a prefix of the ranking. *)
Theorem top_n_slices_ranking (self : Matcher) (rq : Requirement)
    (gap : list string -> list string -> list (string * string))
    (questions : StrictMatching.Candidate -> list string -> list string)
    (ds : list StrictMatching.Candidate) (required : list string)
    (preferred : option (list string))
    (sen loc emp exp : option string) :
  (let out n := fst (match_candidates self rq n) in
   let ranking := StableSort.sort_desc match_score
                    (map (score_candidate (skill_weights self) rq) (dataset self)) in
   StronglySorted (desc match_score) ranking
   /\ (forall n, out n = slice_upto ranking n)
   /\ out 0%Z = []
   /\ (forall n, (n < 0)%Z -> out n = firstn (length ranking - Z.to_nat (- n)) ranking)
   /\ (forall n, (Z.of_nat (length ranking) <= n)%Z -> out n = ranking)
   /\ (forall n, exists t, out n ++ t = ranking))
  /\ (let out n := StrictMatching.match_candidates gap questions ds required preferred
                     sen loc emp exp n in
      let scored := flat_map (fun c =>
             match StrictMatching.score_candidate gap questions required (get_or [] preferred)
                     sen loc emp exp c with
             | Some s => [s] | None => [] end) ds in
      let ranking := StableSort.sort_desc StrictMatching.score scored in
      StronglySorted (desc (StrictMatching.score)) ranking
      /\ Permutation ranking scored
      /\ (forall q, filter (tie StrictMatching.score q) ranking
                    = filter (tie StrictMatching.score q) scored)
      /\ (forall n, out n = slice_upto ranking n)
      /\ out 0%Z = []
      /\ (forall n, (n < 0)%Z -> out n = firstn (length ranking - Z.to_nat (- n)) ranking)
      /\ (forall n, (Z.of_nat (length ranking) <= n)%Z -> out n = ranking)
      /\ (forall n, exists t, out n ++ t = ranking)).
Proof.
  split.
  - intros out ranking.
    destruct (sort_desc_spec match_score
                (map (score_candidate (skill_weights self) rq) (dataset self))) as [Hs _].
    split; [exact Hs|]. split; [reflexivity|]. split; [reflexivity|].
    split; [intros n Hn; apply slice_neg; exact Hn|].
    split; [intros n Hn; apply slice_big; exact Hn|].
    intros n. apply slice_prefix.
  - intros out scored ranking.
    destruct (sort_desc_spec StrictMatching.score scored) as [Hs [Hp Hf]].
    assert (Hout : forall n, out n = slice_upto ranking n) by reflexivity.
    split; [exact Hs|]. split; [exact Hp|]. split; [exact Hf|]. split; [exact Hout|].
    split; [rewrite Hout; reflexivity|].
    split; [intros n Hn; rewrite Hout; apply slice_neg; exact Hn|].
    split; [intros n Hn; rewrite Hout; apply slice_big; exact Hn|].
    intros n. rewrite Hout. apply slice_prefix.
Qed.

Lemma top_n_slices_ranking_witness :
  (Z.of_nat (length (StableSort.sort_desc match_score
     (map (score_candidate initial_skill_weights req_python_rag)
          [cand_python_docker; cand_five]))) <= 5)%Z
  /\ fst (match_candidates (mkMatcher [cand_python_docker; cand_five] initial_skill_weights)
          req_python_rag 5)
     = StableSort.sort_desc match_score
         (map (score_candidate initial_skill_weights req_python_rag)
              [cand_python_docker; cand_five]).
Proof.
  assert (H : (Z.of_nat (length (StableSort.sort_desc match_score
     (map (score_candidate initial_skill_weights req_python_rag)
          [cand_python_docker; cand_five]))) <= 5)%Z) by (vm_compute; discriminate).
  split; [exact H|].
  destruct (top_n_slices_ranking (mkMatcher [cand_python_docker; cand_five] initial_skill_weights)
              req_python_rag (fun _ _ => []) (fun _ _ => []) [] [] None None None None None)
    as [[_ [_ [_ [_ [Hbig _]]]]] _].
  exact (Hbig 5%Z H).
Defined.

(** C7. The lenient engine is a pure function of the matcher's dataset
    and weights and of its arguments, and leaves the matcher unchanged:
    two consecutive calls with identical inputs return identical rankings
    and scores. *)
Theorem match_candidates_deterministic (self : Matcher) (rq : Requirement) (top_n : Z) :
  let '(r1, s1) := match_candidates self rq top_n in
  let '(r2, s2) := match_candidates s1 rq top_n in
  r1 = r2 /\ map match_score r1 = map match_score r2 /\ s1 = self /\ s2 = self.
Proof.
  simpl. repeat split; reflexivity.
Qed.

End RankingClaims.

(** ** The strict engine *)

Module StrictClaims.
Local Open Scope list_scope.
Import Py AIMatching Props Samples SortFacts MatchFacts SkillFacts.
Import StrictMatching.

Section Strict.
Variable gap : list string -> list string -> list (string * string).
Variable questions : StrictMatching.Candidate -> list string -> list string.

Lemma filter_nil_all {A : Type} (p : A -> bool) (l : list A) :
  filter p l = [] -> forall x, In x l -> p x = false.
Proof.
  induction l as [|y l IH]; simpl; intros H x Hx; [contradiction|].
  destruct (p y) eqn:Ey; [discriminate|]. destruct Hx as [<-|Hx]; auto.
Qed.

(** A scored candidate passed the hard gate. *)
Lemma score_candidate_some required preferred sen loc emp exp c sc :
  score_candidate gap questions required preferred sen loc emp exp c = Some sc ->
  candidate sc = c /\ missing_skills sc = []
  /\ skill_matches sc
     = filter (fun s => mem s (map lower (get_or [] (c_skills c)))) (map lower required)
       ++ filter (fun s => mem s (map lower (get_or [] (c_skills c)))) (map lower preferred)
  /\ forall r, In r required -> mem (lower r) (map lower (get_or [] (c_skills c))) = true.
Proof.
  unfold score_candidate.
  destruct (negb (passes_filters sen loc emp exp c)); [discriminate|].
  destruct (filter (fun s => negb (mem s (map lower (get_or [] (c_skills c)))))
              (map lower required)) eqn:Emiss; [|discriminate].
  intros H. injection H as <-. simpl. split; [reflexivity|]. split; [reflexivity|].
  split; [reflexivity|].
  intros r Hr. apply negb_false_iff.
  apply (filter_nil_all _ _ Emiss). apply in_map. exact Hr.
Qed.

(** Every returned result comes from a dataset record that passed the gate. *)
Lemma match_candidates_from ds required preferred sen loc emp exp top_n sc :
  In sc (match_candidates gap questions ds required preferred sen loc emp exp top_n) ->
  exists c, In c ds
    /\ score_candidate gap questions required (get_or [] preferred) sen loc emp exp c = Some sc.
Proof.
  unfold match_candidates. intros H.
  set (scored := flat_map _ ds) in H.
  destruct (slice_prefix (StableSort.sort_desc score scored) top_n) as [t Ht].
  assert (H1 : In sc (StableSort.sort_desc score scored)).
  { rewrite <- Ht. apply in_or_app. auto. }
  destruct (sort_desc_spec score scored) as [_ [Hp _]].
  apply (Permutation_in _ Hp) in H1.
  apply in_flat_map in H1 as [c [Hc Hin]]. exists c. split; [exact Hc|].
  destruct (score_candidate _ _ _ _ _ _ _ _ c); simpl in Hin; [|contradiction].
  destruct Hin as [<-|[]]. reflexivity.
Qed.

End Strict.

(** C2. In strict mode a returned result's candidate is a dataset record
    whose lowercased skill set contains every lowercased required skill;
    a record missing one is excluded, and every returned result has an
    empty [missing_skills] list. A senior with [python] and [docker] is
    excluded when [python] and [rag] are required. *)
Theorem strict_mode_excludes_missing_skills
    (gap : list string -> list string -> list (string * string))
    (questions : StrictMatching.Candidate -> list string -> list string)
    (ds : list StrictMatching.Candidate) (required : list string)
    (preferred : option (list string)) (sen loc emp exp : option string) (top_n : Z) :
  let out := match_candidates gap questions ds required preferred sen loc emp exp top_n in
  (forall sc, In sc out ->
     In (candidate sc) ds
     /\ forall r, In r required ->
          mem (lower r) (map lower (get_or [] (c_skills (candidate sc)))) = true)
  /\ (forall c r, In r required ->
       mem (lower r) (map lower (get_or [] (c_skills c))) = false ->
       forall sc, In sc out -> candidate sc <> c)
  /\ (forall sc, In sc out -> missing_skills sc = [])
  /\ match_candidates gap questions [cand_senior_python_docker] ["python"; "rag"] None
       (Some "senior") None None None top_n = [].
Proof.
  intros out.
  assert (Hall : forall sc, In sc out ->
     In (candidate sc) ds /\ missing_skills sc = []
     /\ forall r, In r required ->
          mem (lower r) (map lower (get_or [] (c_skills (candidate sc)))) = true).
  { intros sc Hsc. apply match_candidates_from in Hsc as [c [Hc Hs]].
    apply score_candidate_some in Hs as [-> [Hm [_ Hr]]]. auto. }
  split; [intros sc Hsc; destruct (Hall sc Hsc) as [H1 [_ H3]]; auto|].
  split.
  { intros c r Hr Hmiss sc Hsc Heq. destruct (Hall sc Hsc) as [_ [_ H3]].
    rewrite Heq in H3. rewrite (H3 r Hr) in Hmiss. discriminate. }
  split; [intros sc Hsc; apply (Hall sc Hsc)|].
  unfold match_candidates. simpl. unfold slice_upto.
  destruct (0 <=? top_n)%Z; destruct (Z.to_nat _); reflexivity.
Qed.

Lemma strict_mode_excludes_missing_skills_witness :
  In "rag" ["python"; "rag"]
  /\ mem (lower "rag") (map lower (get_or [] (c_skills cand_senior_python_docker))) = false
  /\ match_candidates (fun _ _ => []) (fun _ _ => []) [cand_senior_python_docker]
       ["python"; "rag"] None (Some "senior") None None None 10 = [].
Proof.
  assert (H1 : In "rag" ["python"; "rag"]) by (simpl; auto).
  assert (H2 : mem (lower "rag") (map lower (get_or [] (c_skills cand_senior_python_docker)))
               = false) by reflexivity.
  split; [exact H1|]. split; [exact H2|].
  destruct (strict_mode_excludes_missing_skills (fun _ _ => []) (fun _ _ => [])
              [cand_senior_python_docker] ["python"; "rag"] None (Some "senior")
              None None None 10) as [_ [_ [_ H]]].
  exact H.
Defined.

(** C9. In every match result the matched skills and the missing skills
    are disjoint: in the lenient engine no reported match is a reported
    gap, and in the strict engine every returned result has no missing
    skill while its matched skills cover every lowercased required skill. *)
Theorem matched_and_missing_disjoint :
  (forall (W : list (string * Q)) (rq : Requirement) (c : Candidate) (x : string),
     In x (AIMatching.skill_matches (AIMatching.score_candidate W rq c)) ->
     ~ In x (skill_gaps (AIMatching.score_candidate W rq c)))
  /\ (forall gap questions ds required preferred sen loc emp exp top_n sc,
       In sc (match_candidates gap questions ds required preferred sen loc emp exp top_n) ->
       (forall x, In x (StrictMatching.skill_matches sc) -> ~ In x (missing_skills sc))
       /\ (forall r, In r required ->
             In (lower r) (StrictMatching.skill_matches sc ++ missing_skills sc))).
Proof.
  split.
  - intros W rq c x Hx Hg.
    destruct (score_candidate_fields W rq c) as [_ [Hgaps Hms]].
    apply skill_gaps_spec in Hg as [Hin Hnf].
    rewrite Hms in Hx.
    assert (Hne : required_skills rq <> []).
    { intros E. rewrite E in Hin. contradiction. }
    rewrite (proj2 (calc_lists W _ _ Hne)) in Hx. apply matches_in in Hx.
    fold (found (map preprocess_text (get_or [] (c_skills c))) x) in Hnf.
    assert (found (map preprocess_text (get_or [] (c_skills c))) x = true).
    { apply existsb_exists. exists x. split; [exact Hx | apply related_refl]. }
    congruence.
  - intros gap questions ds required preferred sen loc emp exp top_n sc Hsc.
    apply match_candidates_from in Hsc as [c [_ Hs]].
    apply score_candidate_some in Hs as [_ [Hm [Hsm Hr]]].
    rewrite Hm. split; [intros x _ []|].
    intros r Hreq. rewrite app_nil_r, Hsm. apply in_or_app. left.
    apply filter_In. split; [apply in_map; exact Hreq | apply Hr; exact Hreq].
Qed.

Lemma matched_and_missing_disjoint_witness :
  In "python" (AIMatching.skill_matches
                 (AIMatching.score_candidate initial_skill_weights req_python_rag cand_python_docker))
  /\ ~ In "python" (skill_gaps
                 (AIMatching.score_candidate initial_skill_weights req_python_rag cand_python_docker))
  /\ exists sc,
       In sc (match_candidates (fun _ _ => []) (fun _ _ => []) [cand_senior_python_rag]
                ["Python"; "RAG"] None None None None None 10)
       /\ In (lower "RAG") (StrictMatching.skill_matches sc ++ missing_skills sc).
Proof.
  assert (H1 : In "python" (AIMatching.skill_matches
                 (AIMatching.score_candidate initial_skill_weights req_python_rag cand_python_docker)))
    by (vm_compute; auto).
  destruct matched_and_missing_disjoint as [Ha Hs].
  split; [exact H1|]. split; [exact (Ha _ _ _ _ H1)|].
  set (out := match_candidates (fun _ _ => []) (fun _ _ => []) [cand_senior_python_rag]
                ["Python"; "RAG"] None None None None None 10).
  assert (H2 : In (hd (mkScored cand_senior_python_rag 0 [] [] [] []) out) out)
    by (vm_compute; left; reflexivity).
  exists (hd (mkScored cand_senior_python_rag 0 [] [] [] []) out). split; [exact H2|].
  destruct (Hs _ _ _ _ _ _ _ _ _ _ _ H2) as [_ Hcov].
  apply (Hcov "RAG"). simpl. auto.
Defined.

End StrictClaims.

(** ** The ranker *)

Module RankFacts.
Local Open Scope list_scope.
Import Py Props Ranker.

Lemma dict_get_set_same (d : dict) k v : dict_get (dict_set d k v) k = Some v.
Proof.
  induction d as [|[k' v'] d IH]; simpl; [rewrite String.eqb_refl; reflexivity|].
  destruct (String.eqb k k') eqn:E; simpl; rewrite E; [reflexivity | exact IH].
Qed.

Lemma dict_get_set_other (d : dict) k k2 v :
  k2 <> k -> dict_get (dict_set d k v) k2 = dict_get d k2.
Proof.
  intros Hne. induction d as [|[k' v'] d IH]; simpl.
  - destruct (String.eqb_spec k2 k); [contradiction | reflexivity].
  - destruct (String.eqb k k') eqn:E; simpl.
    + apply String.eqb_eq in E. subst k'.
      destruct (String.eqb_spec k2 k); [contradiction | reflexivity].
    + destruct (String.eqb k2 k'); [reflexivity | exact IH].
Qed.

Lemma score_one_spec pf w cul o c :
  snd (score_one pf w cul o c)
    = (if reaches_cultural_fit pf c then snd (fit pf cul o) else [])
  /\ (forall d, fst (score_one pf w cul o c) = Some d ->
       reaches_cultural_fit pf c = true
       /\ (forall k, k <> "ranking_scores" -> dict_get d k = dict_get c k)
       /\ exists q1 q2 q3 q4 q5,
            dict_get d "ranking_scores"
            = Some (JObj [("overall", JNum q1); ("skill_match", JNum q2);
                          ("experience", JNum q3); ("seniority", JNum q4);
                          ("education", JNum q5);
                          ("cultural_fit", JNum (round2 (fst (fit pf cul o))))]))
  /\ (fst (score_one pf w cul o c) = None <-> fst (score_one pf w None o c) = None).
Proof.
  unfold score_one, fit, reaches_cultural_fit.
  destruct (calculate_experience_score pf _) as [e|];
    [|split; [reflexivity | split; [intros d Hd; discriminate Hd | split; reflexivity]]].
  destruct (get_or (JStr "") (dict_get c "seniority")) as [| | |sen| |];
    try (split; [reflexivity | split; [intros d Hd; discriminate Hd | split; reflexivity]]).
  destruct (truthy_str cul); [destruct (calculate_cultural_fit pf o) as [cf out]|];
  cbv beta iota zeta delta [truthy_str fst snd];
  repeat match goal with |- context [match ?x with _ => _ end] => destruct x end;
  (split; [reflexivity|]);
  first
    [ split; [intros d Hd; discriminate Hd | split; reflexivity]
    | split;
      [ intros d Hd; injection Hd as <-; split; [reflexivity|]; split;
        [ intros k Hk; apply dict_get_set_other; exact Hk
        | do 5 eexists; apply dict_get_set_same ]
      | split; intros H; discriminate H ] ].
Qed.

(** Without a culture description the service's answer is not consulted. *)
Lemma score_one_no_culture pf w o o' c :
  score_one pf w None o c = score_one pf w None o' c.
Proof. reflexivity. Qed.

Lemma score_one_none_indep pf w cul o o' c :
  fst (score_one pf w cul o c) = None <-> fst (score_one pf w cul o' c) = None.
Proof.
  destruct (score_one_spec pf w cul o c) as [_ [_ H1]].
  destruct (score_one_spec pf w cul o' c) as [_ [_ H2]].
  rewrite H1, H2, (score_one_no_culture pf w o o' c). reflexivity.
Qed.

Lemma score_all_some pf w cul ext k cs l :
  fst (score_all pf w cul ext k cs) = Some l ->
  length l = length cs
  /\ forall i c, nth_error cs i = Some c ->
       exists d, nth_error l i = Some d /\ fst (score_one pf w cul (ext (k + i)%nat) c) = Some d.
Proof.
  revert k l. induction cs as [|c cs IH]; intros k l; cbn [score_all].
  - intros H. injection H as <-. split; [reflexivity|]. intros [|i] c' H; discriminate H.
  - destruct (score_one pf w cul (ext k) c) as [[d|] out] eqn:E; [|discriminate].
    destruct (score_all pf w cul ext (S k) cs) as [[rest|] out'] eqn:E2; [|discriminate].
    simpl. intros H. injection H as <-.
    specialize (IH (S k) rest). rewrite E2 in IH. destruct (IH eq_refl) as [Hl Hn].
    split; [simpl; congruence|].
    intros [|i] c' Hc; simpl in Hc.
    + injection Hc as <-. exists d. rewrite Nat.add_0_r, E. auto.
    + destruct (Hn i c' Hc) as [d' [H1 H2]]. exists d'. split; [exact H1|].
      replace (k + S i)%nat with (S k + i)%nat by lia. exact H2.
Qed.

Lemma score_all_none pf w cul ext k cs :
  fst (score_all pf w cul ext k cs) = None <->
  exists i c, nth_error cs i = Some c /\ fst (score_one pf w cul (ext (k + i)%nat) c) = None.
Proof.
  revert k. induction cs as [|c cs IH]; intros k; cbn [score_all].
  - simpl. split; [discriminate | intros [i [c [H _]]]; destruct i; discriminate H].
  - destruct (score_one pf w cul (ext k) c) as [[d|] out] eqn:E.
    + destruct (score_all pf w cul ext (S k) cs) as [rest out'] eqn:E2.
      specialize (IH (S k)). rewrite E2 in IH. simpl fst in IH |- *.
      split.
      * intros H. destruct rest; [discriminate|].
        destruct (proj1 IH eq_refl) as [i [c' [H1 H2]]].
        exists (S i), c'. split; [exact H1|].
        replace (k + S i)%nat with (S k + i)%nat by lia. exact H2.
      * intros [[|i] [c' [H1 H2]]].
        -- simpl in H1. injection H1 as <-. rewrite Nat.add_0_r, E in H2. discriminate H2.
        -- assert (Hr : rest = None).
           { apply IH. exists i, c'. split; [exact H1|].
             replace (k + S i)%nat with (S (k + i)) in H2 by lia. exact H2. }
           rewrite Hr. reflexivity.
    + simpl. split; [intros _ | reflexivity].
      exists 0%nat, c. rewrite Nat.add_0_r, E. auto.
Qed.

End RankFacts.

Module RankerClaims.
Local Open Scope list_scope.
Import Py Props Samples Ranker RankFacts.

(** C8 (as stated). A failed cultural-fit call attaches no annotation to
    the candidate: the ranked record holds its own keys and
    [ranking_scores], whose entries are the six numbers only; the error
    text goes to standard output. *)
Lemma cultural_fit_error_not_annotated :
  let r := rank_candidates no_float default_criteria [named "A"] "job"
             (Some "collaborative") None (fun _ => Raised "timeout") in
  snd r = ["Error calculating cultural fit: timeout"]
  /\ exists d, fst (fst r) = Some [d]
     /\ map fst d = ["name"; "ranking_scores"]
     /\ match dict_get d "ranking_scores" with
        | Some (JObj kvs) =>
            map fst kvs = ["overall"; "skill_match"; "experience"; "seniority";
                           "education"; "cultural_fit"]
            /\ forallb is_num (map snd kvs) = true
        | _ => False
        end.
Proof.
  intros r. split; [vm_compute; reflexivity|].
  exists (hd [] (get_or [] (fst (fst r)))).
  split; [vm_compute; reflexivity|].
  split; [vm_compute; reflexivity|].
  vm_compute. split; reflexivity.
Qed.

(** C8 (amended). In [rank_candidates], when the cultural-fit call raises
    for a candidate (with a culture description given), or when no
    culture description is given, that candidate's cultural-fit score is
    0.5; the error is only printed to standard output, and only for a
    candidate whose experience and seniority steps, which run before the
    call, succeed (otherwise that candidate raises before the call, with
    nothing printed, and [rank_candidates] raises); the record gets
    no annotation besides its six numeric [ranking_scores]; the failure
    never makes the loop stop; the other candidates' records are the same
    whatever the failed call returned; and the ranked result is a
    reordering of all scored records. *)
Theorem cultural_fit_failure_defaults (pf : string -> option Q) :
  round2 (1#2) == 1#2
  /\ (forall w culture msg c,
        truthy_str culture = true ->
        snd (score_one pf w culture (Raised msg) c)
          = (if reaches_cultural_fit pf c
             then [String.append "Error calculating cultural fit: " msg] else [])
        /\ (reaches_cultural_fit pf c = false -> fst (score_one pf w culture (Raised msg) c) = None)
        /\ forall d, fst (score_one pf w culture (Raised msg) c) = Some d ->
             snd (score_one pf w culture (Raised msg) c)
               = [String.append "Error calculating cultural fit: " msg]
             /\ cultural_fit_of d = Some (round2 (1#2))
             /\ (forall k, k <> "ranking_scores" -> dict_get d k = dict_get c k)
             /\ exists q1 q2 q3 q4 q5,
                  dict_get d "ranking_scores"
                  = Some (JObj [("overall", JNum q1); ("skill_match", JNum q2);
                                ("experience", JNum q3); ("seniority", JNum q4);
                                ("education", JNum q5);
                                ("cultural_fit", JNum (round2 (1#2)))]))
  /\ (forall w culture o c d,
        truthy_str culture = false ->
        fst (score_one pf w culture o c) = Some d -> cultural_fit_of d = Some (round2 (1#2)))
  /\ (forall w culture o c,
        fst (score_one pf w culture o c) = None <-> fst (score_one pf w None o c) = None)
  /\ (forall w culture ext ext' j cs,
        (forall i, i <> j -> ext i = ext' i) ->
        (fst (score_all pf w culture ext 0 cs) = None
           <-> fst (score_all pf w culture ext' 0 cs) = None)
        /\ forall l l',
             fst (score_all pf w culture ext 0 cs) = Some l ->
             fst (score_all pf w culture ext' 0 cs) = Some l' ->
             length l = length l' /\ forall i, i <> j -> nth_error l i = nth_error l' i)
  /\ (forall cw cs jd culture custom ext l,
        fst (fst (rank_candidates pf cw cs jd culture custom ext)) = Some l ->
        exists l0,
          fst (score_all pf (snd (fst (rank_candidates pf cw cs jd culture custom ext)))
                 culture ext 0 cs) = Some l0
          /\ Permutation l0 l).
Proof.
  assert (Hfit : forall w culture o c d q1 q2 q3 q4 q5 cf,
            dict_get d "ranking_scores"
            = Some (JObj [("overall", JNum q1); ("skill_match", JNum q2);
                          ("experience", JNum q3); ("seniority", JNum q4);
                          ("education", JNum q5); ("cultural_fit", JNum cf)]) ->
            fst (score_one pf w culture o c) = Some d -> cultural_fit_of d = Some cf).
  { intros w culture o c d q1 q2 q3 q4 q5 cf H _. unfold cultural_fit_of. rewrite H.
    reflexivity. }
  split; [vm_compute; reflexivity|].
  split.
  { intros w culture msg c Hc.
    destruct (score_one_spec pf w culture (Raised msg) c) as [Hout [Hd _]].
    unfold fit in Hout, Hd. rewrite Hc in Hout, Hd.
    split; [exact Hout|].
    split.
    { intros Hn. destruct (fst (score_one pf w culture (Raised msg) c)) as [d|] eqn:Ed;
        [|reflexivity].
      destruct (Hd d eq_refl) as [Hy _]. congruence. }
    intros d Ed. destruct (Hd d Ed) as [Hy [Hk [q1 [q2 [q3 [q4 [q5 Hr]]]]]]].
    split; [rewrite Hout, Hy; reflexivity|].
    split; [exact (Hfit _ _ _ _ _ _ _ _ _ _ _ Hr Ed)|].
    split; [exact Hk|]. exists q1, q2, q3, q4, q5. exact Hr. }
  split.
  { intros w culture o c d Hc Ed.
    destruct (score_one_spec pf w culture o c) as [_ [Hd _]].
    unfold fit in Hd. rewrite Hc in Hd.
    destruct (Hd d Ed) as [_ [_ [q1 [q2 [q3 [q4 [q5 Hr]]]]]]].
    exact (Hfit _ _ _ _ _ _ _ _ _ _ _ Hr Ed). }
  split.
  { intros w culture o c. apply (score_one_spec pf w culture o c). }
  split.
  { intros w culture ext ext' j cs Hext. split.
    - rewrite !score_all_none.
      split; intros [i [c [H1 H2]]]; exists i, c; split; try exact H1;
        eapply score_one_none_indep; exact H2.
    - intros l l' El El'.
      destruct (score_all_some _ _ _ _ _ _ _ El) as [Hl Hn].
      destruct (score_all_some _ _ _ _ _ _ _ El') as [Hl' Hn'].
      split; [congruence|].
      intros i Hij. destruct (nth_error cs i) as [c|] eqn:Ec.
      + destruct (Hn i c Ec) as [d [Hd1 Hd2]].
        destruct (Hn' i c Ec) as [d' [Hd1' Hd2']].
        simpl in Hd2, Hd2'. rewrite (Hext i Hij) in Hd2. congruence.
      + apply nth_error_None in Ec.
        rewrite (proj2 (nth_error_None l i)) by lia.
        rewrite (proj2 (nth_error_None l' i)) by lia. reflexivity. }
  { intros cw cs jd culture custom ext l. unfold rank_candidates.
    destruct (score_all pf _ culture ext 0 cs) as [r out] eqn:E. simpl.
    destruct r as [l0|]; simpl; [|discriminate].
    intros H. injection H as <-. exists l0. split; [rewrite E; reflexivity|].
    destruct (SortFacts.sort_desc_spec overall_of l0) as [_ [Hp _]].
    apply Permutation_sym. exact Hp. }
Qed.

Lemma cultural_fit_failure_defaults_witness :
  snd (score_one no_float default_criteria (Some "collaborative") (Raised "timeout")
         (named "A"))
    = ["Error calculating cultural fit: timeout"]
  /\ fst (score_one no_float default_criteria (Some "collaborative") (Raised "timeout")
           (("experience_years", JNum 7) :: named "A")) = None
  /\ nth_error (get_or [] (fst (score_all no_float default_criteria (Some "collaborative")
                                 ext_fail_first 0 [named "A"; named "B"]))) 1
     = nth_error (get_or [] (fst (score_all no_float default_criteria (Some "collaborative")
                                   ext_ok 0 [named "A"; named "B"]))) 1.
Proof.
  destruct (cultural_fit_failure_defaults no_float) as [_ [H1 [_ [_ [H4 _]]]]].
  assert (Hc : truthy_str (Some "collaborative") = true) by reflexivity.
  split; [|split].
  - rewrite (proj1 (H1 default_criteria (Some "collaborative") "timeout" (named "A") Hc)).
    reflexivity.
  - apply (proj1 (proj2 (H1 default_criteria (Some "collaborative") "timeout"
                           (("experience_years", JNum 7) :: named "A") Hc))).
    reflexivity.
  - assert (Hext : forall i, i <> 0%nat -> ext_fail_first i = ext_ok i).
    { intros [|i] Hi; [contradiction | reflexivity]. }
    destruct (H4 default_criteria (Some "collaborative") ext_fail_first ext_ok 0%nat
                [named "A"; named "B"] Hext) as [_ Hn].
    apply Hn; [vm_compute; reflexivity | vm_compute; reflexivity | lia].
Defined.

End RankerClaims.

Module ExtraText.
Local Open Scope list_scope.
Import Py AIMatching Props.

Lemma lower_char_idem c : lower_char (lower_char c) = lower_char c.
Proof. destruct c as [[] [] [] [] [] [] [] []]; reflexivity. Qed.

Lemma lower_idem s : lower (lower s) = lower s.
Proof. induction s as [|c s IH]; simpl; [reflexivity|]. rewrite lower_char_idem, IH. reflexivity. Qed.

Lemma sapp_nil_r s : (s ++ "")%string = s.
Proof. induction s as [|c s IH]; simpl; [reflexivity|]. rewrite IH. reflexivity. Qed.

Lemma sapp_assoc a b c : ((a ++ b) ++ c)%string = (a ++ (b ++ c))%string.
Proof. induction a as [|x a IH]; simpl; [reflexivity|]. rewrite IH. reflexivity. Qed.

Lemma all_chars_app p a b : all_chars p (a ++ b)%string = all_chars p a && all_chars p b.
Proof. induction a as [|c a IH]; simpl; [reflexivity|]. rewrite IH, andb_assoc. reflexivity. Qed.

Lemma all_chars_impl (p q : ascii -> bool) s :
  (forall c, p c = true -> q c = true) -> all_chars p s = true -> all_chars q s = true.
Proof.
  intros H. induction s as [|c s IH]; simpl; [auto|].
  intros Hs. apply andb_true_iff in Hs as [H1 H2]. rewrite (H _ H1), IH; auto.
Qed.

Lemma word_char_pp c : word_char c = true -> pp_char c = true.
Proof. unfold word_char. intros H. apply andb_true_iff in H. tauto. Qed.

Lemma word_char_ns c : word_char c = true -> negb (is_space c) = true.
Proof. unfold word_char. intros H. apply andb_true_iff in H. tauto. Qed.

Lemma filtered_pp s : all_chars pp_char (filter_chars pp_keep (lower s)) = true.
Proof.
  induction s as [|c s IH]; [reflexivity|]. cbn [lower filter_chars].
  destruct (pp_keep (lower_char c)) eqn:E; [|exact IH].
  cbn [all_chars]. rewrite IH. unfold pp_char. rewrite lower_char_idem, Ascii.eqb_refl, E.
  reflexivity.
Qed.

Lemma split_aux_fields s cur :
  all_chars pp_char s = true -> all_chars word_char cur = true ->
  Forall (fun w => w <> "" /\ all_chars word_char w = true) (split_ws_aux s cur).
Proof.
  revert cur. induction s as [|c s IH]; intros cur Hs Hc; cbn [split_ws_aux].
  - destruct (String.eqb_spec cur ""); [constructor | repeat constructor; auto].
  - cbn [all_chars] in Hs. apply andb_true_iff in Hs as [Hc1 Hs].
    destruct (is_space c) eqn:Esp.
    + destruct (String.eqb_spec cur "").
      * apply IH; [exact Hs | reflexivity].
      * constructor; [split; auto | apply IH; [exact Hs | reflexivity]].
    + apply IH; [exact Hs|]. rewrite all_chars_app, Hc. simpl.
      unfold word_char. rewrite Hc1, Esp. reflexivity.
Qed.

Lemma join_chars ws :
  Forall (fun w => all_chars word_char w = true) ws -> all_chars pp_char (join " " ws) = true.
Proof.
  induction ws as [|w ws IH]; intros H; [reflexivity|].
  inversion H as [|? ? Hw Hws]; subst.
  destruct ws as [|w2 ws'].
  - apply (all_chars_impl word_char); [exact word_char_pp | exact Hw].
  - change (join " " (w :: w2 :: ws')) with (w ++ String " " (join " " (w2 :: ws')))%string.
    rewrite all_chars_app, (all_chars_impl word_char pp_char w word_char_pp Hw).
    cbn [all_chars]. rewrite IH by exact Hws. reflexivity.
Qed.

Lemma pp_fixed s : all_chars pp_char s = true -> lower s = s /\ filter_chars pp_keep s = s.
Proof.
  induction s as [|c s IH]; [auto|]. cbn [all_chars lower filter_chars].
  intros H. apply andb_true_iff in H as [H1 H2].
  unfold pp_char in H1. apply andb_true_iff in H1 as [Hl Hk]. apply Ascii.eqb_eq in Hl.
  rewrite Hl, Hk. destruct (IH H2) as [-> ->]. auto.
Qed.

Lemma split_aux_app w rest cur :
  all_chars (fun c => negb (is_space c)) w = true ->
  split_ws_aux (w ++ rest) cur = split_ws_aux rest (cur ++ w).
Proof.
  revert cur. induction w as [|c w IH]; intros cur H.
  - simpl. rewrite sapp_nil_r. reflexivity.
  - cbn [all_chars] in H. apply andb_true_iff in H as [H1 H2]. apply negb_true_iff in H1.
    cbn [String.append split_ws_aux]. rewrite H1, IH by exact H2.
    rewrite sapp_assoc. reflexivity.
Qed.

Lemma split_join ws :
  Forall (fun w => w <> "" /\ all_chars word_char w = true) ws -> split (join " " ws) = ws.
Proof.
  unfold split. induction ws as [|w ws IH]; intros H; [reflexivity|].
  inversion H as [|? ? [Hne Hw] Hws]; subst.
  assert (Hns : all_chars (fun c => negb (is_space c)) w = true)
    by exact (all_chars_impl word_char _ w word_char_ns Hw).
  destruct ws as [|w2 ws'].
  - change (join " " [w]) with w. rewrite <- (sapp_nil_r w) at 1.
    rewrite split_aux_app by exact Hns. simpl.
    destruct (String.eqb_spec w ""); [contradiction | reflexivity].
  - change (join " " (w :: w2 :: ws')) with (w ++ String " " (join " " (w2 :: ws')))%string.
    rewrite split_aux_app by exact Hns. cbn [split_ws_aux].
    replace (is_space " ") with true by reflexivity.
    change ("" ++ w)%string with w.
    destruct (String.eqb_spec w ""); [contradiction|].
    rewrite IH by exact Hws. reflexivity.
Qed.

Lemma preprocess_text_eq s :
  preprocess_text s = join " " (split (filter_chars pp_keep (lower s))).
Proof. reflexivity. Qed.

Lemma preprocess_idem t : preprocess_text (preprocess_text t) = preprocess_text t.
Proof.
  rewrite (preprocess_text_eq t). set (ws := split (filter_chars pp_keep (lower t))).
  assert (Hws : Forall (fun w => w <> "" /\ all_chars word_char w = true) ws)
    by (apply split_aux_fields; [apply filtered_pp | reflexivity]).
  assert (Hj : all_chars pp_char (join " " ws) = true).
  { apply join_chars. eapply Forall_impl; [|exact Hws]. intros w [_ Hw]. exact Hw. }
  destruct (pp_fixed _ Hj) as [Hl Hf].
  rewrite preprocess_text_eq, Hl, Hf, split_join by exact Hws. reflexivity.
Qed.

End ExtraText.

Module ExtraLenient.
Local Open Scope list_scope.
Import Py AIMatching Props SkillFacts MatchFacts SortFacts ExtraText.

(** X1. Preprocessing is idempotent, and the weighted skill matcher gives the
    same result on preprocessed skill lists as on the raw ones. *)
Theorem preprocess_text_normal_form (W : list (string * Q)) (t : string)
    (reqs cands : list string) :
  preprocess_text (preprocess_text t) = preprocess_text t
  /\ calculate_skill_similarity W (map preprocess_text reqs) (map preprocess_text cands)
     = calculate_skill_similarity W reqs cands.
Proof.
  split; [apply preprocess_idem|].
  assert (Hm : forall l, map preprocess_text (map preprocess_text l) = map preprocess_text l).
  { intros l. rewrite map_map. apply map_ext. apply preprocess_idem. }
  destruct reqs as [|r rs]; [reflexivity|].
  unfold calculate_skill_similarity. cbn [map].
  rewrite <- !(map_cons preprocess_text), !Hm. reflexivity.
Qed.

Lemma found_term_bounds W cands r :
  weights_positive W = true ->
  0 <= (if found cands r then weight W r else 0) <= weight W r.
Proof.
  intros HW. pose proof (weight_pos W HW r). destruct (found cands r); lra.
Qed.

Lemma qsum_eq_all {A : Type} (f g : A -> Q) (l : list A) :
  (forall x, In x l -> f x <= g x) -> qsum f l == qsum g l ->
  forall x, In x l -> f x == g x.
Proof.
  intros Hle Heq x Hx. destruct (Qeq_dec (f x) (g x)) as [|Hne]; [assumption|].
  exfalso. assert (Hlt : f x < g x).
  { destruct (Qle_lt_or_eq _ _ (Hle x Hx)); [assumption | contradiction]. }
  pose proof (qsum_lt f g l x Hle Hx Hlt). lra.
Qed.

Lemma skill_score_range W reqs cands :
  weights_positive W = true -> 0 <= skill_score W reqs cands <= 1.
Proof.
  intros HW. destruct reqs as [|r0 reqs0] eqn:Er.
  - unfold skill_score. rewrite calc_nil. simpl. lra.
  - rewrite <- Er. assert (Hne : reqs <> []) by (rewrite Er; discriminate).
    rewrite (skill_score_formula W reqs cands HW Hne).
    set (pr := map preprocess_text reqs). set (pc := map preprocess_text cands).
    assert (Hden : 0 < qsum (weight W) pr).
    { apply qsum_pos; [apply weight_pos; exact HW|]. unfold pr. rewrite Er. discriminate. }
    assert (Hle : qsum (fun r => if found pc r then weight W r else 0) pr <= qsum (weight W) pr).
    { apply qsum_le. intros x _. apply found_term_bounds; exact HW. }
    assert (H0 : 0 <= qsum (fun r => if found pc r then weight W r else 0) pr).
    { apply qsum_nonneg. intros x. apply found_term_bounds; exact HW. }
    split.
    + apply Qle_shift_div_l; [exact Hden|]. lra.
    + apply Qle_shift_div_r; [exact Hden|]. lra.
Qed.

(** X2. With positive skill weights the skill sub-score lies in [0, 1], and it
    equals 1 exactly when the list of skill gaps is empty. *)
Theorem skill_similarity_unit_interval (W : list (string * Q)) (reqs cands : list string) :
  weights_positive W = true ->
  0 <= skill_score W reqs cands <= 1
  /\ (skill_score W reqs cands == 1
      <-> snd (fst (calculate_skill_similarity W reqs cands)) = []).
Proof.
  intros HW. split; [apply skill_score_range; exact HW|].
  destruct reqs as [|r0 reqs0] eqn:Er.
  - unfold skill_score. rewrite calc_nil. simpl. split; intros; reflexivity.
  - rewrite <- Er. assert (Hne : reqs <> []) by (rewrite Er; discriminate).
    rewrite (skill_score_formula W reqs cands HW Hne).
    rewrite (proj1 (calc_lists W reqs cands Hne)).
    set (pr := map preprocess_text reqs). set (pc := map preprocess_text cands).
    set (num := qsum (fun r => if found pc r then weight W r else 0) pr).
    set (den := qsum (weight W) pr).
    assert (Hden : 0 < den).
    { apply qsum_pos; [apply weight_pos; exact HW|]. unfold pr. rewrite Er. discriminate. }
    split.
    + intros H1.
      assert (Hnd : num == den).
      { assert (E : num == num / den * den) by (field; intro; lra).
        rewrite H1 in E. lra. }
      assert (Hall : forall r, In r pr -> found pc r = true).
      { intros r Hr.
        pose proof (qsum_eq_all _ _ pr (fun x _ => proj2 (found_term_bounds W pc x HW)) Hnd r Hr)
          as Hr'.
        cbn beta in Hr'. destruct (found pc r); [reflexivity|].
        pose proof (weight_pos W HW r). lra. }
      destruct (snd (matches_gaps pr pc)) as [|g gs] eqn:Eg; [reflexivity|].
      exfalso. assert (Hg : In g (snd (matches_gaps pr pc))) by (rewrite Eg; left; reflexivity).
      apply gaps_spec in Hg as [Hg1 Hg2]. rewrite (Hall g Hg1) in Hg2. discriminate.
    + intros Hg.
      assert (Hall : forall r, In r pr -> found pc r = true).
      { intros r Hr. destruct (found pc r) eqn:Ef; [reflexivity|].
        assert (In r (snd (matches_gaps pr pc))) by (apply gaps_spec; auto).
        rewrite Hg in H. contradiction. }
      assert (Hnd : num == den).
      { apply qsum_ext. intros r Hr. rewrite (Hall r Hr). reflexivity. }
      apply (Qeq_trans _ (den / den)); [apply Qdiv_comp; [exact Hnd | reflexivity]|].
      field. intro; lra.
Qed.

Lemma skill_similarity_unit_interval_witness :
  weights_positive initial_skill_weights = true
  /\ 0 <= skill_score initial_skill_weights ["Python"; "RAG"] ["python"] <= 1
  /\ (skill_score initial_skill_weights ["Python"; "RAG"] ["python"] == 1
      <-> snd (fst (calculate_skill_similarity initial_skill_weights
                      ["Python"; "RAG"] ["python"])) = []).
Proof.
  assert (HW : weights_positive initial_skill_weights = true) by reflexivity.
  split; [exact HW|]. exact (skill_similarity_unit_interval _ _ _ HW).
Defined.


Lemma level_match_ge r c : 1#10 <= level_match r c.
Proof.
  unfold level_match.
  destruct (_ || _); [discriminate|]. destruct (r <=? c)%Z; [discriminate|].
  unfold qmax. destruct (Qle_bool _ (1#10)) eqn:E; [apply Qle_refl|].
  apply Qlt_le_weak, Qnot_le_lt. intros H. apply Qle_bool_iff in H. congruence.
Qed.

Lemma sub_scores_bounds rq c :
  0 <= exp_score rq c <= 1 /\ 0 <= seniority_score rq c <= 1
  /\ 0 <= employment_score rq c <= 1 /\ 0 <= location_score rq c <= 1.
Proof.
  pose proof (exp_score_le1 rq c). pose proof (seniority_score_le1 rq c).
  pose proof (employment_score_le1 rq c). pose proof (location_score_le1 rq c).
  assert (0 <= exp_score rq c).
  { unfold exp_score. destruct (truthy_str _); [|discriminate].
    unfold calculate_experience_match. pose proof (level_match_ge
      (get_or 0%Z (dict_get exp_map (lower (get_or "" (req_experience_years rq)))))
      (get_or 0%Z (dict_get exp_map (lower (get_or "" (c_experience_years c)))))). lra. }
  assert (0 <= seniority_score rq c).
  { unfold seniority_score. destruct (truthy_str _); [|discriminate].
    unfold calculate_seniority_match. pose proof (level_match_ge
      (get_or 0%Z (dict_get seniority_levels (lower (get_or "" (req_seniority rq)))))
      (get_or 0%Z (dict_get seniority_levels (lower (get_or "" (c_seniority c)))))). lra. }
  assert (0 <= employment_score rq c).
  { unfold employment_score. destruct (truthy_str _); [|discriminate].
    destruct (employment_match_values (get_or "" (req_employment_type rq))
              (get_or "" (c_employment_type c))) as [-> | [-> | ->]]; discriminate. }
  assert (0 <= location_score rq c).
  { unfold location_score. destruct (truthy_list _); [|discriminate].
    destruct (location_match_values (get_or [] (req_locations rq))
              (get_or [] (c_location c))) as [-> | [-> | ->]]; discriminate. }
  repeat split; assumption.
Qed.

Lemma score_candidate_subs W rq c :
  experience_match (score_candidate W rq c) = exp_score rq c
  /\ seniority_match (score_candidate W rq c) = seniority_score rq c
  /\ employment_match (score_candidate W rq c) = employment_score rq c
  /\ location_match (score_candidate W rq c) = location_score rq c.
Proof.
  unfold score_candidate. destruct (calculate_skill_similarity _ _ _) as [[sk g] ms].
  repeat split.
Qed.

Lemma in_match_candidates self rq top_n m :
  In m (fst (match_candidates self rq top_n)) ->
  exists c, In c (dataset self) /\ m = score_candidate (skill_weights self) rq c.
Proof.
  unfold match_candidates. cbn [fst]. intros H.
  set (pool := map (score_candidate (skill_weights self) rq) (dataset self)) in *.
  destruct (slice_prefix (StableSort.sort_desc match_score pool) top_n) as [t Ht].
  assert (Hs : In m (StableSort.sort_desc match_score pool))
    by (rewrite <- Ht; apply in_or_app; auto).
  destruct (sort_desc_spec match_score pool) as [_ [Hp _]].
  apply (Permutation_in _ Hp) in Hs. apply in_map_iff in Hs as [c [<- Hc]]. eauto.
Qed.

Lemma scored_bounds W rq c :
  weights_positive W = true ->
  let m := score_candidate W rq c in
  0 <= match_score m <= 1 /\ 0 <= experience_match m <= 1
  /\ 0 <= seniority_match m <= 1 /\ 0 <= employment_match m <= 1
  /\ 0 <= location_match m <= 1.
Proof.
  intros HW m. unfold m.
  destruct (score_candidate_subs W rq c) as [-> [-> [-> ->]]].
  rewrite (proj1 (score_candidate_fields W rq c)).
  destruct (sub_scores_bounds rq c) as [He [Hs [Hm' Hl]]].
  pose proof (skill_score_range W (required_skills rq) (get_or [] (c_skills c)) HW) as Hk.
  rewrite total_score_eq. repeat split; lra.
Qed.

(** X3. With positive skill weights, every result of the lenient
    [match_candidates] has its overall score and its four dimension scores in
    [0, 1]. *)
Theorem match_candidates_scores_in_unit (self : Matcher) (rq : Requirement) (top_n : Z)
    (m : CandidateMatch) :
  weights_positive (skill_weights self) = true ->
  In m (fst (match_candidates self rq top_n)) ->
  0 <= match_score m <= 1 /\ 0 <= experience_match m <= 1
  /\ 0 <= seniority_match m <= 1 /\ 0 <= employment_match m <= 1
  /\ 0 <= location_match m <= 1.
Proof.
  intros HW Hm. destruct (in_match_candidates self rq top_n m Hm) as [c [_ ->]].
  exact (scored_bounds (skill_weights self) rq c HW).
Qed.

Lemma match_candidates_scores_in_unit_witness :
  let self := mkMatcher [Samples.cand_python_docker] initial_skill_weights in
  let m := score_candidate initial_skill_weights Samples.req_python_rag
             Samples.cand_python_docker in
  weights_positive (skill_weights self) = true
  /\ In m (fst (match_candidates self Samples.req_python_rag 10))
  /\ 0 <= match_score m <= 1.
Proof.
  intros self m.
  assert (HW : weights_positive (skill_weights self) = true) by reflexivity.
  assert (Hm : In m (fst (match_candidates self Samples.req_python_rag 10)))
    by (left; reflexivity).
  split; [exact HW|]. split; [exact Hm|].
  exact (proj1 (match_candidates_scores_in_unit self Samples.req_python_rag 10 m HW Hm)).
Defined.

(** X4. The employment-type match is symmetric and ignores letter case on both
    sides. *)
Theorem employment_match_symmetric (a b : string) :
  calculate_employment_match a b = calculate_employment_match b a
  /\ calculate_employment_match (lower a) b = calculate_employment_match a b
  /\ calculate_employment_match a (lower b) = calculate_employment_match a b.
Proof.
  unfold calculate_employment_match. rewrite !lower_idem.
  split; [|split; reflexivity].
  rewrite String.eqb_sym, (orb_comm (contains "remote" (lower a))). reflexivity.
Qed.

Lemma location_match_cons req cand :
  req <> [] ->
  calculate_location_match req cand
  = if existsb (fun loc => existsb (String.eqb loc) (map lower cand)) (map lower req) then 1
    else if existsb (String.eqb "remote") (map lower req)
            || existsb (String.eqb "remote") (map lower cand) then 4#5
    else 0.
Proof. destruct req; [congruence | reflexivity]. Qed.

Lemma existsb_incl {A : Type} (f : A -> bool) l l' :
  incl l l' -> existsb f l = true -> existsb f l' = true.
Proof.
  intros Hi H. apply existsb_exists in H as [x [Hx Hf]].
  apply existsb_exists. exists x. auto.
Qed.

(** X5. For a nonempty required location list, the location match never
    decreases when required or candidate locations are added. *)
Theorem location_match_monotone (req req' cand cand' : list string) :
  req <> [] -> incl req req' -> incl cand cand' ->
  calculate_location_match req cand <= calculate_location_match req' cand'.
Proof.
  intros Hne HR HC.
  assert (Hne' : req' <> []).
  { destruct req as [|x r]; [congruence|]. intros E. subst req'.
    exact (HR x (or_introl eq_refl)). }
  rewrite !location_match_cons by assumption.
  pose proof (incl_map lower HR) as HR'. pose proof (incl_map lower HC) as HC'.
  destruct (existsb (fun loc => existsb (String.eqb loc) (map lower cand)) (map lower req))
    eqn:O1.
  - replace (existsb (fun loc => existsb (String.eqb loc) (map lower cand')) (map lower req'))
      with true; [apply Qle_refl|].
    symmetry. apply existsb_exists in O1 as [x [Hx Hf]].
    apply existsb_exists. exists x. split; [auto|]. eapply existsb_incl; eauto.
  - destruct (existsb (String.eqb "remote") (map lower req)
              || existsb (String.eqb "remote") (map lower cand)) eqn:O2.
    + replace (existsb (String.eqb "remote") (map lower req')
               || existsb (String.eqb "remote") (map lower cand')) with true.
      * destruct (existsb (fun loc => existsb (String.eqb loc) (map lower cand')) (map lower req')); discriminate.
      * symmetry. apply orb_true_iff in O2 as [O|O]; apply orb_true_iff;
          [left | right]; eapply existsb_incl; eauto.
    + destruct (existsb (fun loc => existsb (String.eqb loc) (map lower cand')) (map lower req')); [discriminate|].
      destruct (existsb (String.eqb "remote") (map lower req') || existsb (String.eqb "remote") (map lower cand')); discriminate.
Qed.

Lemma location_match_monotone_witness :
  ["Berlin"] <> [] /\ incl ["Berlin"] ["Berlin"; "Remote"] /\ incl ["Paris"] ["Paris"; "berlin"]
  /\ calculate_location_match ["Berlin"] ["Paris"]
     <= calculate_location_match ["Berlin"; "Remote"] ["Paris"; "berlin"].
Proof.
  assert (H1 : ["Berlin"] <> []) by discriminate.
  assert (H2 : incl ["Berlin"] ["Berlin"; "Remote"]) by (intros x [<-|[]]; left; reflexivity).
  assert (H3 : incl ["Paris"] ["Paris"; "berlin"]) by (intros x [<-|[]]; left; reflexivity).
  split; [exact H1|]. split; [exact H2|]. split; [exact H3|].
  exact (location_match_monotone _ _ _ _ H1 H2 H3).
Defined.

(** X6. The seniority match is 0.5 when either label is unknown, 1 when the
    candidate's rank is at least the required one, and 0.1 + (c/r) * 0.9,
    within [0.1, 1), when it is lower; a label is unknown exactly when it is
    not junior, midlevel or senior. *)
Theorem seniority_match_rule (req cand : string) :
  let r := seniority_rank req in
  let c := seniority_rank cand in
  ((r = 0 \/ c = 0)%Z -> calculate_seniority_match req cand = 1#2)
  /\ (r <> 0%Z -> c <> 0%Z -> (r <= c)%Z -> calculate_seniority_match req cand = 1)
  /\ (r <> 0%Z -> c <> 0%Z -> (c < r)%Z ->
      1#10 <= calculate_seniority_match req cand < 1
      /\ calculate_seniority_match req cand == (1#10) + (inject_Z c / inject_Z r) * (9#10))
  /\ (r = 0%Z <-> lower req <> "junior" /\ lower req <> "midlevel" /\ lower req <> "senior").
Proof.
  intros r c. unfold calculate_seniority_match.
  fold (seniority_rank req). fold (seniority_rank cand). fold r c.
  pose proof (seniority_rank_range cand) as Hc. fold c in Hc.
  split; [|split; [|split]].
  - intros [H|H]; unfold level_match; rewrite H; simpl;
      [reflexivity | rewrite orb_true_r; reflexivity].
  - intros Hr0 Hc0 Hle. unfold level_match.
    replace (r =? 0)%Z with false by lia. replace (c =? 0)%Z with false by lia.
    replace (r <=? c)%Z with true by lia. reflexivity.
  - intros Hr0 Hc0 Hlt.
    destruct (level_match_below r c) as [E [H1 H2]]; [lia | lia |].
    split; [split; assumption|]. rewrite E. unfold qmax.
    destruct (Qle_bool _ (1#10)) eqn:Eq; [|reflexivity].
    apply Qle_bool_iff in Eq.
    assert (0 <= inject_Z c / inject_Z r).
    { apply Qle_shift_div_l; [change 0 with (inject_Z 0); rewrite <- Zlt_Qlt; lia|].
      rewrite Qmult_0_l. change 0 with (inject_Z 0). rewrite <- Zle_Qle. lia. }
    lra.
  - unfold r, seniority_rank, seniority_levels. cbn [dict_get].
    destruct (String.eqb_spec (lower req) "junior"); [cbn; split; [intros H; discriminate H | tauto]|].
    destruct (String.eqb_spec (lower req) "midlevel"); [cbn; split; [intros H; discriminate H | tauto]|].
    destruct (String.eqb_spec (lower req) "senior"); [cbn; split; [intros H; discriminate H | tauto]|].
    cbn. tauto.
Qed.

Lemma seniority_match_rule_witness :
  seniority_rank "Senior" <> 0%Z /\ seniority_rank "junior" <> 0%Z
  /\ (seniority_rank "junior" < seniority_rank "Senior")%Z
  /\ 1#10 <= calculate_seniority_match "Senior" "junior" < 1.
Proof.
  assert (H1 : seniority_rank "Senior" <> 0%Z) by (vm_compute; discriminate).
  assert (H2 : seniority_rank "junior" <> 0%Z) by (vm_compute; discriminate).
  assert (H3 : (seniority_rank "junior" < seniority_rank "Senior")%Z) by (vm_compute; reflexivity).
  split; [exact H1|]. split; [exact H2|]. split; [exact H3|].
  destruct (seniority_match_rule "Senior" "junior") as [_ [_ [H _]]].
  exact (proj1 (H H1 H2 H3)).
Defined.

End ExtraLenient.

Module ExtraReport.
Local Open Scope list_scope.
Import Py PyText AIMatching Ranker MatchReport Props ExtraText ExtraLenient.

Lemma round2_range (N : Z) (x : Q) :
  0 <= x <= inject_Z N -> 0 <= round2 x <= inject_Z N.
Proof.
  intros [H0 H1]. unfold round2. cbv zeta.
  set (y := x * 100). set (f := Qfloor y).
  assert (Hf1 : inject_Z f <= y) by apply Qfloor_le.
  assert (Hf2 : y < inject_Z (f + 1)) by apply Qlt_floor.
  rewrite inject_Z_plus in Hf2. change (inject_Z 1) with 1 in Hf2.
  assert (Hy0 : 0 <= y) by (unfold y; lra).
  assert (Hy1 : y <= inject_Z N * 100) by (unfold y; lra).
  assert (Hf0 : (0 <= f)%Z).
  { assert (H : inject_Z 0 < inject_Z (f + 1)) by (rewrite inject_Z_plus; change (inject_Z 0) with 0; change (inject_Z 1) with 1; lra).
    rewrite <- Zlt_Qlt in H. lia. }
  assert (HfN : (f <= 100 * N)%Z)
    by (rewrite Zle_Qle, inject_Z_mult; change (inject_Z 100) with 100; lra).
  assert (Hr : forall r : Z, (r = f)%Z \/ ((r = f + 1)%Z /\ inject_Z f + (1#2) <= y) ->
            0 <= inject_Z r / 100 <= inject_Z N).
  { intros r Hr. assert (Hr' : (0 <= r <= 100 * N)%Z).
    { destruct Hr as [-> | [-> Hh]]; [lia|].
      assert (f < 100 * N)%Z
        by (rewrite Zlt_Qlt, inject_Z_mult; change (inject_Z 100) with 100; lra). lia. }
    split.
    - apply Qle_shift_div_l; [reflexivity|]. rewrite Qmult_0_l.
      change 0 with (inject_Z 0). rewrite <- Zle_Qle. lia.
    - apply Qle_shift_div_r; [reflexivity|].
      replace (inject_Z N * 100) with (inject_Z (N * 100)) by (rewrite inject_Z_mult; reflexivity).
      rewrite <- Zle_Qle. lia. }
  destruct (Qlt_le_dec (y - inject_Z f) (1#2)); [apply Hr; left; reflexivity|].
  destruct (Qlt_le_dec (1#2) (y - inject_Z f)); [apply Hr; right; split; [reflexivity | lra]|].
  destruct (Z.even f); apply Hr; [left; reflexivity | right; split; [reflexivity | lra]].
Qed.

Lemma round2_comp x x' : x == x' -> round2 x == round2 x'.
Proof.
  intros H. unfold round2. cbv zeta.
  assert (Hy : x * 100 == x' * 100) by (rewrite H; reflexivity).
  assert (Hf : Qfloor (x * 100) = Qfloor (x' * 100)) by (apply Qfloor_comp; exact Hy).
  rewrite <- Hf. set (f := Qfloor (x * 100)).
  destruct (Qlt_le_dec (x * 100 - inject_Z f) (1#2));
  destruct (Qlt_le_dec (x' * 100 - inject_Z f) (1#2)); try (exfalso; lra); [reflexivity|].
  destruct (Qlt_le_dec (1#2) (x * 100 - inject_Z f));
  destruct (Qlt_le_dec (1#2) (x' * 100 - inject_Z f)); try (exfalso; lra); reflexivity.
Qed.

Lemma to_dict_num m k q :
  dict_get (to_dict m) k = Some (JNum q) ->
  In q [round2 (match_score m); round2 (experience_match m); round2 (seniority_match m);
        round2 (employment_match m); round2 (location_match m)].
Proof.
  unfold to_dict, strs. cbn [dict_get]. intros H.
  repeat match type of H with
  | (if String.eqb ?a ?b then _ else _) = _ => destruct (String.eqb a b)
  end; try discriminate; injection H as <-; simpl;
  repeat first [left; reflexivity | right].
Qed.


(** X7. With positive skill weights, every numeric entry of [to_dict] for a
    lenient match result lies in [0, 1]. *)
Theorem to_dict_scores_in_unit (self : Matcher) (rq : Requirement) (top_n : Z)
    (m : CandidateMatch) (k : string) (q : Q) :
  weights_positive (skill_weights self) = true ->
  In m (fst (match_candidates self rq top_n)) ->
  dict_get (to_dict m) k = Some (JNum q) ->
  0 <= q <= 1.
Proof.
  intros HW Hm Hk. destruct (in_match_candidates self rq top_n m Hm) as [c [_ ->]].
  destruct (scored_bounds (skill_weights self) rq c HW) as [H1 [H2 [H3 [H4 H5]]]].
  apply to_dict_num in Hk. change 1 with (inject_Z 1).
  destruct Hk as [<- | [<- | [<- | [<- | [<- | []]]]]]; apply round2_range; assumption.
Qed.

Lemma to_dict_scores_in_unit_witness :
  let self := mkMatcher [Samples.cand_python_docker] initial_skill_weights in
  let m := score_candidate initial_skill_weights Samples.req_python_rag
             Samples.cand_python_docker in
  weights_positive (skill_weights self) = true
  /\ In m (fst (match_candidates self Samples.req_python_rag 10))
  /\ dict_get (to_dict m) "match_score" = Some (JNum (round2 (match_score m)))
  /\ 0 <= round2 (match_score m) <= 1.
Proof.
  intros self m.
  assert (HW : weights_positive (skill_weights self) = true) by reflexivity.
  assert (Hm : In m (fst (match_candidates self Samples.req_python_rag 10)))
    by (left; reflexivity).
  assert (Hk : dict_get (to_dict m) "match_score" = Some (JNum (round2 (match_score m))))
    by reflexivity.
  split; [exact HW|]. split; [exact Hm|]. split; [exact Hk|].
  exact (to_dict_scores_in_unit self Samples.req_python_rag 10 m _ _ HW Hm Hk).
Defined.

Lemma gap_loop_spec reqs cands :
  gap_loop reqs cands
  = (filter (fun r => negb (existsb (fun c => contains r c || contains c r) cands)) reqs,
     filter (fun r => existsb (fun c => contains r c || contains c r) cands) reqs).
Proof.
  induction reqs as [|r rs IH]; [reflexivity|]. cbn [gap_loop filter]. rewrite IH.
  destruct (existsb (fun c => contains r c || contains c r) cands); reflexivity.
Qed.

Lemma filter_split_length {A : Type} (f : A -> bool) (l : list A) :
  (length (filter (fun x => negb (f x)) l) + length (filter f l))%nat = length l.
Proof. induction l as [|x l IH]; [reflexivity|]. simpl. destruct (f x); simpl; lia. Qed.

Lemma contains_space_app a b :
  contains " " (a ++ b)%string = contains " " a || contains " " b.
Proof.
  induction a as [|c a IH]; [reflexivity|].
  cbn [String.append contains prefixb]. rewrite IH, !andb_true_r, orb_assoc. reflexivity.
Qed.

Lemma replace_no_space s : contains " " (replace_char " " "+" s) = false.
Proof.
  induction s as [|c s IH]; [reflexivity|]. cbn [replace_char contains prefixb]. rewrite IH.
  destruct (Ascii.eqb_spec c " "); [reflexivity|].
  rewrite andb_true_r, orb_false_r. apply Ascii.eqb_neq. congruence.
Qed.

Lemma resources_len k l : dict_get resources k = Some l -> length l = 3%nat.
Proof.
  unfold resources. cbn [dict_get].
  repeat (destruct (String.eqb k _); [intros H; injection H as <-; reflexivity|]).
  discriminate.
Qed.

Lemma learning_resources_length skill : length (generate_learning_resources skill) = 3%nat.
Proof.
  unfold generate_learning_resources. rewrite length_firstn.
  destruct (dict_get resources (lower skill)) eqn:E; [|reflexivity].
  cbn [get_or]. rewrite (resources_len _ _ E). reflexivity.
Qed.

(** X8. [analyze_skill_gaps] splits the lowercased required skills into
    matching and missing ones, whose counts add up to the number of required
    skills; coverage lies in [0, 100], is 0 for no required skill and 100 when
    nothing is missing; there is one recommendation per missing skill, in
    order, each with three learning resources. *)
Theorem analyze_skill_gaps_partition (candidate_skills required_skills : list string) :
  let rep := analyze_skill_gaps candidate_skills required_skills in
  let hit := fun r => existsb (fun c => contains r c || contains c r)
                              (map lower candidate_skills) in
  missing_skills rep = filter (fun r => negb (hit r)) (map lower required_skills)
  /\ matching_skills rep = filter hit (map lower required_skills)
  /\ (length (missing_skills rep) + length (matching_skills rep) = length required_skills)%nat
  /\ 0 <= coverage rep <= 100
  /\ (required_skills = [] -> coverage rep == 0)
  /\ (required_skills <> [] -> missing_skills rep = [] -> coverage rep == 100)
  /\ map fst (recommendations rep) = missing_skills rep
  /\ Forall (fun rc => length (snd rc) = 3%nat) (recommendations rep).
Proof.
  intros rep hit.
  set (R := map lower required_skills).
  assert (Hf : missing_skills rep = filter (fun r => negb (hit r)) R
               /\ matching_skills rep = filter hit R
               /\ coverage rep = round2 ((match required_skills with
                    | [] => 0
                    | _ => inject_Z (Z.of_nat (length (filter hit R)))
                           / inject_Z (Z.of_nat (length required_skills)) end) * 100)
               /\ recommendations rep
                  = map (fun s => (s, generate_learning_resources s))
                        (filter (fun r => negb (hit r)) R)).
  { unfold rep, analyze_skill_gaps. rewrite gap_loop_spec. repeat split. }
  destruct Hf as [H1 [H2 [H3 H4]]].
  assert (Hlen : (length (missing_skills rep) + length (matching_skills rep)
                  = length required_skills)%nat).
  { rewrite H1, H2, filter_split_length. unfold R. apply length_map. }
  split; [exact H1|]. split; [exact H2|]. split; [exact Hlen|].
  split; [|split; [|split; [|split]]].
  - rewrite H3. change 100 with (inject_Z 100). apply round2_range.
    destruct required_skills as [|r rs]; [change (inject_Z 100) with 100; lra|].
    set (n := length (r :: rs)).
    assert (Hm : (length (filter hit R) <= n)%nat).
    { unfold n. rewrite <- (length_map lower (r :: rs)). apply filter_length_le. }
    assert (Hn : 0 < inject_Z (Z.of_nat n))
      by (change 0 with (inject_Z 0); rewrite <- Zlt_Qlt; unfold n; simpl length; lia).
    assert (Hq0 : 0 <= inject_Z (Z.of_nat (length (filter hit R))) / inject_Z (Z.of_nat n)).
    { apply Qle_shift_div_l; [exact Hn|]. rewrite Qmult_0_l.
      change 0 with (inject_Z 0). rewrite <- Zle_Qle. lia. }
    assert (Hq1 : inject_Z (Z.of_nat (length (filter hit R))) / inject_Z (Z.of_nat n) <= 1).
    { apply Qle_shift_div_r; [exact Hn|]. rewrite Qmult_1_l. rewrite <- Zle_Qle. lia. }
    change (inject_Z 100) with 100. lra.
  - intros E. rewrite H3. revert H3. rewrite E. intros _. vm_compute. reflexivity.
  - intros Hne Hmis. rewrite H3.
    destruct required_skills as [|r rs]; [congruence|].
    rewrite Hmis in Hlen. cbn [length Nat.add] in Hlen. rewrite H2 in Hlen.
    apply (Qeq_trans _ (round2 100)); [apply round2_comp | vm_compute; reflexivity].
    rewrite Hlen. cbn [length]. set (n := inject_Z (Z.of_nat (S (length rs)))).
    assert (Hn : 0 < n)
      by (unfold n; change 0 with (inject_Z 0); rewrite <- Zlt_Qlt; simpl length; lia).
    field. intro; lra.
  - rewrite H4, H1, map_map. simpl. apply map_id.
  - rewrite H4. apply Forall_forall. intros x Hx. apply in_map_iff in Hx as [s [<- _]].
    apply learning_resources_length.
Qed.

Lemma analyze_skill_gaps_partition_witness :
  ["Python"; "Docker"] <> []
  /\ missing_skills (analyze_skill_gaps ["python 3"; "docker"] ["Python"; "Docker"]) = []
  /\ coverage (analyze_skill_gaps ["python 3"; "docker"] ["Python"; "Docker"]) == 100.
Proof.
  assert (H1 : ["Python"; "Docker"] <> []) by discriminate.
  assert (H2 : missing_skills (analyze_skill_gaps ["python 3"; "docker"] ["Python"; "Docker"])
               = []) by (vm_compute; reflexivity).
  split; [exact H1|]. split; [exact H2|].
  destruct (analyze_skill_gaps_partition ["python 3"; "docker"] ["Python"; "Docker"])
    as [_ [_ [_ [_ [_ [H _]]]]]].
  exact (H H1 H2).
Defined.

(** X9. [_generate_learning_resources] always returns three resources; for a
    skill without a curated entry it returns the three generic search links,
    none of whose URLs contains a space. *)
Theorem learning_resources_shape (skill : string) :
  length (generate_learning_resources skill) = 3%nat
  /\ (dict_get resources (lower skill) = None ->
      generate_learning_resources skill = default_resources skill
      /\ Forall (fun r => contains " " (url r) = false) (generate_learning_resources skill)).
Proof.
  split; [apply learning_resources_length|]. intros E.
  assert (Hd : generate_learning_resources skill = default_resources skill)
    by (unfold generate_learning_resources; rewrite E; reflexivity).
  split; [exact Hd|]. rewrite Hd. unfold default_resources.
  repeat constructor; cbn [url]; rewrite !contains_space_app, replace_no_space; reflexivity.
Qed.

Lemma learning_resources_shape_witness :
  dict_get resources (lower "Apache Spark") = None
  /\ Forall (fun r => contains " " (url r) = false)
       (generate_learning_resources "Apache Spark").
Proof.
  assert (E : dict_get resources (lower "Apache Spark") = None) by reflexivity.
  split; [exact E|].
  exact (proj2 (proj2 (learning_resources_shape "Apache Spark") E)).
Defined.

End ExtraReport.

Module ExtraRanker.
Local Open Scope list_scope.
Import Py AIMatching Ranker MatchReport RankFlow Props SortFacts RankFacts
       ExtraText ExtraLenient ExtraReport.

(** X10. When [rank_candidates] returns a list, it is a permutation of the
    scored input candidates, as long as the input, sorted by overall score in
    descending order, and candidates with equal overall scores keep their
    input order. *)
Theorem rank_candidates_sorted_stable (pf : string -> option Q) (cw : list (string * Q))
    (cands : list dict) (job_description : string) (cul : option string)
    (cc : option (list (string * Q))) (ext : nat -> outcome) (l : list dict) :
  let '(res, w, _) := rank_candidates pf cw cands job_description cul cc ext in
  res = Some l ->
  exists scored,
    fst (score_all pf w cul ext 0 cands) = Some scored
    /\ length scored = length cands
    /\ StronglySorted (desc overall_of) l
    /\ Permutation l scored
    /\ forall q, filter (tie overall_of q) l = filter (tie overall_of q) scored.
Proof.
  unfold rank_candidates.
  set (w := if truthy_list cc then update_weights cw (get_or [] cc) else cw).
  destruct (score_all pf w cul ext 0 cands) as [[scored|] out] eqn:E; cbn; [|discriminate].
  intros H. injection H as <-. exists scored.
  assert (Hs : fst (score_all pf w cul ext 0 cands) = Some scored) by (rewrite E; reflexivity).
  destruct (score_all_some pf w cul ext 0 cands scored Hs) as [Hl _].
  destruct (sort_desc_spec overall_of scored) as [H1 [H2 H3]].
  repeat split; auto.
Qed.

Lemma rank_candidates_sorted_stable_witness :
  let cands := [Samples.named "A"; Samples.named "B"] in
  let res := fst (fst (rank_candidates Samples.no_float default_criteria cands "" None None
                         Samples.ext_ok)) in
  let l := get_or [] res in
  res = Some l /\ StronglySorted (desc overall_of) l.
Proof.
  intros cands res l.
  assert (H : res = Some l) by (vm_compute; reflexivity).
  split; [exact H|].
  pose proof (rank_candidates_sorted_stable Samples.no_float default_criteria cands "" None
                None Samples.ext_ok l) as T.
  unfold res in H.
  destruct (rank_candidates Samples.no_float default_criteria cands "" None None Samples.ext_ok)
    as [[r w] out].
  destruct (T H) as [sc [_ [_ [Hs _]]]]. exact Hs.
Defined.

(** The inner [d[k] = v] of [update_weights]. *)
Lemma set_weight_get (d : list (string * Q)) kv k :
  dict_get ((fix set (d : list (string * Q)) : list (string * Q) :=
              match d with
              | [] => [kv]
              | (k', v') :: d' => if String.eqb (fst kv) k' then (k', snd kv) :: d'
                                  else (k', v') :: set d'
              end) d) k
  = if String.eqb k (fst kv) then Some (snd kv) else dict_get d k.
Proof.
  induction d as [|[k' v'] d IH]; cbn [dict_get].
  - destruct kv; reflexivity.
  - destruct (String.eqb_spec (fst kv) k') as [<-|Hne]; cbn [dict_get].
    + destruct (String.eqb k (fst kv)); reflexivity.
    + rewrite IH. destruct (String.eqb_spec k k') as [->|]; [|reflexivity].
      destruct (String.eqb_spec k' (fst kv)); [congruence | reflexivity].
Qed.

Lemma set_weight_keys (d : list (string * Q)) kv :
  exists t, map fst ((fix set (d : list (string * Q)) : list (string * Q) :=
              match d with
              | [] => [kv]
              | (k', v') :: d' => if String.eqb (fst kv) k' then (k', snd kv) :: d'
                                  else (k', v') :: set d'
              end) d) = map fst d ++ t.
Proof.
  induction d as [|[k' v'] d IH].
  - exists [fst kv]. reflexivity.
  - destruct (String.eqb (fst kv) k').
    + exists []. rewrite app_nil_r. reflexivity.
    + destruct IH as [t Ht]. exists t. cbn [map fst]. rewrite Ht. reflexivity.
Qed.

Lemma dict_get_app {A : Type} (a b : list (string * A)) k :
  dict_get (a ++ b) k = match dict_get a k with Some v => Some v | None => dict_get b k end.
Proof.
  induction a as [|[k' v'] a IH]; [reflexivity|]. cbn [app dict_get].
  destruct (String.eqb k k'); [reflexivity | exact IH].
Qed.

(** X11. After [update_weights], a key's weight is the last custom value given
    for it, or its old weight otherwise; the old keys keep their order and new
    keys are appended after them. *)
Theorem update_weights_lookup (w custom : list (string * Q)) (k : string) :
  dict_get (update_weights w custom) k
  = match dict_get (rev custom) k with Some v => Some v | None => dict_get w k end
  /\ exists t, map fst (update_weights w custom) = map fst w ++ t.
Proof.
  unfold update_weights. revert w. induction custom as [|kv custom IH]; intros w.
  - split; [reflexivity|]. exists []. rewrite app_nil_r. reflexivity.
  - cbn [fold_left rev]. destruct (IH (
      (fix set (d : list (string * Q)) : list (string * Q) :=
         match d with
         | [] => [kv]
         | (k', v') :: d' => if String.eqb (fst kv) k' then (k', snd kv) :: d'
                             else (k', v') :: set d'
         end) w)) as [H1 [t Ht]].
    split.
    + rewrite H1, dict_get_app, set_weight_get. cbn [dict_get].
      destruct (dict_get (rev custom) k); [reflexivity|].
      destruct kv as [k0 v0]. cbn [fst snd].
      destruct (String.eqb k k0); reflexivity.
    + destruct (set_weight_keys w kv) as [t0 Ht0].
      exists (t0 ++ t). rewrite Ht, Ht0, app_assoc. reflexivity.
Qed.

Lemma clamp_range y :
  0 <= (let m := qmax 0 (y / 20) in if Qlt_le_dec m 1 then m else 1) <= 1.
Proof.
  cbv zeta. assert (H0 : 0 <= qmax 0 (y / 20)).
  { unfold qmax. destruct (Qle_bool (y / 20) 0) eqn:E; [apply Qle_refl|].
    apply Qlt_le_weak, Qnot_le_lt. intros H. apply Qle_bool_iff in H. congruence. }
  destruct (Qlt_le_dec (qmax 0 (y / 20)) 1); lra.
Qed.

Lemma experience_score_range pf v q :
  calculate_experience_score pf v = Some q -> 0 <= q <= 1.
Proof.
  unfold calculate_experience_score. destruct (negb (truthy v)).
  + intros H. injection H as <-. lra.
  + destruct v as [|b|r|t|l'|kvs]; try discriminate.
    * destruct (contains "-" t); [|destruct (contains "+" t)];
        [destruct (pf (before_char "-" t)) | destruct (pf (remove_char "+" t)) |];
        cbn [option_map]; intros H; try discriminate; injection H as <-;
        first [apply clamp_range | vm_compute; split; discriminate].
    * destruct (existsb _ l'); [discriminate|]. destruct (existsb _ l'); [discriminate|].
      intros H. injection H as <-. vm_compute. split; discriminate.
    * destruct (existsb _ kvs); [discriminate|]. destruct (existsb _ kvs); [discriminate|].
      intros H. injection H as <-. vm_compute. split; discriminate.
Qed.

Lemma seniority_score_range s : 3#10 <= calculate_seniority_score s <= 1.
Proof.
  unfold calculate_seniority_score, seniority_table. cbn [dict_get].
  repeat match goal with |- context [String.eqb ?a ?b] => destruct (String.eqb a b) end;
  cbn [get_or]; split; discriminate.
Qed.

(** X12. The ranker's experience score lies in [0, 1] when it is defined: it
    is 0.5 for a falsy value, 0 for a nonempty string with neither '-' nor
    '+', and undefined (a raised error) for a nonzero number; the seniority
    score lies in [0.3, 1]. *)
Theorem ranker_experience_seniority_scores (pf : string -> option Q) (v : jval) (q : Q)
    (s : string) :
  (calculate_experience_score pf v = Some q -> 0 <= q <= 1)
  /\ (truthy v = false -> calculate_experience_score pf v = Some (1#2))
  /\ (s <> "" -> contains "-" s = false -> contains "+" s = false ->
      calculate_experience_score pf (JStr s) = Some 0)
  /\ (~ q == 0 -> calculate_experience_score pf (JNum q) = None)
  /\ 3#10 <= calculate_seniority_score s <= 1.
Proof.
  split; [|split; [|split; [|split]]].
  - apply experience_score_range.
  - intros H. unfold calculate_experience_score. rewrite H. reflexivity.
  - intros Hs Hm Hp. unfold calculate_experience_score.
    replace (negb (truthy (JStr s))) with false
      by (cbn; destruct (String.eqb_spec s ""); [contradiction | reflexivity]).
    rewrite Hm, Hp. reflexivity.
  - intros Hq. unfold calculate_experience_score. cbn [truthy].
    replace (Qeq_bool q 0) with false
      by (symmetry; apply not_true_iff_false; rewrite Qeq_bool_iff; exact Hq).
    reflexivity.
  - apply seniority_score_range.
Qed.

Lemma ranker_experience_seniority_scores_witness :
  "5 years" <> "" /\ contains "-" "5 years" = false /\ contains "+" "5 years" = false
  /\ calculate_experience_score Samples.no_float (JStr "5 years") = Some 0.
Proof.
  assert (H1 : "5 years" <> "") by discriminate.
  assert (H2 : contains "-" "5 years" = false) by reflexivity.
  assert (H3 : contains "+" "5 years" = false) by reflexivity.
  split; [exact H1|]. split; [exact H2|]. split; [exact H3|].
  destruct (ranker_experience_seniority_scores Samples.no_float (JStr "5 years") 0 "5 years")
    as [_ [_ [H _]]].
  exact (H H1 H2 H3).
Defined.

Lemma score_one_missing_weight pf w cul o c key :
  In key ["skill_match"; "experience"; "seniority"; "education"; "cultural_fit"] ->
  dict_get w key = None -> fst (score_one pf w cul o c) = None.
Proof.
  intros Hk Hw. unfold score_one.
  destruct (if truthy_str cul then calculate_cultural_fit pf o else (1#2, [])) as [cf out].
  cbn [fst].
  destruct Hk as [<-|[<-|[<-|[<-|[<-|[]]]]]]; rewrite Hw;
  repeat match goal with |- context [match ?x with _ => _ end] => destruct x end;
  reflexivity.
Qed.

(** X13. If custom criteria weights lack one of the five criteria, ranking a
    nonempty candidate list raises instead of returning a list. *)
Theorem missing_criterion_raises (pf : string -> option Q) (cw : list (string * Q))
    (cands : list dict) (job_description : string) (cul : option string)
    (ext : nat -> outcome) (key : string) :
  In key ["skill_match"; "experience"; "seniority"; "education"; "cultural_fit"] ->
  cw <> [] -> dict_get cw key = None -> cands <> [] ->
  fst (fst (rank_candidates pf (init_criteria (Some cw)) cands job_description cul None ext))
  = None.
Proof.
  intros Hk Hcw Hw Hc.
  assert (Hi : init_criteria (Some cw) = cw)
    by (destruct cw; [congruence | reflexivity]).
  rewrite Hi. unfold rank_candidates. cbn [truthy_list].
  destruct (score_all pf cw cul ext 0 cands) as [r out] eqn:E.
  assert (Hr : r = None).
  { change r with (fst (r, out)). rewrite <- E. apply score_all_none.
    destruct cands as [|c cs]; [congruence|]. exists 0%nat, c. split; [reflexivity|].
    apply (score_one_missing_weight pf cw cul _ c key Hk Hw). }
  rewrite Hr. reflexivity.
Qed.

Lemma missing_criterion_raises_witness :
  In "education" ["skill_match"; "experience"; "seniority"; "education"; "cultural_fit"]
  /\ [("skill_match", 1#1)] <> [] /\ dict_get [("skill_match", 1#1)] "education" = None
  /\ [Samples.named "A"] <> []
  /\ fst (fst (rank_candidates Samples.no_float (init_criteria (Some [("skill_match", 1#1)]))
                [Samples.named "A"] "" None None Samples.ext_ok)) = None.
Proof.
  assert (H1 : In "education" ["skill_match"; "experience"; "seniority"; "education";
                              "cultural_fit"]) by (right; right; right; left; reflexivity).
  assert (H2 : [("skill_match", 1#1)] <> []) by discriminate.
  assert (H3 : dict_get [("skill_match", 1#1)] "education" = None) by reflexivity.
  assert (H4 : [Samples.named "A"] <> []) by discriminate.
  split; [exact H1|]. split; [exact H2|]. split; [exact H3|]. split; [exact H4|].
  exact (missing_criterion_raises _ _ _ _ _ _ _ H1 H2 H3 H4).
Defined.


Lemma score_one_asdict pf o m e :
  calculate_experience_score pf (JStr (experience_years m)) = Some e ->
  0 <= match_score m <= 1 ->
  exists d, score_one pf default_criteria (Some "") o (asdict m) = (Some d, [])
    /\ 0 <= overall_of d <= 1 /\ cultural_fit_of d = Some (round2 (1#2)).
Proof.
  intros He Hm. pose proof (experience_score_range pf _ e He) as Hr.
  pose proof (seniority_score_range (lower (seniority m))) as Hs.
  unfold score_one. cbn [truthy_str String.eqb negb].
  cbn -[calculate_experience_score calculate_seniority_score round2 dict_set].
  rewrite He. eexists. split; [reflexivity|].
  unfold overall_of, cultural_fit_of. rewrite !dict_get_set_same. cbn [dict_get String.eqb].
  split; [|reflexivity].
  change 1 with (inject_Z 1). apply round2_range. change (inject_Z 1) with 1. lra.
Qed.

Lemma score_all_quiet pf w cul ext k cs :
  (forall i c, snd (score_one pf w cul (ext i) c) = []) -> snd (score_all pf w cul ext k cs) = [].
Proof.
  intros H. revert k. induction cs as [|c cs IH]; intros k; [reflexivity|]. cbn [score_all].
  pose proof (H k c) as Hk.
  destruct (score_one pf w cul (ext k) c) as [[d|] out] eqn:E; cbn [snd] in Hk; subst out.
  - specialize (IH (S k)).
    destruct (score_all pf w cul ext (S k) cs) as [rest out'] eqn:E2. cbn [snd] in IH |- *.
    rewrite IH. reflexivity.
  - reflexivity.
Qed.

(** X14. In the Streamlit find-and-rank flow, with positive skill weights and
    readable experience labels, ranking the top-10 matches keeps the default
    weights, prints nothing, and returns a sorted list of the same length
    where every overall score lies in [0, 1] and every cultural fit is the
    neutral 0.5. *)
Theorem streamlit_rank_flow (self : Matcher) (rq : Requirement) (pf : string -> option Q)
    (job_desc : string) (ext : nat -> outcome) :
  weights_positive (skill_weights self) = true ->
  (forall m, In m (fst (match_candidates self rq 10)) ->
     calculate_experience_score pf (JStr (experience_years m)) <> None) ->
  let ms := fst (match_candidates self rq 10) in
  let '(res, w, out) := rank_matches pf ms job_desc ext in
  w = default_criteria /\ out = []
  /\ exists l, res = Some l /\ length l = length ms
     /\ StronglySorted (desc overall_of) l
     /\ forall d, In d l -> 0 <= overall_of d <= 1 /\ cultural_fit_of d = Some (round2 (1#2)).
Proof.
  intros HW Hexp ms. unfold rank_matches, rank_candidates. cbn [init_criteria truthy_list].
  set (cs := map asdict ms).
  assert (Hq : forall i c, nth_error cs i = Some c ->
            exists d, score_one pf default_criteria (Some "") (ext i) c = (Some d, [])
              /\ 0 <= overall_of d <= 1 /\ cultural_fit_of d = Some (round2 (1#2))).
  { intros i c Hc. unfold cs in Hc. rewrite nth_error_map in Hc.
    destruct (nth_error ms i) as [m|] eqn:Em; [|discriminate]. injection Hc as <-.
    assert (Hin : In m ms) by (eapply nth_error_In; exact Em).
    destruct (calculate_experience_score pf (JStr (experience_years m))) as [e|] eqn:He;
      [|exfalso; exact (Hexp m Hin He)].
    destruct (in_match_candidates self rq 10 m Hin) as [c0 [_ Ec]].
    destruct (scored_bounds (skill_weights self) rq c0 HW) as [Hb _].
    rewrite <- Ec in Hb. exact (score_one_asdict pf (ext i) m e He Hb). }
  assert (Hquiet : snd (score_all pf default_criteria (Some "") ext 0 cs) = []).
  { apply score_all_quiet. intros i c.
    rewrite (proj1 (score_one_spec pf default_criteria (Some "") (ext i) c)).
    destruct (reaches_cultural_fit pf c); reflexivity. }
  destruct (score_all pf default_criteria (Some "") ext 0 cs) as [r out] eqn:E.
  cbn [snd] in Hquiet. subst out.
  destruct r as [scored|].
  2:{ exfalso.
      assert (Hn : fst (score_all pf default_criteria (Some "") ext 0 cs) = None)
        by (rewrite E; reflexivity).
      apply score_all_none in Hn as [i [c [Hc Hs]]].
      destruct (Hq i c Hc) as [d [Hd _]]. rewrite Nat.add_0_l, Hd in Hs. discriminate. }
  assert (Hs : fst (score_all pf default_criteria (Some "") ext 0 cs) = Some scored)
    by (rewrite E; reflexivity).
  destruct (score_all_some pf default_criteria (Some "") ext 0 cs scored Hs) as [Hl Hn].
  destruct (sort_desc_spec overall_of scored) as [H1 [H2 _]].
  cbn [option_map]. split; [reflexivity|]. split; [reflexivity|].
  exists (StableSort.sort_desc overall_of scored). split; [reflexivity|].
  split; [rewrite (Permutation_length H2), Hl; apply length_map|].
  split; [exact H1|].
  intros d Hd. apply (Permutation_in _ H2) in Hd.
  apply In_nth_error in Hd as [i Hi].
  assert (Hlt : (i < length cs)%nat) by (rewrite <- Hl; apply nth_error_Some; congruence).
  destruct (nth_error cs i) as [c|] eqn:Ec; [|apply nth_error_None in Ec; lia].
  destruct (Hn i c Ec) as [d' [Hd' Hs']]. rewrite Hi in Hd'. injection Hd' as <-.
  destruct (Hq i c Ec) as [d2 [Hd2 Hb]]. rewrite Nat.add_0_l, Hd2 in Hs'.
  injection Hs' as <-. exact Hb.
Qed.

Lemma streamlit_rank_flow_witness :
  let self := mkMatcher [Samples.cand_python_docker] initial_skill_weights in
  weights_positive (skill_weights self) = true
  /\ (forall m, In m (fst (match_candidates self Samples.req_python_rag 10)) ->
        calculate_experience_score Samples.no_float (JStr (experience_years m)) <> None)
  /\ snd (rank_matches Samples.no_float (fst (match_candidates self Samples.req_python_rag 10))
            "" Samples.ext_ok) = [].
Proof.
  intros self.
  assert (HW : weights_positive (skill_weights self) = true) by reflexivity.
  assert (He : forall m, In m (fst (match_candidates self Samples.req_python_rag 10)) ->
        calculate_experience_score Samples.no_float (JStr (experience_years m)) <> None).
  { intros m Hm. vm_compute in Hm. destruct Hm as [<- | []]. vm_compute. discriminate. }
  split; [exact HW|]. split; [exact He|].
  pose proof (streamlit_rank_flow self Samples.req_python_rag Samples.no_float "" Samples.ext_ok
                HW He) as T.
  cbv zeta in T.
  destruct (rank_matches Samples.no_float (fst (match_candidates self Samples.req_python_rag 10))
              "" Samples.ext_ok) as [[res w] out].
  destruct T as [_ [Hout _]]. exact Hout.
Defined.

End ExtraRanker.

Module ExtraStrict.
Local Open Scope list_scope.
Import Py AIMatching Props SortFacts StrictMatching.

Lemma filter_all_id {A : Type} (p : A -> bool) (l : list A) :
  (forall x, In x l -> p x = true) -> filter p l = l.
Proof.
  induction l as [|y l IH]; simpl; intros H; [reflexivity|].
  rewrite H by (left; reflexivity). rewrite IH by (intros; apply H; right; assumption).
  reflexivity.
Qed.

Lemma ratio_filter_bounds {A : Type} (p : A -> bool) (l : list A) :
  l <> [] -> 0 <= ratio (filter p l) l <= 1.
Proof.
  intros Hl. unfold ratio.
  assert (Hn : 0 < inject_Z (Z.of_nat (length l))).
  { change 0 with (inject_Z 0). rewrite <- Zlt_Qlt. destruct l; [congruence|]. simpl; lia. }
  pose proof (filter_length_le p l) as Hle.
  split.
  - apply Qle_shift_div_l; [exact Hn|]. rewrite Qmult_0_l.
    change 0 with (inject_Z 0). rewrite <- Zle_Qle. lia.
  - apply Qle_shift_div_r; [exact Hn|]. rewrite Qmult_1_l. rewrite <- Zle_Qle. lia.
Qed.

Lemma ratio_self {A : Type} (l : list A) : l <> [] -> ratio l l == 1.
Proof.
  intros Hl. unfold ratio.
  assert (Hn : 0 < inject_Z (Z.of_nat (length l))).
  { change 0 with (inject_Z 0). rewrite <- Zlt_Qlt. destruct l; [congruence|]. simpl; lia. }
  field. intro; lra.
Qed.

Lemma filter_negb_nil {A : Type} (p : A -> bool) (l : list A) :
  filter (fun x => negb (p x)) l = [] <-> forallb p l = true.
Proof.
  induction l as [|y l IH]; simpl; [tauto|].
  destruct (p y); simpl; [exact IH|]. split; discriminate.
Qed.

Lemma bonus_eq (a m : bool) : negb a || m = true -> a && m = a.
Proof. destruct a, m; auto. Qed.

Section Strict.
Variable gap : list string -> list string -> list (string * string).
Variable questions : StrictMatching.Candidate -> list string -> list string.

Lemma strict_scored_facts R P sen loc emp exp c sc :
  score_candidate gap questions R P sen loc emp exp c = Some sc ->
  let cands := map lower (get_or [] (c_skills c)) in
  candidate sc = c
  /\ passes_filters sen loc emp exp c = true
  /\ skill_matches sc = map lower R ++ filter (fun s => mem s cands) (map lower P)
  /\ score sc ==
     (match map lower R with [] => 0 | _ => 50 end)
     + (match map lower P with [] => 0
        | _ => 30 * ratio (filter (fun s => mem s cands) (map lower P)) (map lower P) end)
     + (if truthy_str sen then 10 else 0) + (if truthy_str exp then 10 else 0)
  /\ 0 <= score sc <= 100
  /\ (R <> [] -> 50 <= score sc)
  /\ skill_gap_analysis sc
     = StrictMatching.generate_skill_gap_analysis gap cands (map lower R ++ map lower P).
Proof.
  intros H cands. unfold score_candidate in H. fold cands in H.
  destruct (passes_filters sen loc emp exp c) eqn:Hp; cbn [negb] in H; [|discriminate].
  destruct (filter (fun s => negb (mem s cands)) (map lower R)) eqn:Emiss; [|discriminate].
  injection H as <-. cbn [candidate skill_matches score skill_gap_analysis].
  assert (HR : filter (fun s => mem s cands) (map lower R) = map lower R).
  { apply filter_all_id. intros x Hx. apply negb_false_iff.
    exact (StrictClaims.filter_nil_all _ _ Emiss x Hx). }
  rewrite HR.
  apply andb_true_iff in Hp as [Hp HD]. apply andb_true_iff in Hp as [Hp _].
  apply andb_true_iff in Hp as [HA _].
  rewrite (bonus_eq _ _ HA), (bonus_eq _ _ HD).
  set (s1 := match map lower R with [] => 0 | _ => 50 * ratio (map lower R) (map lower R) end).
  set (s2 := match map lower P with [] => 0
             | _ => 30 * ratio (filter (fun s => mem s cands) (map lower P)) (map lower P) end).
  set (s3 := if truthy_str sen then 10 else 0).
  set (s4 := if truthy_str exp then 10 else 0).
  assert (E1 : s1 == match map lower R with [] => 0 | _ => 50 end).
  { unfold s1. destruct (map lower R) as [|x l] eqn:ER; [reflexivity|].
    rewrite <- ER. rewrite ratio_self by (rewrite ER; discriminate). ring. }
  assert (B2 : 0 <= s2 <= 30).
  { unfold s2. destruct (map lower P) as [|x l] eqn:EP; [lra|]. rewrite <- EP.
    pose proof (ratio_filter_bounds (fun s => mem s cands) (map lower P)) as Hb.
    rewrite EP in Hb at 1. specialize (Hb ltac:(discriminate)). lra. }
  assert (B3 : s3 == 0 \/ s3 == 10) by (unfold s3; destruct (truthy_str sen); [right|left]; reflexivity).
  assert (B4 : s4 == 0 \/ s4 == 10) by (unfold s4; destruct (truthy_str exp); [right|left]; reflexivity).
  assert (B1 : s1 == 0 \/ s1 == 50).
  { rewrite E1. destruct (map lower R); [left|right]; reflexivity. }
  assert (Hsc : (if Qle_bool 100 (s1 + s2 + s3 + s4) then 100 else s1 + s2 + s3 + s4)
                == s1 + s2 + s3 + s4).
  { destruct (Qle_bool 100 (s1 + s2 + s3 + s4)) eqn:Eq; [|reflexivity].
    apply Qle_bool_iff in Eq. destruct B1, B3, B4; lra. }
  split; [reflexivity|]. split; [reflexivity|].
  split; [reflexivity|].
  split; [|split; [|split; [|reflexivity]]].
  - rewrite Hsc. fold s2 s3 s4. rewrite E1. reflexivity.
  - rewrite Hsc. destruct B1, B3, B4; lra.
  - intros HRn. rewrite Hsc.
    assert (s1 == 50) by (rewrite E1; destruct R; [congruence | reflexivity]).
    destruct B3, B4; lra.
Qed.

(** X15. Every result of the strict [match_candidates] comes from the dataset
    and satisfies each supplied filter: equal seniority, the requested
    location among its locations (ignoring case), the same employment type
    (ignoring case), and equal experience label. *)
Theorem strict_results_pass_filters ds R P sen loc emp exp top_n sc :
  In sc (match_candidates gap questions ds R P sen loc emp exp top_n) ->
  In (candidate sc) ds
  /\ (truthy_str sen = true -> c_seniority (candidate sc) = sen)
  /\ (truthy_str loc = true ->
      In (lower (get_or "" loc)) (map lower (get_or [] (c_location (candidate sc)))))
  /\ (truthy_str emp = true ->
      lower (get_or "" (c_employment_type (candidate sc))) = lower (get_or "" emp))
  /\ (truthy_str exp = true -> c_experience_years (candidate sc) = exp).
Proof.
  intros Hin. apply StrictClaims.match_candidates_from in Hin as [c [Hc Hs]].
  destruct (strict_scored_facts _ _ _ _ _ _ _ _ Hs) as [-> [Hp _]].
  unfold passes_filters in Hp.
  apply andb_true_iff in Hp as [Hp HD]. apply andb_true_iff in Hp as [Hp HC].
  apply andb_true_iff in Hp as [HA HB].
  split; [exact Hc|].
  split; [|split; [|split]]; intros Ht.
  - rewrite Ht in HA. cbn [negb orb] in HA.
    destruct (c_seniority c), sen; try discriminate.
    apply String.eqb_eq in HA. congruence.
  - rewrite Ht in HB. cbn [negb orb] in HB.
    apply existsb_exists in HB as [x [Hx Heq]]. apply String.eqb_eq in Heq. congruence.
  - rewrite Ht in HC. cbn [negb orb] in HC. apply String.eqb_eq in HC. congruence.
  - rewrite Ht in HD. cbn [negb orb] in HD.
    destruct (c_experience_years c), exp; try discriminate.
    apply String.eqb_eq in HD. congruence.
Qed.

(** X16. In the strict engine a result's score is 50 when required skills are
    given (0 otherwise), plus 30 times the fraction of preferred skills the
    candidate has, plus 10 for each supplied seniority or experience filter;
    it lies in [0, 100], the cap of 100 never applies, it is at least 50 when
    required skills are given, and the matched skills are all required skills
    followed by the matched preferred ones. *)
Theorem strict_score_breakdown ds R P sen loc emp exp top_n sc :
  In sc (match_candidates gap questions ds R P sen loc emp exp top_n) ->
  let cands := map lower (get_or [] (c_skills (candidate sc))) in
  let pref := map lower (get_or [] P) in
  score sc ==
    (match map lower R with [] => 0 | _ => 50 end)
    + (match pref with [] => 0
       | _ => 30 * ratio (filter (fun s => mem s cands) pref) pref end)
    + (if truthy_str sen then 10 else 0) + (if truthy_str exp then 10 else 0)
  /\ 0 <= score sc <= 100
  /\ (R <> [] -> 50 <= score sc)
  /\ skill_matches sc = map lower R ++ filter (fun s => mem s cands) pref.
Proof.
  intros Hin. apply StrictClaims.match_candidates_from in Hin as [c [Hc Hs]].
  destruct (strict_scored_facts _ _ _ _ _ _ _ _ Hs) as [Hcand [_ [Hm [Hf [Hb [H50 _]]]]]].
  intros cands pref. subst cands pref. rewrite Hcand.
  split; [exact Hf|]. split; [exact Hb|]. split; [exact H50|exact Hm].
Qed.

(** X17. A strict result's skill-gap analysis is the status entry 'All
    required skills met' when the candidate has every preferred skill, and the
    service's analysis of all required and preferred skills otherwise. *)
Theorem strict_gap_analysis_status ds R P sen loc emp exp top_n sc :
  In sc (match_candidates gap questions ds R P sen loc emp exp top_n) ->
  let cands := map lower (get_or [] (c_skills (candidate sc))) in
  let pref := map lower (get_or [] P) in
  skill_gap_analysis sc
  = if forallb (fun s => mem s cands) pref
    then [("status", "All required skills met")]
    else gap cands (map lower R ++ pref).
Proof.
  intros Hin. apply StrictClaims.match_candidates_from in Hin as [c [Hc Hs]].
  pose proof Hs as Hs'.
  apply StrictClaims.score_candidate_some in Hs' as [_ [_ [_ Hr]]].
  destruct (strict_scored_facts _ _ _ _ _ _ _ _ Hs) as [Hcand [_ [_ [_ [_ [_ Hg]]]]]].
  intros cands pref. subst cands pref. rewrite Hg, Hcand.
  unfold StrictMatching.generate_skill_gap_analysis.
  rewrite filter_app.
  rewrite (proj2 (filter_negb_nil (fun s => mem s (map lower (get_or [] (c_skills c))))
                    (map lower R))) by
    (apply forallb_forall; intros x Hx; apply in_map_iff in Hx as [r [<- Hr']]; exact (Hr r Hr')).
  cbn [app].
  destruct (forallb (fun s => mem s (map lower (get_or [] (c_skills c)))) (map lower (get_or [] P)))
    eqn:Ef.
  - rewrite (proj2 (filter_negb_nil _ _) Ef). reflexivity.
  - destruct (filter (fun s => negb (mem s (map lower (get_or [] (c_skills c)))))
                (map lower (get_or [] P))) eqn:Ep; [|reflexivity].
    apply filter_negb_nil in Ep. congruence.
Qed.

End Strict.

Import Samples.

Lemma strict_results_pass_filters_witness :
  exists sc, In sc (match_candidates (fun _ _ => []) (fun _ _ => [])
                      [cand_senior_python_rag; cand_python_docker] ["python"] None
                      (Some "senior") None None None 10)
             /\ c_seniority (candidate sc) = Some "senior".
Proof.
  destruct (match_candidates (fun _ _ => []) (fun _ _ => [])
              [cand_senior_python_rag; cand_python_docker] ["python"] None
              (Some "senior") None None None 10) as [|sc rest] eqn:E;
    [vm_compute in E; discriminate|].
  assert (Hin : In sc (match_candidates (fun _ _ => []) (fun _ _ => [])
                         [cand_senior_python_rag; cand_python_docker] ["python"] None
                         (Some "senior") None None None 10)) by (rewrite E; left; reflexivity).
  exists sc. split; [left; reflexivity|].
  destruct (strict_results_pass_filters (fun _ _ => []) (fun _ _ => [])
              [cand_senior_python_rag; cand_python_docker] ["python"] None
              (Some "senior") None None None 10 sc Hin) as [_ [Hs _]].
  apply Hs. reflexivity.
Defined.

Lemma strict_score_breakdown_witness :
  exists sc, In sc (match_candidates (fun _ _ => []) (fun _ _ => [])
                      [cand_senior_python_rag; cand_senior_python_docker] ["python"]
                      (Some ["rag"; "aws"]) (Some "senior") None None None 10)
             /\ score sc == 75 /\ skill_matches sc = ["python"; "rag"].
Proof.
  destruct (match_candidates (fun _ _ => []) (fun _ _ => [])
              [cand_senior_python_rag; cand_senior_python_docker] ["python"]
              (Some ["rag"; "aws"]) (Some "senior") None None None 10) as [|sc rest] eqn:E;
    [vm_compute in E; discriminate|].
  assert (Hin : In sc (match_candidates (fun _ _ => []) (fun _ _ => [])
                         [cand_senior_python_rag; cand_senior_python_docker] ["python"]
                         (Some ["rag"; "aws"]) (Some "senior") None None None 10))
    by (rewrite E; left; reflexivity).
  exists sc. split; [left; reflexivity|].
  destruct (strict_score_breakdown (fun _ _ => []) (fun _ _ => [])
              [cand_senior_python_rag; cand_senior_python_docker] ["python"]
              (Some ["rag"; "aws"]) (Some "senior") None None None 10 sc Hin)
    as [Hf [_ [_ Hm]]].
  vm_compute in E. injection E as <- _.
  split.
  - rewrite Hf. vm_compute. reflexivity.
  - rewrite Hm. reflexivity.
Defined.

Lemma strict_gap_analysis_status_witness :
  exists sc, In sc (match_candidates (fun _ _ => [("aws", "not listed")]) (fun _ _ => [])
                      [cand_senior_python_rag] ["python"] (Some ["RAG"; "aws"])
                      None None None None 10)
             /\ skill_gap_analysis sc = [("aws", "not listed")].
Proof.
  destruct (match_candidates (fun _ _ => [("aws", "not listed")]) (fun _ _ => [])
              [cand_senior_python_rag] ["python"] (Some ["RAG"; "aws"])
              None None None None 10) as [|sc rest] eqn:E;
    [vm_compute in E; discriminate|].
  assert (Hin : In sc (match_candidates (fun _ _ => [("aws", "not listed")]) (fun _ _ => [])
                         [cand_senior_python_rag] ["python"] (Some ["RAG"; "aws"])
                         None None None None 10)) by (rewrite E; left; reflexivity).
  exists sc. split; [left; reflexivity|].
  rewrite (strict_gap_analysis_status (fun _ _ => [("aws", "not listed")]) (fun _ _ => [])
             [cand_senior_python_rag] ["python"] (Some ["RAG"; "aws"])
             None None None None 10 sc Hin).
  vm_compute in E. injection E as <- _. reflexivity.
Defined.

End ExtraStrict.

Module ExtraBackground.
Local Open Scope list_scope.
Import Py Ranker StrictHelpers Background.

(** X18. [generate_pre_screening_report] never returns a report: for all
    inputs it ends in a NameError on [datetime], after printing at most two
    lines from its helpers followed by one error line of its own. *)
Theorem pre_screening_report_name_error profile jd q_resp emp_resp report_resp :
  let '(r, out) := generate_pre_screening_report profile jd q_resp emp_resp report_resp in
  r = Exc "NameError" datetime_error
  /\ exists pre msg, out = pre ++ [("Error generating pre-screening report: " ++ msg)%string]
  /\ (length pre <= 2)%nat.
Proof.
  unfold generate_pre_screening_report, generate_interview_questions.
  destruct (match dict_get profile "employment_history" with
            | Some _ => verify_employment_history emp_resp
            | None => (JObj [], [])
            end) as [ev out2] eqn:Ee.
  assert (H2 : (length out2 <= 1)%nat).
  { destruct (dict_get profile "employment_history"); injection Ee as _ <-; simpl; lia. }
  cbn beta iota.
  split; [reflexivity|]. eexists (_ ++ out2), _.
  split; [rewrite <- app_assoc; reflexivity | rewrite length_app; simpl; lia].
Qed.

End ExtraBackground.

Module ExtraCandidateReport.
Local Open Scope list_scope.
Import Py AIMatching StrictMatching Background StrictReport ExtraText.

Lemma prefixb_app_l (a x y : string) : prefixb a x = true -> prefixb a (x ++ y)%string = true.
Proof.
  revert x. induction a as [|c a IH]; intros x H; [reflexivity|].
  destruct x as [|d x]; [discriminate|]. cbn in *.
  apply andb_true_iff in H as [H1 H2]. rewrite H1, (IH _ H2). reflexivity.
Qed.

Lemma prefixb_split (a s : string) : prefixb a s = true -> exists z, s = (a ++ z)%string.
Proof.
  revert s. induction a as [|c a IH]; intros s H; [exists s; reflexivity|].
  destruct s as [|d s]; [discriminate|]. cbn in H.
  apply andb_true_iff in H as [H1 H2]. apply Ascii.eqb_eq in H1 as ->.
  destruct (IH _ H2) as [z ->]. exists z. reflexivity.
Qed.

Lemma contains_of_prefix (a s : string) : prefixb a s = true -> contains a s = true.
Proof. intros H. destruct s; cbn; rewrite H; reflexivity. Qed.

Lemma contains_app_r (a x y : string) : contains a y = true -> contains a (x ++ y)%string = true.
Proof.
  induction x as [|c x IH]; intros H; [exact H|].
  cbn [append contains]. rewrite IH by exact H. apply orb_true_r.
Qed.

Lemma contains_app_l (a x y : string) : contains a x = true -> contains a (x ++ y)%string = true.
Proof.
  induction x as [|c x IH]; intros H.
  - destruct a; [destruct y; reflexivity|]. cbn in H. discriminate.
  - cbn [append contains] in *. apply orb_true_iff in H as [H|H].
    + pose proof (prefixb_app_l _ _ y H) as H'. cbn [append] in H'. rewrite H'. reflexivity.
    + rewrite (IH H). apply orb_true_r.
Qed.

Lemma recommendation_from_40 (s : Q) : 40 <= s -> recommendation s <> recommendation 0.
Proof.
  intros H. apply Qle_bool_iff in H. unfold recommendation. rewrite H.
  destruct (Qle_bool 80 s); [discriminate|]. destruct (Qle_bool 60 s); discriminate.
Qed.

(** X22. For a strict result with required skills and a name, the candidate
    report is the filled template followed by the recommendation; it states
    'Missing Skills: None' and never gives the 'Not Recommended' tier. *)
Theorem strict_report_recommends gap questions fmt ds R P sen loc emp exp top_n sc
    job_title job_description name :
  In sc (match_candidates gap questions ds R P sen loc emp exp top_n) ->
  R <> [] ->
  c_name (candidate sc) = Some name ->
  exists body,
    generate_candidate_report fmt sc job_title job_description
      = Ok (body ++ recommendation (score sc))%string
    /\ prefixb (report_header fmt job_title name sc) body = true
    /\ contains "**Missing Skills:** None" body = true
    /\ recommendation (score sc) <> recommendation 0.
Proof.
  intros Hin HR Hn.
  apply StrictClaims.match_candidates_from in Hin as [c [_ Hs]].
  pose proof Hs as Hs'.
  apply StrictClaims.score_candidate_some in Hs' as [_ [Hmiss _]].
  destruct (ExtraStrict.strict_scored_facts _ _ _ _ _ _ _ _ _ _ Hs)
    as [_ [_ [_ [_ [_ [H50 _]]]]]].
  assert (Hh : contains "**Missing Skills:** None" (report_header fmt job_title name sc) = true).
  { unfold report_header. rewrite Hmiss.
    repeat (first [apply contains_of_prefix; reflexivity | apply contains_app_r]). }
  assert (Hr : forall x, prefixb x x = true)
    by (induction x; cbn; [reflexivity|]; rewrite Ascii.eqb_refl; assumption).
  unfold generate_candidate_report. rewrite Hn. cbv beta iota zeta.
  set (h := report_header fmt job_title name sc) in *.
  set (r2 := match skill_gap_analysis sc with
             | [] => h
             | _ :: _ => (h ++ nl ++ "### Detailed Skill Gap Analysis" ++ nl
                 ++ String.concat "" (map (fun '(skill, analysis) =>
                      "- **" ++ skill ++ ":** " ++ analysis ++ nl) (skill_gap_analysis sc)))%string
             end).
  assert (Hp2 : prefixb h r2 = true).
  { unfold r2. destruct (skill_gap_analysis sc); [apply Hr|apply prefixb_app_l, Hr]. }
  set (r3 := match interview_questions sc with
             | [] => r2
             | _ :: _ => (r2 ++ nl ++ "## Recommended Interview Questions" ++ nl
                          ++ numbered 1 (interview_questions sc))%string
             end).
  assert (Hp3 : prefixb h r3 = true).
  { unfold r3. destruct (interview_questions sc); [exact Hp2|]. apply prefixb_app_l, Hp2. }
  exists (r3 ++ nl ++ "## Overall Recommendation" ++ nl)%string.
  split; [|split; [|split]].
  - unfold r3, r2. destruct (interview_questions sc), (skill_gap_analysis sc);
      rewrite !sapp_assoc; reflexivity.
  - apply prefixb_app_l, Hp3.
  - apply contains_app_l. destruct (prefixb_split _ _ Hp3) as [z ->]. apply contains_app_l, Hh.
  - apply recommendation_from_40. destruct (Qlt_le_dec (score sc) 40) as [Hl|Hl]; [|exact Hl].
    specialize (H50 HR). lra.
Qed.

Lemma strict_report_recommends_witness :
  exists sc body,
    In sc (match_candidates (fun _ _ => []) (fun _ _ => []) [Samples.cand_senior_python_rag]
             ["python"] None None None None None 10)
    /\ generate_candidate_report (fun _ => "60.0") sc "ML Engineer" "Builds RAG systems"
       = Ok (body ++ recommendation (score sc))%string
    /\ contains "**Missing Skills:** None" body = true.
Proof.
  destruct (match_candidates (fun _ _ => []) (fun _ _ => []) [Samples.cand_senior_python_rag]
              ["python"] None None None None None 10) as [|sc rest] eqn:E;
    [vm_compute in E; discriminate|].
  assert (Hin : In sc (match_candidates (fun _ _ => []) (fun _ _ => [])
                         [Samples.cand_senior_python_rag] ["python"] None None None None None 10))
    by (rewrite E; left; reflexivity).
  assert (Hn : c_name (candidate sc) = Some "C") by (vm_compute in E; injection E as <- _; reflexivity).
  destruct (strict_report_recommends (fun _ _ => []) (fun _ _ => []) (fun _ => "60.0")
              [Samples.cand_senior_python_rag] ["python"] None None None None None 10 sc
              "ML Engineer" "Builds RAG systems" "C" Hin ltac:(discriminate) Hn)
    as [body [Hr [_ [Hc _]]]].
  exists sc, body. split; [left; reflexivity|]. split; [exact Hr|exact Hc].
Defined.

End ExtraCandidateReport.

Module ExtraSearch.
Local Open Scope list_scope.
Import Py AIMatching Background GroqSearch.

Lemma negative_loop_ok ql ps acc ex :
  negative_loop ql ps acc = Ok ex -> incl acc known_skills -> incl ex known_skills.
Proof.
  revert acc. induction ps as [|p ps IH]; intros acc H Hacc; cbn [negative_loop] in H.
  - injection H as <-. exact Hacc.
  - destruct (contains p ql); [|exact (IH _ H Hacc)].
    destruct (after_sub p ql) as [a|]; [|exact (IH _ H Hacc)].
    destruct (split a) as [|w ws]; [discriminate|].
    apply (IH _ H). apply incl_app; [exact Hacc|]. intros x Hx.
    apply filter_In in Hx. apply Hx.
Qed.

Lemma negative_loop_exc ql ps acc k m :
  negative_loop ql ps acc = Exc k m ->
  k = "IndexError" /\ m = "list index out of range"
  /\ exists p a, In p ps /\ contains p ql = true /\ after_sub p ql = Some a /\ split a = [].
Proof.
  revert acc. induction ps as [|p ps IH]; intros acc H; cbn [negative_loop] in H;
    [discriminate|].
  destruct (contains p ql) eqn:Ec;
    [|destruct (IH _ H) as [Hk [Hm [p' [a [Hp Ha]]]]]; split; [exact Hk|split; [exact Hm|]];
      exists p', a; split; [right; exact Hp|exact Ha]].
  destruct (after_sub p ql) as [a|] eqn:Ea;
    [|destruct (IH _ H) as [Hk [Hm [p' [a [Hp Ha]]]]]; split; [exact Hk|split; [exact Hm|]];
      exists p', a; split; [right; exact Hp|exact Ha]].
  destruct (split a) as [|w ws] eqn:Es.
  - injection H as <- <-. split; [reflexivity|split; [reflexivity|]].
    exists p, a. split; [left; reflexivity|auto].
  - destruct (IH _ H) as [Hk [Hm [p' [a' [Hp Ha]]]]]. split; [exact Hk|split; [exact Hm|]].
    exists p', a'. split; [right; exact Hp|exact Ha].
Qed.

(** X23. In the parsed search terms every positive skill is a known skill that
    occurs in the lowercased query and overlaps no excluded skill, and every
    excluded skill is known; parsing fails only with an IndexError, when a
    negation phrase is followed by nothing but spaces. *)
Theorem extract_search_terms_consistent query :
  (forall t, extract_search_terms query = Ok t ->
     incl (t_exclude_skills t) known_skills
     /\ forall s, In s (t_skills t) ->
          In s known_skills /\ contains s (lower query) = true
          /\ forall n, In n (t_exclude_skills t) -> contains n s = false /\ contains s n = false)
  /\ (forall k m, extract_search_terms query = Exc k m ->
      k = "IndexError" /\ m = "list index out of range"
      /\ exists phrase after, In phrase negative_phrases
         /\ contains phrase (lower query) = true
         /\ after_sub phrase (lower query) = Some after /\ split after = []).
Proof.
  unfold extract_search_terms.
  destruct (negative_loop (lower query) negative_phrases []) as [ex|k m] eqn:E.
  - split; [|intros k m H; discriminate H]. intros t H.
    apply (f_equal (fun r => match r with Ok v => v | Exc _ _ => t end)) in H.
    cbv beta iota in H. subst t. cbn [t_exclude_skills t_skills].
    split; [exact (negative_loop_ok _ _ _ _ E (fun x (Hx : In x []) => match Hx with end))|].
    intros s Hs. apply filter_In in Hs as [Hk Hs].
    apply andb_true_iff in Hs as [Hc Hn].
    split; [exact Hk|]. split; [exact Hc|].
    intros n Hn'. apply negb_true_iff in Hn.
    destruct (contains n s) eqn:E1.
    + assert (Hx : existsb (fun neg_skill => contains neg_skill s || contains s neg_skill) ex = true)
        by (apply existsb_exists; exists n; rewrite E1; auto).
      rewrite Hx in Hn. discriminate Hn.
    + destruct (contains s n) eqn:E2; [|auto].
      assert (Hx : existsb (fun neg_skill => contains neg_skill s || contains s neg_skill) ex = true)
        by (apply existsb_exists; exists n; rewrite E2, orb_true_r; auto).
      rewrite Hx in Hn. discriminate Hn.
  - split; [intros t H; discriminate H|]. intros k' m' H. injection H as <- <-.
    exact (negative_loop_exc _ _ _ _ _ E).
Qed.

Lemma known_nonempty v : In v known_skills -> v <> "".
Proof. cbn. intros H; repeat destruct H as [<-|H]; try discriminate; contradiction. Qed.

Lemma locations_nonempty v : In v locations -> v <> "".
Proof. cbn. intros H; repeat destruct H as [<-|H]; try discriminate; contradiction. Qed.

Lemma contains_empty v : contains v "" = true -> v = "".
Proof. destruct v; [reflexivity|]. cbn. discriminate. Qed.

Lemma extract_ok_nonempty query t :
  extract_search_terms query = Ok t ->
  (forall v, In v (t_skills t) -> v <> "") /\ (forall v, In v (t_location t) -> v <> "").
Proof.
  unfold extract_search_terms.
  destruct (negative_loop (lower query) negative_phrases []) as [ex|k m];
    intros H; [|discriminate H].
  apply (f_equal (fun r => match r with Ok v => v | Exc _ _ => t end)) in H.
  cbv beta iota in H. subst t. cbn [t_skills t_location]. split.
  - intros v Hv. apply filter_In in Hv. apply known_nonempty, Hv.
  - intros v Hv. apply filter_In in Hv. apply locations_nonempty, Hv.
Qed.

Lemma opt_list_match o values :
  (forall v, In v values -> v <> "") ->
  field_matches (opt_list o) values = true ->
  exists v, In v values /\ In v (map lower (get_or [] o)).
Proof.
  intros Hne H. destruct o as [l|]; cbn in H.
  - apply existsb_exists in H as [v [Hv H]]. apply existsb_exists in H as [w [Hw Hvw]].
    apply String.eqb_eq in Hvw. subst w. exists v. auto.
  - apply existsb_exists in H as [v [Hv H]]. apply contains_empty in H.
    exfalso. exact (Hne v Hv H).
Qed.

Lemma opt_str_match o values :
  field_matches (opt_str o) values = true ->
  exists v, In v values /\ contains v (lower (get_or "" o)) = true.
Proof. intros H. apply existsb_exists in H. exact H. Qed.

Lemma field_clause values cv :
  match values with [] => true | _ => field_matches cv values end = true ->
  values <> [] -> field_matches cv values = true.
Proof. destruct values; [intros _ H; congruence|auto]. Qed.

(** X24. With terms parsed from a query, the keyword search returns nothing
    when no positive term was found; every returned candidate is from the
    dataset, has no skill overlapping an excluded skill, and matches at least
    one value of each nonempty positive field. *)
Theorem keyword_search_results query ds t :
  extract_search_terms query = Ok t ->
  let out := GroqSearch.match_candidates ds t in
  (t_skills t = [] -> t_seniority t = [] -> t_location t = [] ->
   t_employment_type t = [] -> t_experience_years t = [] -> out = [])
  /\ forall c, In c out ->
     In c ds
     /\ (forall x s, In x (t_exclude_skills t) -> In s (map lower (get_or [] (c_skills c))) ->
         contains x s = false /\ contains s x = false)
     /\ (t_skills t <> [] ->
         exists v, In v (t_skills t) /\ In v (map lower (get_or [] (c_skills c))))
     /\ (t_seniority t <> [] ->
         exists v, In v (t_seniority t) /\ contains v (lower (get_or "" (c_seniority c))) = true)
     /\ (t_location t <> [] ->
         exists v, In v (t_location t) /\ In v (map lower (get_or [] (c_location c))))
     /\ (t_employment_type t <> [] ->
         exists v, In v (t_employment_type t)
                   /\ contains v (lower (get_or "" (c_employment_type c))) = true)
     /\ (t_experience_years t <> [] ->
         exists v, In v (t_experience_years t)
                   /\ contains v (lower (get_or "" (c_experience_years c))) = true).
Proof.
  intros Hex out. destruct (extract_ok_nonempty _ _ Hex) as [Hsk Hloc].
  unfold out, GroqSearch.match_candidates. split.
  - intros H1 H2 H3 H4 H5. rewrite H1, H2, H3, H4, H5. reflexivity.
  - intros c Hc.
    destruct (negb _); [contradiction|].
    apply filter_In in Hc as [Hc Hm]. split; [exact Hc|].
    unfold candidate_matches in Hm. apply andb_true_iff in Hm as [Hf He].
    unfold positive_fields in Hf. cbn [forallb] in Hf.
    apply andb_true_iff in Hf as [F1 Hf]. apply andb_true_iff in Hf as [F2 Hf].
    apply andb_true_iff in Hf as [F3 Hf]. apply andb_true_iff in Hf as [F4 Hf].
    apply andb_true_iff in Hf as [F5 _].
    split; [|split; [|split; [|split; [|split]]]].
    + intros x s Hx Hs. destruct (t_exclude_skills t) as [|e es]; [contradiction|].
      apply negb_true_iff in He.
      destruct (contains x s || contains s x) eqn:Exs.
      * assert (Hy : existsb (fun skill => existsb (fun s0 => contains skill s0 || contains s0 skill)
                        (map lower (get_or [] (c_skills c)))) (e :: es) = true).
        { apply existsb_exists. exists x. split; [exact Hx|].
          apply existsb_exists. exists s. auto. }
        rewrite Hy in He. discriminate He.
      * apply orb_false_iff in Exs. exact Exs.
    + intros Hn. exact (opt_list_match _ _ Hsk (field_clause _ _ F1 Hn)).
    + intros Hn. exact (opt_str_match _ _ (field_clause _ _ F2 Hn)).
    + intros Hn. exact (opt_list_match _ _ Hloc (field_clause _ _ F3 Hn)).
    + intros Hn. exact (opt_str_match _ _ (field_clause _ _ F4 Hn)).
    + intros Hn. exact (opt_str_match _ _ (field_clause _ _ F5 Hn)).
Qed.

Lemma keyword_search_results_witness :
  extract_search_terms "Senior Python developer without Docker"
    = Ok (mkTerms ["python"] ["senior"] [] [] [] ["docker"])
  /\ In (mkCandidate (Some "D") (Some "senior") (Some ["Python"; "RAG"]) None None None)
       (GroqSearch.match_candidates
          [Samples.cand_senior_python_docker; (mkCandidate (Some "D") (Some "senior") (Some ["Python"; "RAG"]) None None None)]
          (mkTerms ["python"] ["senior"] [] [] [] ["docker"]))
  /\ exists v, In v ["python"]
       /\ In v (map lower (get_or [] (c_skills (mkCandidate (Some "D") (Some "senior") (Some ["Python"; "RAG"]) None None None)))).
Proof.
  assert (Hex : extract_search_terms "Senior Python developer without Docker"
                = Ok (mkTerms ["python"] ["senior"] [] [] [] ["docker"])) by (vm_compute; reflexivity).
  assert (Hin : In (mkCandidate (Some "D") (Some "senior") (Some ["Python"; "RAG"]) None None None)
       (GroqSearch.match_candidates
          [Samples.cand_senior_python_docker; (mkCandidate (Some "D") (Some "senior") (Some ["Python"; "RAG"]) None None None)]
          (mkTerms ["python"] ["senior"] [] [] [] ["docker"]))) by (vm_compute; auto).
  split; [exact Hex|]. split; [exact Hin|].
  destruct (keyword_search_results _
              [Samples.cand_senior_python_docker; (mkCandidate (Some "D") (Some "senior") (Some ["Python"; "RAG"]) None None None)] _ Hex)
    as [_ Hall].
  destruct (Hall _ Hin) as [_ [_ [Hs _]]].
  apply Hs. discriminate.
Defined.

End ExtraSearch.

Module ExtraJson.
Import Py Ranker StrictHelpers Background JsonReply.

Lemma find_aux_spec c s i :
  let r := find_aux c s i in
  (r = (-1)%Z /\ forall k, String.get k s <> Some c)
  \/ exists k, r = (i + Z.of_nat k)%Z /\ String.get k s = Some c
               /\ forall k', (k' < k)%nat -> String.get k' s <> Some c.
Proof.
  revert i. induction s as [|d s IH]; intros i r; subst r; cbn [find_aux].
  - left. split; [reflexivity|]. intros k; destruct k; discriminate.
  - destruct (Ascii.eqb c d) eqn:E.
    + apply Ascii.eqb_eq in E. subst d. right. exists 0%nat.
      split; [lia|]. split; [reflexivity|]. intros k' Hk; lia.
    + destruct (IH (i + 1)%Z) as [[Hr Hn]|[k [Hr [Hg Hb]]]].
      * left. split; [exact Hr|]. intros [|k]; cbn; [|apply Hn].
        intros H; injection H as ->. rewrite Ascii.eqb_refl in E. discriminate.
      * right. exists (S k). split; [lia|]. split; [exact Hg|].
        intros [|k'] Hk; cbn.
        -- intros H; injection H as ->. rewrite Ascii.eqb_refl in E. discriminate.
        -- apply Hb. lia.
Qed.

Lemma rfind_aux_spec c s i best :
  let r := rfind_aux c s i best in
  (r = best /\ forall k, String.get k s <> Some c)
  \/ exists k, r = (i + Z.of_nat k)%Z /\ String.get k s = Some c
               /\ forall k', (k < k')%nat -> String.get k' s <> Some c.
Proof.
  revert i best. induction s as [|d s IH]; intros i best r; subst r; cbn [rfind_aux].
  - left. split; [reflexivity|]. intros k; destruct k; discriminate.
  - destruct (IH (i + 1)%Z (if Ascii.eqb c d then i else best)) as [[Hr Hn]|[k [Hr [Hg Hb]]]].
    + destruct (Ascii.eqb c d) eqn:E.
      * apply Ascii.eqb_eq in E. subst d. right. exists 0%nat. split; [lia|].
        split; [reflexivity|]. intros [|k'] Hk; [lia|]. apply Hn.
      * left. split; [exact Hr|]. intros [|k]; cbn; [|apply Hn].
        intros H; injection H as ->. rewrite Ascii.eqb_refl in E. discriminate.
    + right. exists (S k). split; [lia|]. split; [exact Hg|].
      intros [|k'] Hk; [lia|]. apply Hb. lia.
Qed.

(** X25. When the CV comparator's reply does not decode as JSON but is
    accepted, the value is the decoding of the slice from the first '{' to the
    last '}' of the reply. *)
Theorem comparator_reply_slice (json_loads : string -> string + jval) content v :
  comparator_parse json_loads content = Ok v ->
  json_loads content = inr v
  \/ ((exists e, json_loads content = inl e)
      /\ exists i j, (i < j)%nat
         /\ json_loads (substring i (j - i) content) = inr v
         /\ String.get i content = Some "{"%char
         /\ String.get (j - 1) content = Some "}"%char
         /\ (forall k, (k < i)%nat -> String.get k content <> Some "{"%char)
         /\ (forall k, (j <= k)%nat -> String.get k content <> Some "}"%char)).
Proof.
  unfold comparator_parse. intros H.
  destruct (json_loads content) as [e|w] eqn:Ej;
    [|injection H as <-; left; reflexivity].
  right. split; [exists e; reflexivity|]. revert H.
  cbv zeta. unfold JsonReply.find, JsonReply.rfind.
  destruct (find_aux_spec "{" content 0) as [[Hs _]|[i [Hs [Hgi Hbi]]]].
  { rewrite Hs. cbn. discriminate. }
  destruct (rfind_aux_spec "}" content 0 (-1)) as [[Hr _]|[k [Hr [Hgk Hbk]]]].
  { rewrite Hs, Hr. destruct (Z.eqb _ _ || Z.leb _ _) eqn:Ec; [discriminate|].
    apply orb_false_iff in Ec as [_ Ec]. apply Z.leb_gt in Ec. lia. }
  rewrite Hs, Hr.
  destruct (Z.eqb (0 + Z.of_nat i) (-1) || Z.leb (0 + Z.of_nat k + 1) (0 + Z.of_nat i)) eqn:Ec;
    [discriminate|].
  apply orb_false_iff in Ec as [_ Ec]. apply Z.leb_gt in Ec.
  unfold slice.
  replace (Z.to_nat (0 + Z.of_nat i)) with i by lia.
  replace (Z.to_nat (0 + Z.of_nat k + 1 - (0 + Z.of_nat i))) with (S k - i)%nat by lia.
  destruct (json_loads (substring i (S k - i) content)) as [m|w'] eqn:Es; [discriminate|].
  intros H. injection H as <-.
  exists i, (S k). split; [lia|]. split; [exact Es|]. split; [exact Hgi|].
  split; [replace (S k - 1)%nat with k by lia; exact Hgk|].
  split; [exact Hbi|]. intros k' Hk'. apply Hbk. lia.
Qed.

Lemma find_aux_ge c s i : (0 <= i)%Z -> (-1 <= find_aux c s i)%Z.
Proof.
  revert i. induction s as [|d s IH]; intros i Hi; cbn [find_aux]; [lia|].
  destruct (Ascii.eqb c d); [lia|]. apply IH. lia.
Qed.

(** X26. The CV analyser's and the CV comparator's API wrappers accept the
    same replies with the same values; every failure of the analyser's wrapper
    is an Exception whose message starts with 'Error calling Groq API: '. *)
Theorem analyser_comparator_agree (json_loads : string -> string + jval) resp v :
  (analyser_call json_loads resp = Ok v <-> comparator_call json_loads resp = Ok v)
  /\ forall k m, analyser_call json_loads resp = Exc k m ->
     k = "Exception" /\ exists m', m = ("Error calling Groq API: " ++ m')%string.
Proof.
  destruct resp as [msg|content]; cbn [analyser_call comparator_call].
  - split; [split; discriminate|]. intros k m H. injection H as <- <-.
    split; [reflexivity|]. exists msg. reflexivity.
  - assert (Hp : analyser_parse json_loads content = comparator_parse json_loads content
                 \/ (exists m, analyser_parse json_loads content = Exc "ValueError" m)
                    /\ forall w, comparator_parse json_loads content <> Ok w).
    { unfold analyser_parse, comparator_parse.
      destruct (json_loads content) as [e|w]; [|left; reflexivity].
      pose proof (find_aux_ge "{" content 0 (Z.le_refl 0)) as Hge. unfold find.
      set (st := find_aux "{" content 0) in *.
      set (en := (rfind "}" content + 1)%Z).
      assert (Hb : (Z.leb 0 st && Z.ltb st en) = negb (Z.eqb st (-1) || Z.leb en st)).
      { destruct (Z.leb 0 st) eqn:E1, (Z.ltb st en) eqn:E2, (Z.eqb st (-1)) eqn:E3,
          (Z.leb en st) eqn:E4; try reflexivity;
          rewrite ?Z.leb_le, ?Z.leb_gt, ?Z.ltb_lt, ?Z.ltb_ge, ?Z.eqb_eq, ?Z.eqb_neq in *; lia. }
      rewrite Hb. destruct (Z.eqb st (-1) || Z.leb en st); cbn [negb].
      - right. split; [eexists; reflexivity|]. intros w; discriminate.
      - destruct (json_loads (slice content st en)); [|left; reflexivity].
        right. split; [eexists; reflexivity|]. intros w; discriminate. }
    destruct Hp as [Hp|[[m Hm] Hn]].
    + rewrite Hp. destruct (comparator_parse json_loads content) as [w|k m].
      * split; [tauto|]. intros k m H; discriminate H.
      * split; [split; discriminate|]. intros k' m' H. injection H as <- <-.
        split; [reflexivity|]. exists m. reflexivity.
    + rewrite Hm. split.
      * split; [discriminate|]. intros H. exfalso. exact (Hn v H).
      * intros k' m' H. injection H as <- <-. split; [reflexivity|]. exists m. reflexivity.
Qed.

Lemma comparator_reply_slice_witness :
  comparator_parse (fun s => if String.eqb s "{}" then inr (JObj []) else inl "Expecting value")
    "Sure: {} done" = Ok (JObj [])
  /\ String.get 6 "Sure: {} done" = Some "{"%char.
Proof.
  assert (H : comparator_parse
                (fun s => if String.eqb s "{}" then inr (JObj []) else inl "Expecting value")
                "Sure: {} done" = Ok (JObj [])) by reflexivity.
  split; [exact H|].
  destruct (comparator_reply_slice
              (fun s => if String.eqb s "{}" then inr (JObj []) else inl "Expecting value")
              "Sure: {} done" (JObj []) H) as [Hl|[_ [i [j [_ [_ [Hi _]]]]]]].
  - discriminate Hl.
  - reflexivity.
Defined.

End ExtraJson.
